(** * keephy_search: the search service, embedded and verified

    The service is an Express application ([src/index.js]) over one Mongoose
    model ([src/models/SearchIndex.js]).  Each route handler turns loosely
    typed request parameters into one call on the model and shapes the
    answer into a response envelope.

    The embedding follows the code:
    - JavaScript values are a small sum type [Val]; objects used as maps
      (the [options] of [search], the filter handed to [find]) are finite
      maps from key to value;
    - a handler is a program [Prog Response] that may read the clock
      ([new Date()]), have an ObjectId generated, and call the storage
      layer; [try]/[catch] around an [await] is the case analysis on the
      storage result;
    - MongoDB and Mongoose are the storage collaborator: [exec] gives the
      meaning of each call on a collection held as a list of documents. *)

From stdpp Require Import base option list gmap strings sorting.
From Stdlib Require Import ZArith Ascii String Lia.

Local Open Scope Z_scope.

(** ** JavaScript values *)

(** Numbers are the integers and [NaN]: every number the handlers build
    comes out of [parseInt] or is an integer literal.  Strings are
    sequences of 8-bit characters, where JavaScript has 16-bit code units;
    the two agree, lengths included, on ASCII text. *)
Inductive JsNum : Type :=
  | NaN
  | Num (z : Z).

Inductive SortKey : Type :=
  | ByTextScore   (* score: { $meta: 'textScore' } *)
  | ByRating      (* 'metadata.rating' *)
  | ByIndexedAt.  (* indexedAt *)

Inductive Dir : Type :=
  | Asc    (*  1 *)
  | Desc.  (* -1 *)

(** A sort document; the keys apply in the order they were written. *)
Definition SortSpec : Type := list (SortKey * Dir).

Inductive Val : Type :=
  | VUndef
  | VNull
  | VBool (b : bool)
  | VNum (n : JsNum)
  | VStr (s : string)
  | VOid (o : string)          (* an ObjectId, named by its hex string *)
  | VDate (ms : Z)
  | VArr (l : list string)
  | VSort (s : SortSpec).

#[global] Instance JsNum_eq_dec : EqDecision JsNum.
Proof. solve_decision. Defined.
#[global] Instance SortKey_eq_dec : EqDecision SortKey.
Proof. solve_decision. Defined.
#[global] Instance Dir_eq_dec : EqDecision Dir.
Proof. solve_decision. Defined.
#[global] Instance Val_eq_dec : EqDecision Val.
Proof. solve_decision. Defined.

(** ToBoolean. *)
Definition truthy (v : Val) : bool :=
  match v with
  | VUndef | VNull => false
  | VBool b => b
  | VNum NaN => false
  | VNum (Num z) => negb (z =? 0)
  | VStr s => negb (String.eqb s "")
  | VOid _ | VDate _ | VArr _ | VSort _ => true
  end.

(** [x.length > 0] for the values that have a length; for the others
    [undefined > 0] is false. *)
Definition has_elements (v : Val) : bool :=
  match v with
  | VStr s => negb (String.eqb s "")
  | VArr l => match l with [] => false | _ => true end
  | _ => false
  end.

(** *** parseInt *)

Definition is_ws (c : ascii) : bool :=
  let n := Z.of_nat (nat_of_ascii c) in
  (n =? 32) || ((9 <=? n) && (n <=? 13)).

Fixpoint trim_start (s : string) : string :=
  match s with
  | String c r => if is_ws c then trim_start r else s
  | EmptyString => s
  end.

Definition digit_val (c : ascii) : option Z :=
  let n := Z.of_nat (nat_of_ascii c) in
  if (48 <=? n) && (n <=? 57) then Some (n - 48)
  else if (97 <=? n) && (n <=? 122) then Some (n - 87)
  else if (65 <=? n) && (n <=? 90) then Some (n - 55)
  else None.

(** The longest prefix of digits below [radix], read from left to right;
    [acc] is [None] until a digit has been seen. *)
Fixpoint parse_digits (radix : Z) (s : string) (acc : option Z) : option Z :=
  match s with
  | String c r =>
      match digit_val c with
      | Some d =>
          if d <? radix
          then parse_digits radix r (Some (default 0 acc * radix + d))
          else acc
      | None => acc
      end
  | EmptyString => acc
  end.

(** [parseInt(string)] with no radix: leading white space (the ASCII
    one here) is skipped, a sign is read, [0x] selects base 16, and the
    digits that follow are read up to the first character that is not
    one.  No digit at all is [NaN].  Beyond 2^53 JavaScript rounds to the
    nearest double, which the integers here do not. *)
Definition parseInt_string (s : string) : JsNum :=
  let s := trim_start s in
  let '(neg, s) :=
    match s with
    | String "-" r => (true, r)
    | String "+" r => (false, r)
    | _ => (false, s)
    end in
  let '(radix, s) :=
    match s with
    | String "0" (String "x" r) => (16, r)
    | String "0" (String "X" r) => (16, r)
    | _ => (10, s)
    end in
  match parse_digits radix s None with
  | Some n => Num (if neg : bool then - n else n)
  | None => NaN
  end.

(** [parseInt] first turns its argument into a string.  An integer below
    1e21 prints as its digits and parses back to itself. *)
Definition parseInt (v : Val) : JsNum :=
  match v with
  | VStr s => parseInt_string s
  | VNum n => n
  | _ => NaN
  end.

(** *** String.prototype.split(',') *)

Fixpoint split_from (cur : string) (s : string) : list string :=
  match s with
  | EmptyString => [cur]
  | String c r =>
      if Ascii.eqb c ","
      then cur :: split_from "" r
      else split_from (cur +:+ String c "") r
  end.

Definition split_comma (s : string) : list string := split_from "" s.

(** ** The content record ([searchIndexSchema]) *)

Record Metadata : Type := {
  rating : option Z;
  sentiment : option string;
  language : option string;
  source : option string;
  author : option string
}.

(** A stored document.  [metadata.custom] and [searchableFields] are
    carried by no code path and are left out.  An ObjectId is held as the
    string that names it, and two strings name two ids. *)
Record Doc : Type := {
  doc_id : string;
  businessId : string;
  franchiseId : option string;
  contentType : string;
  contentId : string;
  title : string;
  content : string;
  tags : list string;
  categories : list string;
  metadata : Metadata;
  isActive : bool;
  indexedAt : Z;
  createdAt : Z;
  updatedAt : Z
}.

(** An object holding some of the schema's paths: a request payload, a
    document under construction, the update of [findByIdAndUpdate].
    [None] is an absent key; [f_id] is the [_id] key. *)
Record Fields : Type := {
  f_id : option string;
  f_businessId : option string;
  f_franchiseId : option string;
  f_contentType : option string;
  f_contentId : option string;
  f_title : option string;
  f_content : option string;
  f_tags : option (list string);
  f_categories : option (list string);
  f_metadata : option Metadata;
  f_isActive : option bool;
  f_indexedAt : option Z;
  f_createdAt : option Z;
  f_updatedAt : option Z
}.

#[global] Instance Metadata_eq_dec : EqDecision Metadata.
Proof. solve_decision. Defined.
#[global] Instance Doc_eq_dec : EqDecision Doc.
Proof. solve_decision. Defined.
#[global] Instance Fields_eq_dec : EqDecision Fields.
Proof. solve_decision. Defined.

Definition no_metadata : Metadata :=
  {| rating := None; sentiment := None; language := None;
     source := None; author := None |}.

Definition no_fields : Fields :=
  {| f_id := None; f_businessId := None; f_franchiseId := None; f_contentType := None;
     f_contentId := None; f_title := None; f_content := None;
     f_tags := None; f_categories := None; f_metadata := None;
     f_isActive := None; f_indexedAt := None; f_createdAt := None;
     f_updatedAt := None |}.

Definition set_indexedAt (t : Z) (d : Doc) : Doc :=
  {| doc_id := doc_id d; businessId := businessId d;
     franchiseId := franchiseId d; contentType := contentType d;
     contentId := contentId d; title := title d; content := content d;
     tags := tags d; categories := categories d; metadata := metadata d;
     isActive := isActive d; indexedAt := t; createdAt := createdAt d;
     updatedAt := updatedAt d |}.

Definition set_updatedAt (t : Z) (d : Doc) : Doc :=
  {| doc_id := doc_id d; businessId := businessId d;
     franchiseId := franchiseId d; contentType := contentType d;
     contentId := contentId d; title := title d; content := content d;
     tags := tags d; categories := categories d; metadata := metadata d;
     isActive := isActive d; indexedAt := indexedAt d;
     createdAt := createdAt d; updatedAt := t |}.

Definition set_tags (l : list string) (d : Doc) : Doc :=
  {| doc_id := doc_id d; businessId := businessId d;
     franchiseId := franchiseId d; contentType := contentType d;
     contentId := contentId d; title := title d; content := content d;
     tags := l; categories := categories d; metadata := metadata d;
     isActive := isActive d; indexedAt := indexedAt d;
     createdAt := createdAt d; updatedAt := updatedAt d |}.


(** [{ ...item, indexedAt: t }] *)
Definition with_indexedAt (t : Z) (f : Fields) : Fields :=
  {| f_id := f_id f;
     f_businessId := f_businessId f; f_franchiseId := f_franchiseId f;
     f_contentType := f_contentType f; f_contentId := f_contentId f;
     f_title := f_title f; f_content := f_content f; f_tags := f_tags f;
     f_categories := f_categories f; f_metadata := f_metadata f;
     f_isActive := f_isActive f; f_indexedAt := Some t;
     f_createdAt := f_createdAt f; f_updatedAt := f_updatedAt f |}.

(** The value a document has at a path, as the query engine reads it. *)
Definition of_opt {A} (f : A → Val) (o : option A) : Val :=
  match o with Some a => f a | None => VUndef end.

Definition doc_field (d : Doc) (path : string) : Val :=
  if String.eqb path "_id" then VOid (doc_id d)
  else if String.eqb path "businessId" then VOid (businessId d)
  else if String.eqb path "franchiseId" then
    match franchiseId d with Some o => VOid o | None => VNull end
  else if String.eqb path "contentType" then VStr (contentType d)
  else if String.eqb path "contentId" then VOid (contentId d)
  else if String.eqb path "title" then VStr (title d)
  else if String.eqb path "content" then VStr (content d)
  else if String.eqb path "tags" then VArr (tags d)
  else if String.eqb path "categories" then VArr (categories d)
  else if String.eqb path "metadata.rating" then
    of_opt (λ z, VNum (Num z)) (rating (metadata d))
  else if String.eqb path "metadata.sentiment" then
    of_opt VStr (sentiment (metadata d))
  else if String.eqb path "metadata.language" then
    of_opt VStr (language (metadata d))
  else if String.eqb path "metadata.source" then
    of_opt VStr (source (metadata d))
  else if String.eqb path "metadata.author" then
    of_opt VStr (author (metadata d))
  else if String.eqb path "isActive" then VBool (isActive d)
  else if String.eqb path "indexedAt" then VDate (indexedAt d)
  else if String.eqb path "createdAt" then VDate (createdAt d)
  else if String.eqb path "updatedAt" then VDate (updatedAt d)
  else VUndef.

(** ** Queries *)

Inductive Cond : Type :=
  | CEq (v : Val)        (* path: v *)
  | CIn (v : Val)        (* path: { $in: v } *)
  | CGte (v : Val)       (* path: { $gte: v } *)
  | CText (v : Val)      (* $text: { $search: v } *)
  | CRegexI (v : Val).   (* path: { $regex: v, $options: 'i' } *)

#[global] Instance Cond_eq_dec : EqDecision Cond.
Proof. solve_decision. Defined.

(** What the service takes from the database engine and its driver
    without looking inside: which documents a text search or a regular
    expression matches, the relevance score, and which strings are the
    text of an ObjectId ([is_oid]: the strings the ObjectId constructor
    and Mongoose's cast accept; every other string makes them throw).
    [score_of None] is a sort on [textScore] in a query that has no
    [$text]; an engine may refuse it ([None]). *)
Class SearchEngine : Type := {
  text_match : string → Doc → bool;
  score_of : option string → option (Doc → Z);
  regex_match_i : string → string → bool;
  is_oid : string → bool
}.

Section Storage.
Context `{SearchEngine}.

Definition holds (c : Cond) (path : string) (d : Doc) : bool :=
  let fv := doc_field d path in
  match c with
  | CEq v =>
      match fv, v with
      | VArr l, VStr s => bool_decide (s ∈ l)
      | _, _ => bool_decide (fv = v)
      end
  | CIn (VArr vs) =>
      match fv with
      | VStr s => bool_decide (s ∈ vs)
      | VArr l => existsb (λ s, bool_decide (s ∈ vs)) l
      | _ => false
      end
  | CIn _ => false
  | CGte (VNum (Num m)) =>
      match fv with
      | VNum (Num r) => m <=? r
      | _ => false
      end
  | CGte _ => false
  | CText (VStr s) => text_match s d
  | CText _ => false
  | CRegexI (VStr p) =>
      match fv with
      | VStr s => regex_match_i p s
      | VArr l => existsb (regex_match_i p) l
      | _ => false
      end
  | CRegexI _ => false
  end.

(** A filter is a conjunction of conditions, one per key. *)
Definition matches (q : gmap string Cond) (d : Doc) : Prop :=
  map_Forall (λ path c, holds c path d = true) q.

#[global] Instance matches_dec q d : Decision (matches q d).
Proof. unfold matches. apply _. Defined.

(** *** Casting by Mongoose

    [find] casts the filter against the schema before it is sent: a string
    under an ObjectId path becomes that ObjectId when it is the text of
    one, and is a CastError otherwise.  A value of another type than the
    path's, or a path the schema does not have, is refused here too;
    Mongoose converts some such values (a numeric string under a Number
    path, say), and no statement below rests on one.  An aggregation
    pipeline is sent as written, with no cast. *)
Inductive SType : Type :=
  | TObjectId | TString | TNumber | TBoolean | TDate | TStrings.

Definition schema_type (path : string) : option SType :=
  if String.eqb path "_id" then Some TObjectId
  else if String.eqb path "businessId" then Some TObjectId
  else if String.eqb path "franchiseId" then Some TObjectId
  else if String.eqb path "contentType" then Some TString
  else if String.eqb path "contentId" then Some TObjectId
  else if String.eqb path "title" then Some TString
  else if String.eqb path "content" then Some TString
  else if String.eqb path "tags" then Some TStrings
  else if String.eqb path "categories" then Some TStrings
  else if String.eqb path "metadata.rating" then Some TNumber
  else if String.eqb path "metadata.sentiment" then Some TString
  else if String.eqb path "metadata.language" then Some TString
  else if String.eqb path "metadata.source" then Some TString
  else if String.eqb path "metadata.author" then Some TString
  else if String.eqb path "isActive" then Some TBoolean
  else if String.eqb path "indexedAt" then Some TDate
  else if String.eqb path "createdAt" then Some TDate
  else if String.eqb path "updatedAt" then Some TDate
  else None.

Definition cast_val (t : SType) (v : Val) : option Val :=
  match t, v with
  | TObjectId, VOid o => Some (VOid o)
  | TObjectId, VStr s => if is_oid s then Some (VOid s) else None
  | TString, VStr s => Some (VStr s)
  | TStrings, VStr s => Some (VStr s)
  | TNumber, VNum (Num z) => Some (VNum (Num z))
  | TBoolean, VBool b => Some (VBool b)
  | TDate, VDate t => Some (VDate t)
  | _, _ => None
  end.

Definition cast_cond (path : string) (c : Cond) : option Cond :=
  match c with
  | CText (VStr s) => if String.eqb path "$text" then Some c else None
  | CText _ => None
  | CEq v => t ← schema_type path; CEq <$> cast_val t v
  | CGte v => t ← schema_type path; CGte <$> cast_val t v
  | CIn (VArr l) =>
      match schema_type path with
      | Some TStrings | Some TString => Some c
      | _ => None
      end
  | CIn (VStr s) =>
      match schema_type path with
      | Some TStrings | Some TString => Some (CIn (VArr [s]))
      | _ => None
      end
  | CIn _ => None
  | CRegexI (VStr p) =>
      match schema_type path with
      | Some TStrings | Some TString => Some c
      | _ => None
      end
  | CRegexI _ => None
  end.

Definition cast_query (q : gmap string Cond) : option (gmap string Cond) :=
  if bool_decide (map_Forall (λ path c, is_Some (cast_cond path c)) q)
  then Some (map_imap cast_cond q)
  else None.

(** *** Sorting

    A document's sort key under a sort document is a list of integers
    compared from the left: per key a presence flag and the value (a
    missing field sorts below every number), negated for a descending
    key. *)
Definition opt_key (o : option Z) : list Z :=
  match o with
  | Some z => [1; z]
  | None => [0; 0]
  end.

Definition key_of (score : Doc → Z) (k : SortKey) (d : Doc) : list Z :=
  match k with
  | ByTextScore => [1; score d]
  | ByRating => opt_key (rating (metadata d))
  | ByIndexedAt => [1; indexedAt d]
  end.

Definition signed (dir : Dir) (l : list Z) : list Z :=
  match dir with
  | Asc => l
  | Desc => Z.opp <$> l
  end.

Fixpoint sort_keys (score : Doc → Z) (spec : SortSpec) (d : Doc) : list Z :=
  match spec with
  | [] => []
  | (k, dir) :: rest => signed dir (key_of score k d) ++ sort_keys score rest d
  end.

Fixpoint lex_leb (xs ys : list Z) : bool :=
  match xs, ys with
  | [], _ => true
  | _ :: _, [] => false
  | x :: xs, y :: ys => (x <? y) || ((x =? y) && lex_leb xs ys)
  end.

Definition sort_le (score : Doc → Z) (spec : SortSpec) (a b : Doc) : Prop :=
  lex_leb (sort_keys score spec a) (sort_keys score spec b) = true.

#[global] Instance sort_le_dec score spec : RelDecision (sort_le score spec).
Proof. intros a b. unfold sort_le. apply _. Defined.

Definition sort_docs (score : Doc → Z) (spec : SortSpec) : list Doc → list Doc :=
  merge_sort (sort_le score spec).

(** *** Paging

    The server sorts, then skips, then limits, in whatever order the
    query was chained.  [limit(0)] is no limit and a negative limit is its
    absolute value.  What becomes of a negative skip, of [NaN] and of
    anything that is not a number is decided by the driver and the
    server, not by this repository: they are taken to be refused, and no
    statement below rests on that. *)
Definition as_int (v : Val) : option Z :=
  match v with
  | VNum (Num z) => Some z
  | _ => None
  end.

Definition page (limit skip : Val) (l : list Doc) : option (list Doc) :=
  n ← as_int limit;
  k ← as_int skip;
  if k <? 0 then None
  else
    let l := drop (Z.to_nat k) l in
    Some (if n =? 0 then l else take (Z.to_nat (Z.abs n)) l).

Definition text_of (q : gmap string Cond) : option string :=
  match q !! "$text" with
  | Some (CText (VStr s)) => Some s
  | _ => None
  end.

Definition uses_score (spec : SortSpec) : bool :=
  existsb (λ kd, bool_decide (kd.1 = ByTextScore)) spec.

Definition scorer (q : gmap string Cond) (spec : SortSpec) : option (Doc → Z) :=
  if uses_score spec then score_of (text_of q) else Some (λ _, 0).

(** [Model.find(filter).sort(sort).limit(limit).skip(skip)]: the
    documents the query selects, in the order it puts them; [None] is a
    rejected promise.  [lean] and the two [populate] steps are left out:
    they select no document and change no order.  The paths they
    populate refer to models ([Franchise], and no model at all for
    [contentId]) that this repository does not register, so in a process
    that runs this repository alone the populate step rejects as soon as
    the query has selected a document.  [exec] below answers a find with
    the documents selected, as it is answered where those models are
    registered; the theorems on the documents of a find say what an
    answer holds when there is one. *)
Definition run_find (conditions : gmap string Cond) (sort limit skip : Val)
    (coll : list Doc) : option (list Doc) :=
  q ← cast_query conditions;
  spec ← (match sort with VSort s => Some s | _ => None end);
  sc ← scorer q spec;
  page limit skip (sort_docs sc spec (filter (matches q) coll)).

(** *** Aggregation pipelines *)

(** [{ $unwind: '$tags' }]: one entry per tag of each document, in order. *)
Definition unwind_tags (l : list Doc) : list string := l ≫= tags.

Definition count_of (t : string) (l : list string) : Z :=
  Z.of_nat (List.length (filter (t =.) l)).

(** [{ $group: { _id: '$tags', count: { $sum: 1 } } }] *)
Definition group_count (l : list string) : list (string * Z) :=
  (λ t, (t, count_of t l)) <$> remove_dups l.

(** [{ $sort: { count: -1 } }] *)
Definition by_count_desc (a b : string * Z) : Prop := b.2 ≤ a.2.

#[global] Instance by_count_desc_dec : RelDecision by_count_desc.
Proof. intros a b. unfold by_count_desc. apply _. Defined.

(** [{ $limit: n }]: the server takes a positive integer only. *)
Definition agg_limit {A} (limit : Val) (l : list A) : option (list A) :=
  match limit with
  | VNum (Num n) => if 0 <? n then Some (take (Z.to_nat n) l) else None
  | _ => None
  end.

Definition run_popular_tags (m : gmap string Cond) (limit : Val)
    (coll : list Doc) : option (list (string * Z)) :=
  agg_limit limit
    (merge_sort by_count_desc (group_count (unwind_tags (filter (matches m) coll)))).

(** One group of the content statistics.  [avgRating] is the quotient of
    [st_ratingSum] by [st_ratingCount] (the documents of the group that
    have a rating), which the server rounds to two places; the two
    integers are kept instead of the quotient.  [$push] skips a missing
    sentiment. *)
Record StatRow : Type := {
  st_contentType : string;
  st_count : Z;
  st_ratingSum : Z;
  st_ratingCount : Z;
  st_sentimentBreakdown : list string
}.

Definition stat_row (l : list Doc) (ct : string) : StatRow :=
  let g := filter (λ d, contentType d = ct) l in
  let ratings := omap (λ d, rating (metadata d)) g in
  {| st_contentType := ct;
     st_count := Z.of_nat (List.length g);
     st_ratingSum := foldr Z.add 0 ratings;
     st_ratingCount := Z.of_nat (List.length ratings);
     st_sentimentBreakdown := omap (λ d, sentiment (metadata d)) g |}.

Definition run_stats (m : gmap string Cond) (coll : list Doc) : list StatRow :=
  let l := filter (matches m) coll in
  stat_row l <$> remove_dups (contentType <$> l).

(** [{ $project: { title: 1, tags: 1, contentType: 1 } }] keeps [_id]. *)
Record Suggestion : Type := {
  sg_id : string;
  sg_title : string;
  sg_tags : list string;
  sg_contentType : string
}.

Definition project_suggestion (d : Doc) : Suggestion :=
  {| sg_id := doc_id d; sg_title := title d; sg_tags := tags d;
     sg_contentType := contentType d |}.

(** [$match] with an [$or]: every condition of [m] and one of the
    alternatives. *)
Definition matches_or (m : gmap string Cond) (alts : list (gmap string Cond))
    (d : Doc) : Prop :=
  matches m d ∧ Exists (λ alt, matches alt d) alts.

#[global] Instance matches_or_dec m alts d : Decision (matches_or m alts d).
Proof. unfold matches_or. apply _. Defined.

(** The pipeline has no [$sort]: which matches come first is the server's
    choice, taken here to be the order of the collection. *)
Definition run_suggest (m : gmap string Cond) (alts : list (gmap string Cond))
    (limit : Val) (coll : list Doc) : option (list Suggestion) :=
  agg_limit limit (project_suggestion <$> filter (matches_or m alts) coll).

(** *** Writes *)

Definition content_types : list string :=
  ["submission"; "form"; "staff"; "franchise"; "business"; "discount";
   "notification"; "report"].

Definition sentiments : list string := ["positive"; "negative"; "neutral"].

Definition at_most (n : nat) (s : string) : bool := (String.length s <=? n)%nat.

Definition in_range (lo hi : Z) (o : option Z) : bool :=
  match o with
  | Some z => (lo <=? z) && (z <=? hi)
  | None => true
  end.

Definition opt_all {A} (p : A → bool) (o : option A) : bool :=
  match o with
  | Some a => p a
  | None => true
  end.

(** The schema's validators, run by [save] and [insertMany]. *)
Definition validate (d : Doc) : bool :=
  bool_decide (contentType d ∈ content_types)
  && negb (String.eqb (title d) "") && at_most 200 (title d)
  && negb (String.eqb (content d) "") && at_most 5000 (content d)
  && forallb (at_most 50) (tags d)
  && forallb (at_most 50) (categories d)
  && in_range 1 5 (rating (metadata d))
  && opt_all (λ s, bool_decide (s ∈ sentiments)) (sentiment (metadata d))
  && opt_all (at_most 10) (language (metadata d))
  && opt_all (at_most 50) (source (metadata d))
  && opt_all (at_most 100) (author (metadata d)).

Definition with_language_default (m : Metadata) : Metadata :=
  {| rating := rating m; sentiment := sentiment m;
     language := Some (default "en" (language m));
     source := source m; author := author m |}.

(** The ObjectId paths of an object can be cast: each one that is there
    holds the text of an ObjectId. *)
Definition castable (f : Fields) : bool :=
  opt_all is_oid (f_businessId f) && opt_all is_oid (f_franchiseId f)
  && opt_all is_oid (f_contentId f).

(** A new document from its fields: required paths must be there and the
    ObjectId paths must cast, the others take the schema's defaults
    ([Date.now] is [now]). *)
Definition to_doc (id : string) (now : Z) (f : Fields) : option Doc :=
  b ← f_businessId f;
  ct ← f_contentType f;
  cid ← f_contentId f;
  ti ← f_title f;
  co ← f_content f;
  if castable f then
    Some {| doc_id := id; businessId := b; franchiseId := f_franchiseId f;
            contentType := ct; contentId := cid; title := ti; content := co;
            tags := default [] (f_tags f);
            categories := default [] (f_categories f);
            metadata := with_language_default (default no_metadata (f_metadata f));
            isActive := default true (f_isActive f);
            indexedAt := default now (f_indexedAt f);
            createdAt := default now (f_createdAt f);
            updatedAt := default now (f_updatedAt f) |}
  else None.

(** [$set] of the keys that are there.  With [timestamps: true] Mongoose
    takes a [createdAt] out of the update and sets [updatedAt] to the
    time of the call, whatever the update holds. *)
Definition apply_update (now : Z) (f : Fields) (d : Doc) : Doc :=
  {| doc_id := doc_id d;
     businessId := default (businessId d) (f_businessId f);
     franchiseId := match f_franchiseId f with Some o => Some o | None => franchiseId d end;
     contentType := default (contentType d) (f_contentType f);
     contentId := default (contentId d) (f_contentId f);
     title := default (title d) (f_title f);
     content := default (content d) (f_content f);
     tags := default (tags d) (f_tags f);
     categories := default (categories d) (f_categories f);
     metadata := default (metadata d) (f_metadata f);
     isActive := default (isActive d) (f_isActive f);
     indexedAt := default (indexedAt d) (f_indexedAt f);
     createdAt := createdAt d;
     updatedAt := now |}.

Definition find_by_id (id : string) (coll : list Doc) : option Doc :=
  list_find (λ d, doc_id d = id) coll ≫= λ p, Some p.2.

Definition replace_doc (d : Doc) (coll : list Doc) : list Doc :=
  (λ x, if bool_decide (doc_id x = doc_id d) then d else x) <$> coll.

Definition remove_doc (id : string) (coll : list Doc) : list Doc :=
  filter (λ x, doc_id x ≠ id) coll.

(** The documents [insertMany] builds.  An item that brings an [_id]
    keeps it, and it has to be the text of an ObjectId; the other items
    take the generated ids in turn. *)
Fixpoint to_docs (fresh : nat → string) (next : nat) (now : Z)
    (items : list Fields) : option (list Doc) :=
  match items with
  | [] => Some []
  | f :: rest =>
      match f_id f with
      | Some i =>
          if is_oid i then
            d ← to_doc i now f;
            ds ← to_docs fresh next now rest;
            Some (d :: ds)
          else None
      | None =>
          d ← to_doc (fresh next) now f;
          ds ← to_docs fresh (S next) now rest;
          Some (d :: ds)
      end
  end.

(** The insertion of the documents of an ordered [insertMany], one by
    one: a document whose [_id], brought by its item, is in the collection
    already stops the insertion with a duplicate-key error ([false]), and
    the documents before it stay.  A generated id is a new one. *)
Fixpoint insert_ordered (coll : list Doc) (items : list Fields)
    (ds : list Doc) : list Doc * bool :=
  match items, ds with
  | f :: items, d :: ds =>
      match f_id f, find_by_id (doc_id d) coll with
      | Some _, Some _ => (coll, false)
      | _, _ => insert_ordered (coll ++ [d]) items ds
      end
  | _, _ => (coll, true)
  end.

(** The ids of a [findByIdAndUpdate] can be cast: the id, the ObjectId
    paths of the update and an [_id] it may hold. *)
Definition update_casts (id : string) (update : Fields) : bool :=
  is_oid id && castable update && opt_all is_oid (f_id update).

(** The update holds no [_id] other than the one of the document. *)
Definition keeps_id (id : string) (update : Fields) : bool :=
  opt_all (String.eqb id) (f_id update).

(** How many ids [insertMany] generates for these items. *)
Definition generated (items : list Fields) : nat :=
  List.length (filter (λ f, f_id f = None) items).

End Storage.

(** ** The storage interface *)

(** The calls the service makes on the Mongoose model. *)
Inductive StorageCall : Type :=
  | Find (conditions : gmap string Cond) (sort limit skip : Val)
    (* [$match m, $unwind '$tags', $group by '$tags' with count,
        $sort count -1, $limit limit] *)
  | AggregateTags (m : gmap string Cond) (limit : Val)
    (* [$match m, $group by '$contentType', $project] *)
  | AggregateStats (m : gmap string Cond)
    (* [$match m with $or alts, $project title tags contentType,
        $limit limit] *)
  | AggregateSuggest (m : gmap string Cond) (alts : list (gmap string Cond))
      (limit : Val)
  | Insert (f : Fields)              (* new SearchIndex(f).save() *)
  | Replace (d : Doc)                (* save() of a loaded document *)
  | InsertMany (items : list Fields)
  | FindByIdAndUpdate (id : string) (update : Fields)
  | FindByIdAndDelete (id : string).

Inductive Data : Type :=
  | DNone                            (* null, or no data key *)
  | DDoc (d : Doc)
  | DDocs (l : list Doc)
  | DTags (l : list (string * Z))    (* { _id: tag, count } *)
  | DStats (l : list StatRow)
  | DSuggest (l : list Suggestion).

(** What an [await] on a storage call gives: the value of the promise, or
    the exception thrown when it is rejected. *)
Inductive StorageResult : Type :=
  | Resolved (d : Data)
  | Rejected.

(** A handler: it answers, or reads the clock, or has an ObjectId
    generated, or calls storage, and goes on with what it got. *)
Inductive Prog (A : Type) : Type :=
  | Ret (a : A)
  | NewDate (k : Z → Prog A)                      (* new Date() *)
  | NewObjectId (k : string → Prog A)             (* new ObjectId() *)
  | Db (c : StorageCall) (k : StorageResult → Prog A).

Arguments Ret {A} a.
Arguments NewDate {A} k.
Arguments NewObjectId {A} k.
Arguments Db {A} c k.

Fixpoint bind {A B} (p : Prog A) (f : A → Prog B) : Prog B :=
  match p with
  | Ret a => f a
  | NewDate k => NewDate (λ t, bind (k t) f)
  | NewObjectId k => NewObjectId (λ o, bind (k o) f)
  | Db c k => Db c (λ r, bind (k r) f)
  end.

#[global] Instance Prog_ret : MRet Prog := @Ret.
#[global] Instance Prog_bind : MBind Prog := λ A B f p, bind p f.

Definition new_Date : Prog Z := NewDate Ret.
Definition await (c : StorageCall) : Prog StorageResult := Db c Ret.

(** The storage calls a program makes when every call is answered by
    [answer] and the clock and the id generator by [now] and [oid]. *)
Fixpoint calls {A} (answer : StorageCall → StorageResult) (now : Z)
    (oid : string) (p : Prog A) : list StorageCall :=
  match p with
  | Ret _ => []
  | NewDate k => calls answer now oid (k now)
  | NewObjectId k => calls answer now oid (k oid)
  | Db c k => c :: calls answer now oid (k (answer c))
  end.

(** ** The model's statics and methods ([models/SearchIndex.js]) *)

Definition opt (o : gmap string Val) (k : string) : Val := default VUndef (o !! k).

(** A destructuring default [x = d]: taken when the value is [undefined]. *)
Definition or_default (v d : Val) : Val :=
  match v with
  | VUndef => d
  | _ => v
  end.

Module SearchIndex.

(** The [pre('save')] hook: [updatedAt] and [indexedAt] take two readings
    of the clock, in this order.  Mongoose runs it inside [save()], once
    the validators have passed and before the write ([exec]). *)
Definition pre_save (t1 t2 : Z) (d : Doc) : Doc :=
  set_indexedAt t2 (set_updatedAt t1 d).

(** [new SearchIndex(f).save()] and [this.save()] *)
Definition save_new (f : Fields) : Prog StorageResult := await (Insert f).

Definition save (d : Doc) : Prog StorageResult := await (Replace d).


(** [tags.includes(tag)] and [tags.push(tag)] *)
Definition includes (l : list string) (tag : string) : bool := bool_decide (tag ∈ l).

Definition push (l : list string) (tag : string) : list string := l ++ [tag].

(** The document [addTag] hands to [save]. *)
Definition addTag_doc (d : Doc) (tag : string) : Doc :=
  if negb (includes (tags d) tag) then set_tags (push (tags d) tag) d else d.

Definition addTag (d : Doc) (tag : string) : Prog StorageResult :=
  save (addTag_doc d tag).

Definition removeTag_doc (d : Doc) (tag : string) : Doc :=
  set_tags (filter (λ t, t ≠ tag) (tags d)) d.

Definition removeTag (d : Doc) (tag : string) : Prog StorageResult :=
  save (removeTag_doc d tag).

Definition default_sort : SortSpec := [(ByTextScore, Desc); (ByIndexedAt, Desc)].

(** The filter [search] builds. *)
Definition searchQuery (query : Val) (options : gmap string Val) : gmap string Cond :=
  let businessId := opt options "businessId" in
  let franchiseId := opt options "franchiseId" in
  let contentType := opt options "contentType" in
  let tags := opt options "tags" in
  let categories := opt options "categories" in
  let rating := opt options "rating" in
  let sentiment := opt options "sentiment" in
  let language := opt options "language" in
  let searchQuery : gmap string Cond := ∅ in
  let searchQuery :=
    if truthy query then <["$text" := CText query]> searchQuery else searchQuery in
  let searchQuery :=
    if truthy businessId then <["businessId" := CEq businessId]> searchQuery
    else searchQuery in
  let searchQuery :=
    if truthy franchiseId then <["franchiseId" := CEq franchiseId]> searchQuery
    else searchQuery in
  let searchQuery :=
    if truthy contentType then <["contentType" := CEq contentType]> searchQuery
    else searchQuery in
  let searchQuery :=
    if truthy tags && has_elements tags then <["tags" := CIn tags]> searchQuery
    else searchQuery in
  let searchQuery :=
    if truthy categories && has_elements categories
    then <["categories" := CIn categories]> searchQuery
    else searchQuery in
  let searchQuery :=
    if truthy rating then <["metadata.rating" := CEq rating]> searchQuery
    else searchQuery in
  let searchQuery :=
    if truthy sentiment then <["metadata.sentiment" := CEq sentiment]> searchQuery
    else searchQuery in
  let searchQuery :=
    if truthy language then <["metadata.language" := CEq language]> searchQuery
    else searchQuery in
  <["isActive" := CEq (VBool true)]> searchQuery.

Definition search (query : Val) (options : gmap string Val) : StorageCall :=
  let limit := or_default (opt options "limit") (VNum (Num 50)) in
  let offset := or_default (opt options "offset") (VNum (Num 0)) in
  let sortBy := or_default (opt options "sortBy") (VSort default_sort) in
  Find (searchQuery query options) sortBy limit offset.

Definition searchByContentType (contentType : Val) (query : Val)
    (options : gmap string Val) : StorageCall :=
  search query (<["contentType" := contentType]> options).

Definition owned_active (businessId : Val) : gmap string Cond :=
  <["isActive" := CEq (VBool true)]> (<["businessId" := CEq businessId]> ∅).

Definition getPopularTags (businessId : Val) (limit : Val) : StorageCall :=
  let limit := or_default limit (VNum (Num 20)) in
  AggregateTags (owned_active businessId) limit.

Definition getContentStats (businessId : Val) : StorageCall :=
  AggregateStats (owned_active businessId).

Definition getRecentContent (businessId : Val) (limit : Val) : StorageCall :=
  let limit := or_default limit (VNum (Num 20)) in
  Find (owned_active businessId) (VSort [(ByIndexedAt, Desc)]) limit (VNum (Num 0)).

Definition getContentByRating (businessId : Val) (minRating : Val) (limit : Val)
    : StorageCall :=
  let minRating := or_default minRating (VNum (Num 4)) in
  let limit := or_default limit (VNum (Num 20)) in
  Find (<["isActive" := CEq (VBool true)]>
          (<["metadata.rating" := CGte minRating]>
             (<["businessId" := CEq businessId]> ∅)))
       (VSort [(ByRating, Desc); (ByIndexedAt, Desc)]) limit (VNum (Num 0)).

End SearchIndex.

(** ** The route handlers ([index.js]) *)

(** The response envelope with its HTTP status.  The keys that echo the
    request ([query], [filters], [contentType], [pagination], [sort]) are
    left out. *)
Record Response : Type := {
  status : Z;
  success : bool;
  error : option string;
  message : option string;
  data : Data;
  count : option Z
}.

Definition fail (code : Z) (msg : string) : Response :=
  {| status := code; success := false; error := Some msg; message := None;
     data := DNone; count := None |}.

Definition data_length (d : Data) : Z :=
  match d with
  | DNone | DDoc _ => 0
  | DDocs l => Z.of_nat (List.length l)
  | DTags l => Z.of_nat (List.length l)
  | DStats l => Z.of_nat (List.length l)
  | DSuggest l => Z.of_nat (List.length l)
  end.

(** [{ success: true, data: results, count: results.length }] *)
Definition ok_list (code : Z) (d : Data) : Response :=
  {| status := code; success := true; error := None; message := None;
     data := d; count := Some (data_length d) |}.

(** [{ success: true, data }] *)
Definition ok_data (code : Z) (d : Data) : Response :=
  {| status := code; success := true; error := None; message := None;
     data := d; count := None |}.

(** A key of [req.query]: a string, or [undefined].  (A repeated or
    bracketed key, which Express parses to an array or an object, is not
    modelled.) *)
Definition param (query : gmap string string) (k : string) : Val :=
  match query !! k with
  | Some s => VStr s
  | None => VUndef
  end.

(** [x ? x.split(',') : undefined] *)
Definition split_or_undefined (v : Val) : Val :=
  match v with
  | VStr s => if truthy v then VArr (split_comma s) else VUndef
  | _ => VUndef
  end.

(** [x ? parseInt(x) : undefined] *)
Definition parseInt_or_undefined (v : Val) : Val :=
  if truthy v then VNum (parseInt v) else VUndef.

Definition is_str (v : Val) (s : string) : bool := bool_decide (v = VStr s).

Module Routes.

(** The [options] both GET search routes build; [contentType] is a query
    key on the first route only. *)
Definition search_options (query : gmap string string) (contentType : Val)
    : gmap string Val :=
  list_to_map
    [("businessId", param query "businessId");
     ("franchiseId", param query "franchiseId");
     ("contentType", contentType);
     ("tags", split_or_undefined (param query "tags"));
     ("categories", split_or_undefined (param query "categories"));
     ("rating", parseInt_or_undefined (param query "rating"));
     ("sentiment", param query "sentiment");
     ("language", param query "language");
     ("limit", VNum (parseInt (or_default (param query "limit") (VNum (Num 50)))));
     ("offset", VNum (parseInt (or_default (param query "offset") (VNum (Num 0)))))].

(** The sort resolution of [GET /api/search]. *)
Definition search_sort (sortBy q : Val) : SortSpec :=
  if is_str sortBy "relevance" && truthy q then
    [(ByTextScore, Desc); (ByIndexedAt, Desc)]
  else if is_str sortBy "rating" then
    [(ByRating, Desc); (ByIndexedAt, Desc)]
  else if is_str sortBy "date" then
    [(ByIndexedAt, Desc)]
  else
    [(ByIndexedAt, Desc)].

(** [GET /api/search] *)
Definition get_search (query : gmap string string) : Prog Response :=
  let q := param query "q" in
  let businessId := param query "businessId" in
  let sortBy := or_default (param query "sortBy") (VStr "relevance") in
  if negb (truthy q) && negb (truthy businessId) then
    Ret (fail 400 "Search query or businessId is required")
  else
    let options := search_options query (param query "contentType") in
    let sortOptions := search_sort sortBy q in
    r ← await (SearchIndex.search q (<["sortBy" := VSort sortOptions]> options));
    match r with
    | Resolved results => Ret (ok_list 200 results)
    | Rejected => Ret (fail 500 "Failed to perform search")
    end.

(** [GET /api/search/:contentType] *)
Definition get_search_contentType (contentType : string)
    (query : gmap string string) : Prog Response :=
  let q := param query "q" in
  let options := search_options query VUndef in
  r ← await (SearchIndex.searchByContentType (VStr contentType) q options);
  match r with
  | Resolved results => Ret (ok_list 200 results)
  | Rejected => Ret (fail 500 "Failed to search by content type")
  end.

(** The body of [POST /api/search/advanced]; [None] is an absent key. *)
Record AdvancedBody : Type := {
  ab_query : Val;
  ab_filters : option (gmap string Val);
  ab_pagination : option (gmap string Val);
  ab_sort : option (gmap string Val)
}.

Definition default_pagination : gmap string Val :=
  list_to_map [("limit", VNum (Num 50)); ("offset", VNum (Num 0))].

Definition default_advanced_sort : gmap string Val :=
  list_to_map [("field", VStr "indexedAt"); ("order", VStr "desc")].

Definition advanced_sort (sort : gmap string Val) (query : Val) : SortSpec :=
  let field := opt sort "field" in
  let order := opt sort "order" in
  if is_str field "relevance" && truthy query then
    [(ByTextScore, Desc); (ByIndexedAt, Desc)]
  else if is_str field "rating" then
    [(ByRating, if is_str order "asc" then Asc else Desc); (ByIndexedAt, Desc)]
  else if is_str field "date" then
    [(ByIndexedAt, if is_str order "asc" then Asc else Desc)]
  else
    [(ByIndexedAt, Desc)].

(** [POST /api/search/advanced] *)
Definition post_search_advanced (body : AdvancedBody) : Prog Response :=
  let query := ab_query body in
  let filters := default ∅ (ab_filters body) in
  let pagination := default default_pagination (ab_pagination body) in
  let sort := default default_advanced_sort (ab_sort body) in
  let searchOptions :=
    <["offset" := opt pagination "offset"]>
      (<["limit" := opt pagination "limit"]> filters) in
  let sortOptions := advanced_sort sort query in
  r ← await (SearchIndex.search query (<["sortBy" := VSort sortOptions]> searchOptions));
  match r with
  | Resolved results => Ret (ok_list 200 results)
  | Rejected => Ret (fail 500 "Failed to perform advanced search")
  end.

(** [POST /api/search/index].  The clock read for [metadata.indexedAt]
    lands under [metadata], where the schema has no such path. *)
Definition post_index (body : Fields) : Prog Response :=
  _ ← new_Date;
  let searchIndex :=
    {| f_id := None;
       f_businessId := f_businessId body;
       f_franchiseId := f_franchiseId body;
       f_contentType := f_contentType body;
       f_contentId := f_contentId body;
       f_title := f_title body;
       f_content := f_content body;
       f_tags := Some (default [] (f_tags body));
       f_categories := Some (default [] (f_categories body));
       f_metadata := Some (default no_metadata (f_metadata body));
       f_isActive := None; f_indexedAt := None; f_createdAt := None;
       f_updatedAt := None |} in
  r ← SearchIndex.save_new searchIndex;
  match r with
  | Resolved saved => Ret (ok_data 201 saved)
  | Rejected => Ret (fail 500 "Failed to index content")
  end.

(** [PUT /api/search/index/:id] *)
Definition put_index (id : string) (updateData : Fields) : Prog Response :=
  t ← new_Date;
  r ← await (FindByIdAndUpdate id (with_indexedAt t updateData));
  match r with
  | Resolved DNone => Ret (fail 404 "Search index not found")
  | Resolved searchIndex => Ret (ok_data 200 searchIndex)
  | Rejected => Ret (fail 500 "Failed to update search index")
  end.

(** [DELETE /api/search/index/:id] *)
Definition delete_index (id : string) : Prog Response :=
  r ← await (FindByIdAndDelete id);
  match r with
  | Resolved DNone => Ret (fail 404 "Search index not found")
  | Resolved _ =>
      Ret {| status := 200; success := true; error := None;
             message := Some "Search index deleted successfully";
             data := DNone; count := None |}
  | Rejected => Ret (fail 500 "Failed to delete search index")
  end.

(** [req.body.items]: any JSON value, or nothing. *)
Inductive Items : Type :=
  | ItemsUndefined
  | ItemsNull
  | ItemsBool (b : bool)
  | ItemsNumber (n : Z)
  | ItemsString (s : string)
  | ItemsObject (o : gmap string Val)
  | ItemsArray (l : list Fields).

(** [items.map(item => ({ ...item, indexedAt: new Date() }))] *)
Fixpoint stamp (items : list Fields) : Prog (list Fields) :=
  match items with
  | [] => Ret []
  | item :: rest =>
      t ← new_Date;
      stamped ← stamp rest;
      Ret (with_indexedAt t item :: stamped)
  end.

(** [POST /api/search/index/bulk] *)
Definition post_index_bulk (items : Items) : Prog Response :=
  match items with
  | ItemsArray (item :: rest) =>
      searchIndexes ← stamp (item :: rest);
      r ← await (InsertMany searchIndexes);
      match r with
      | Resolved result => Ret (ok_list 201 result)
      | Rejected => Ret (fail 500 "Failed to bulk index content")
      end
  | _ => Ret (fail 400 "Items array is required")
  end.

(** [GET /api/search/tags/popular] *)
Definition get_tags_popular (query : gmap string string) : Prog Response :=
  let businessId := param query "businessId" in
  let limit := or_default (param query "limit") (VNum (Num 20)) in
  if negb (truthy businessId) then Ret (fail 400 "BusinessId is required")
  else
    r ← await (SearchIndex.getPopularTags businessId (VNum (parseInt limit)));
    match r with
    | Resolved popularTags => Ret (ok_list 200 popularTags)
    | Rejected => Ret (fail 500 "Failed to fetch popular tags")
    end.

(** [GET /api/search/stats] *)
Definition get_stats (query : gmap string string) : Prog Response :=
  let businessId := param query "businessId" in
  if negb (truthy businessId) then Ret (fail 400 "BusinessId is required")
  else
    r ← await (SearchIndex.getContentStats businessId);
    match r with
    | Resolved stats => Ret (ok_data 200 stats)
    | Rejected => Ret (fail 500 "Failed to fetch content statistics")
    end.

(** [GET /api/search/recent] *)
Definition get_recent (query : gmap string string) : Prog Response :=
  let businessId := param query "businessId" in
  let limit := or_default (param query "limit") (VNum (Num 20)) in
  if negb (truthy businessId) then Ret (fail 400 "BusinessId is required")
  else
    r ← await (SearchIndex.getRecentContent businessId (VNum (parseInt limit)));
    match r with
    | Resolved recentContent => Ret (ok_list 200 recentContent)
    | Rejected => Ret (fail 500 "Failed to fetch recent content")
    end.

(** [GET /api/search/high-rated] *)
Definition get_high_rated (query : gmap string string) : Prog Response :=
  let businessId := param query "businessId" in
  let minRating := or_default (param query "minRating") (VNum (Num 4)) in
  let limit := or_default (param query "limit") (VNum (Num 20)) in
  if negb (truthy businessId) then Ret (fail 400 "BusinessId is required")
  else
    r ← await (SearchIndex.getContentByRating businessId
                 (VNum (parseInt minRating)) (VNum (parseInt limit)));
    match r with
    | Resolved highRatedContent => Ret (ok_list 200 highRatedContent)
    | Rejected => Ret (fail 500 "Failed to fetch high-rated content")
    end.

(** [q.length < 2] on a string of [req.query]. *)
Definition shorter_than_2 (q : Val) : bool :=
  match q with
  | VStr s => (String.length s <? 2)%nat
  | _ => false
  end.

Section Suggestions.
Context `{SearchEngine}.

(** [new mongoose.Types.ObjectId(businessId)]: the id the string is the
    text of; a string that is the text of none makes the constructor
    throw ([None]); with no argument an id is generated. *)
Definition new_ObjectId (v : Val) : Prog (option Val) :=
  match v with
  | VStr s => Ret (if is_oid s then Some (VOid s) else None)
  | _ => NewObjectId (λ o, Ret (Some (VOid o)))
  end.

Definition suggestions_match (businessId : Val) : gmap string Cond :=
  <["isActive" := CEq (VBool true)]> (<["businessId" := CEq businessId]> ∅).

Definition suggestions_or (q : Val) : list (gmap string Cond) :=
  [ {["title" := CRegexI q]}; {["tags" := CRegexI q]} ].

(** [GET /api/search/suggestions] *)
Definition get_suggestions (query : gmap string string) : Prog Response :=
  let q := param query "q" in
  let businessId := param query "businessId" in
  let limit := or_default (param query "limit") (VNum (Num 10)) in
  if negb (truthy q) || shorter_than_2 q then
    Ret (ok_list 200 (DSuggest []))
  else
    id ← new_ObjectId businessId;
    match id with
    | Some id =>
        r ← await (AggregateSuggest (suggestions_match id) (suggestions_or q)
                     (VNum (parseInt limit)));
        match r with
        | Resolved suggestions => Ret (ok_list 200 suggestions)
        | Rejected => Ret (fail 500 "Failed to fetch search suggestions")
        end
    | None => Ret (fail 500 "Failed to fetch search suggestions")
    end.

End Suggestions.

End Routes.

(** ** Running a handler against a collection *)

(** The collection in its natural order, and how many times the clock and
    the id generator have been used. *)
Record World : Type := {
  docs : list Doc;
  ticks : nat;
  ids : nat
}.

Definition with_docs (l : list Doc) (w : World) : World :=
  {| docs := l; ticks := ticks w; ids := ids w |}.

Section Run.
Context `{SearchEngine}.
(** [clock n] is what the n-th reading of the clock returns and [fresh n]
    the n-th generated ObjectId. *)
Variable clock : nat → Z.
Variable fresh : nat → string.

Definition settle {A} (f : A → Data) (o : option A) : StorageResult :=
  match o with
  | Some a => Resolved (f a)
  | None => Rejected
  end.

(** What each call does to the collection and what its promise gives.
    [now] is the time of the call, which the schema defaults and
    Mongoose's timestamps take.  A [save()] runs the validators first, in
    the process; only when they pass does the [pre('save')] hook read the
    clock twice, and then the write is sent.  [insertMany] builds and
    validates every document before it sends any, and the server inserts
    them in order.  [findByIdAndUpdate] and [findByIdAndDelete] cast the
    id, and the first the update too, and reject on a CastError; they run
    no validator, and the server refuses an update that would change the
    [_id] of the document it found. *)
Definition exec (c : StorageCall) (w : World) : StorageResult * World :=
  let now := clock (ticks w) in
  let hooked :=
    {| docs := docs w; ticks := S (S (ticks w)); ids := ids w |} in
  match c with
  | Find conditions sort limit skip =>
      (settle DDocs (run_find conditions sort limit skip (docs w)), w)
  | AggregateTags m limit =>
      (settle DTags (run_popular_tags m limit (docs w)), w)
  | AggregateStats m =>
      (Resolved (DStats (run_stats m (docs w))), w)
  | AggregateSuggest m alts limit =>
      (settle DSuggest (run_suggest m alts limit (docs w)), w)
  | Insert f =>
      match to_doc (fresh (ids w)) now f with
      | Some d =>
          if validate d
          then
            let d' := SearchIndex.pre_save now (clock (S (ticks w))) d in
            (Resolved (DDoc d'),
             {| docs := docs w ++ [d']; ticks := S (S (ticks w));
                ids := S (ids w) |})
          else (Rejected, w)
      | None => (Rejected, w)
      end
  | Replace d =>
      if validate d
      then
        let d' := SearchIndex.pre_save now (clock (S (ticks w))) d in
        match find_by_id (doc_id d) (docs w) with
        | Some _ => (Resolved (DDoc d'), with_docs (replace_doc d' (docs w)) hooked)
        | None => (Rejected, hooked)
        end
      else (Rejected, w)
  | InsertMany items =>
      match to_docs fresh (ids w) now items with
      | Some ds =>
          if forallb validate ds
          then
            let '(coll, ok) := insert_ordered (docs w) items ds in
            (if ok then Resolved (DDocs ds) else Rejected,
             {| docs := coll; ticks := ticks w;
                ids := (ids w + generated items)%nat |})
          else (Rejected, w)
      | None => (Rejected, w)
      end
  | FindByIdAndUpdate id update =>
      if update_casts id update
      then
        match find_by_id id (docs w) with
        | Some d =>
            if keeps_id id update
            then
              let d' := apply_update now update d in
              (Resolved (DDoc d'), with_docs (replace_doc d' (docs w)) w)
            else (Rejected, w)
        | None => (Resolved DNone, w)
        end
      else (Rejected, w)
  | FindByIdAndDelete id =>
      if is_oid id
      then
        match find_by_id id (docs w) with
        | Some d => (Resolved (DDoc d), with_docs (remove_doc id (docs w)) w)
        | None => (Resolved DNone, w)
        end
      else (Rejected, w)
  end.

Fixpoint run {A} (p : Prog A) (w : World) : A * World :=
  match p with
  | Ret a => (a, w)
  | NewDate k =>
      run (k (clock (ticks w)))
          {| docs := docs w; ticks := S (ticks w); ids := ids w |}
  | NewObjectId k =>
      run (k (fresh (ids w)))
          {| docs := docs w; ticks := ticks w; ids := S (ids w) |}
  | Db c k =>
      let '(r, w') := exec c w in
      run (k r) w'
  end.

End Run.

Definition actives (coll : list Doc) : list Doc :=
  filter (λ d, isActive d = true) coll.

(** The filter a read sends. *)
Definition filter_of (c : StorageCall) : option (gmap string Cond) :=
  match c with
  | Find m _ _ _ | AggregateTags m _ | AggregateStats m
  | AggregateSuggest m _ _ => Some m
  | _ => None
  end.

(** Every item of an answer comes from an active record of the
    collection: a returned document is one, a suggestion is the
    projection of one, a tag is carried by one, a statistics row is the
    group of one. *)
Definition from_active (coll : list Doc) (r : StorageResult) : Prop :=
  match r with
  | Resolved (DDocs l) => ∀ d, d ∈ l → d ∈ coll ∧ isActive d = true
  | Resolved (DSuggest l) =>
      ∀ s, s ∈ l → ∃ d, d ∈ coll ∧ isActive d = true ∧ s = project_suggestion d
  | Resolved (DTags l) =>
      ∀ t c, (t, c) ∈ l → ∃ d, d ∈ coll ∧ isActive d = true ∧ t ∈ tags d
  | Resolved (DStats l) =>
      ∀ row, row ∈ l →
        ∃ d, d ∈ coll ∧ isActive d = true ∧ contentType d = st_contentType row
  | _ => True
  end.

(** The search and listing operations of the service. *)
Inductive listing : StorageCall → Prop :=
  | listing_search query options :
      listing (SearchIndex.search query options)
  | listing_searchByContentType contentType query options :
      listing (SearchIndex.searchByContentType contentType query options)
  | listing_getPopularTags businessId limit :
      listing (SearchIndex.getPopularTags businessId limit)
  | listing_getContentStats businessId :
      listing (SearchIndex.getContentStats businessId)
  | listing_getRecentContent businessId limit :
      listing (SearchIndex.getRecentContent businessId limit)
  | listing_getContentByRating businessId minRating limit :
      listing (SearchIndex.getContentByRating businessId minRating limit)
  | listing_suggestions id q limit :
      listing (AggregateSuggest (Routes.suggestions_match id)
                 (Routes.suggestions_or q) limit).

(** ** A plain engine and a small collection, used in the examples *)

Module Sample.

Fixpoint contains (p s : string) : bool :=
  match s with
  | EmptyString => String.eqb p ""
  | String _ r => String.prefix p s || contains p r
  end.

Fixpoint all_hex (s : string) : bool :=
  match s with
  | EmptyString => true
  | String c r =>
      match digit_val c with
      | Some d => (d <? 16) && all_hex r
      | None => false
      end
  end.

(** Substring matching; a title hit scores above a content hit; an
    ObjectId is written as a non-empty string of hexadecimal digits (of
    any length, to keep the examples short). *)
Definition engine : SearchEngine :=
  {| text_match s d := contains s (title d) || contains s (content d);
     score_of o :=
       match o with
       | Some s => Some (λ d, if contains s (title d) then 10 else 5)
       | None => None
       end;
     regex_match_i p s := contains p s;
     is_oid s := negb (String.eqb s "") && all_hex s |}.

Definition clock (n : nat) : Z := 1000 + Z.of_nat n.

Definition fresh (n : nat) : string :=
  String (ascii_of_nat (97 + n)) "".

Definition record (id business ty ti : string) (tg : list string)
    (r : option Z) (active : bool) (at_ : Z) : Doc :=
  {| doc_id := id; businessId := business; franchiseId := None;
     contentType := ty; contentId := "c0"; title := ti; content := "...";
     tags := tg; categories := [];
     metadata := {| rating := r; sentiment := None; language := Some "en";
                    source := None; author := None |};
     isActive := active; indexedAt := at_; createdAt := at_; updatedAt := at_ |}.

Definition great : Doc :=
  record "1" "B1" "submission" "Great service" ["fast"] (Some 5) true 10.
Definition fair : Doc :=
  record "2" "B1" "submission" "Fair service" ["slow"; "fast"] (Some 3) true 20.
Definition hidden : Doc :=
  record "3" "B1" "form" "Hidden form" ["slow"] (Some 5) false 30.
Definition other : Doc :=
  record "4" "B2" "staff" "Great staff" ["kind"] (Some 5) true 40.
Definition late : Doc :=
  record "5" "B1" "report" "Great report" [] (Some 5) true 50.

Definition world : World :=
  {| docs := [great; fair; hidden; other; late]; ticks := 0; ids := 0 |}.

Definition empty_world : World := {| docs := []; ticks := 0; ids := 0 |}.

(** Two active records of B1 rated 5 and 3. *)
Definition pair_world : World :=
  {| docs := [great; fair]; ticks := 0; ids := 0 |}.

(** Two active records of B1, each carrying the same twenty tags. *)
Definition twenty_tags : list string :=
  ["t01"; "t02"; "t03"; "t04"; "t05"; "t06"; "t07"; "t08"; "t09"; "t10";
   "t11"; "t12"; "t13"; "t14"; "t15"; "t16"; "t17"; "t18"; "t19"; "t20"].

Definition crowded1 : Doc :=
  record "6" "B1" "submission" "Slow service" twenty_tags (Some 2) true 60.
Definition crowded2 : Doc :=
  record "7" "B1" "submission" "Slow again" twenty_tags (Some 1) true 70.

Definition crowded_world : World :=
  {| docs := [crowded1; crowded2]; ticks := 0; ids := 0 |}.

(** The payload of an index call: an active record of B1 tagged "fast". *)
Definition fast_payload : Fields :=
  {| f_id := None;
     f_businessId := Some "B1"; f_franchiseId := None;
     f_contentType := Some "submission"; f_contentId := Some "c1";
     f_title := Some "Great service"; f_content := Some "...";
     f_tags := Some ["fast"]; f_categories := None;
     f_metadata := Some {| rating := Some 5; sentiment := None;
                           language := None; source := None; author := None |};
     f_isActive := None; f_indexedAt := None; f_createdAt := None;
     f_updatedAt := None |}.

(** The same payload carrying an [indexedAt] of its own. *)
Definition backdated_payload : Fields := with_indexedAt 1 fast_payload.

(** A payload that brings its own [_id], and one that brings the [_id]
    of the first record of the collection below. *)
Definition named_payload : Fields :=
  {| f_id := Some "c9";
     f_businessId := Some "B1"; f_franchiseId := None;
     f_contentType := Some "form"; f_contentId := Some "c1";
     f_title := Some "Named form"; f_content := Some "...";
     f_tags := None; f_categories := None; f_metadata := None;
     f_isActive := None; f_indexedAt := None; f_createdAt := None;
     f_updatedAt := None |}.

Definition taken_payload : Fields :=
  {| f_id := Some "1";
     f_businessId := Some "B1"; f_franchiseId := None;
     f_contentType := Some "form"; f_contentId := Some "c1";
     f_title := Some "Second form"; f_content := Some "...";
     f_tags := None; f_categories := None; f_metadata := None;
     f_isActive := None; f_indexedAt := None; f_createdAt := None;
     f_updatedAt := None |}.

Definition query_of (l : list (string * string)) : gmap string string :=
  list_to_map l.

End Sample.

(** ** The route table

    Express tries the routes in the order they were registered and runs
    the first whose method and path pattern match; none of the handlers
    passes the request on. *)

Inductive Method : Type := GET | POST | PUT | DELETE.

Inductive Segment : Type :=
  | Lit (s : string)
  | Param (name : string).

Inductive Handler : Type :=
  | HHealth | HReady | HSearch | HSearchByContentType | HAdvanced
  | HIndex | HUpdate | HDelete | HBulk | HPopularTags | HStats | HRecent
  | HHighRated | HSuggestions.

#[global] Instance Method_eq_dec : EqDecision Method.
Proof. solve_decision. Defined.
#[global] Instance Handler_eq_dec : EqDecision Handler.
Proof. solve_decision. Defined.

Definition routes : list (Method * list Segment * Handler) :=
  [ (GET, [Lit "health"], HHealth);
    (GET, [Lit "ready"], HReady);
    (GET, [Lit "api"; Lit "search"], HSearch);
    (GET, [Lit "api"; Lit "search"; Param "contentType"], HSearchByContentType);
    (POST, [Lit "api"; Lit "search"; Lit "advanced"], HAdvanced);
    (POST, [Lit "api"; Lit "search"; Lit "index"], HIndex);
    (PUT, [Lit "api"; Lit "search"; Lit "index"; Param "id"], HUpdate);
    (DELETE, [Lit "api"; Lit "search"; Lit "index"; Param "id"], HDelete);
    (POST, [Lit "api"; Lit "search"; Lit "index"; Lit "bulk"], HBulk);
    (GET, [Lit "api"; Lit "search"; Lit "tags"; Lit "popular"], HPopularTags);
    (GET, [Lit "api"; Lit "search"; Lit "stats"], HStats);
    (GET, [Lit "api"; Lit "search"; Lit "recent"], HRecent);
    (GET, [Lit "api"; Lit "search"; Lit "high-rated"], HHighRated);
    (GET, [Lit "api"; Lit "search"; Lit "suggestions"], HSuggestions) ].

(** Express compares a path with a pattern without regard to case (the
    literals of the table are in lower case); a parameter takes any
    non-empty segment, as it is written. *)
Definition lower_ascii (c : ascii) : ascii :=
  let n := nat_of_ascii c in
  if (65 <=? n)%nat && (n <=? 90)%nat then ascii_of_nat (n + 32) else c.

Fixpoint lower (s : string) : string :=
  match s with
  | EmptyString => EmptyString
  | String c r => String (lower_ascii c) (lower r)
  end.

Definition segment_matches (p : Segment) (s : string) : bool :=
  match p with
  | Lit l => String.eqb l (lower s)
  | Param _ => negb (String.eqb s "")
  end.

Fixpoint path_matches (pattern : list Segment) (path : list string) : bool :=
  match pattern, path with
  | [], [] => true
  | p :: pattern, s :: path => segment_matches p s && path_matches pattern path
  | _, _ => false
  end.

Fixpoint first_match (table : list (Method * list Segment * Handler))
    (m : Method) (path : list string) : option Handler :=
  match table with
  | [] => None
  | (m', pattern, h) :: rest =>
      if bool_decide (m' = m) && path_matches pattern path then Some h
      else first_match rest m path
  end.

Definition dispatch (m : Method) (path : list string) : option Handler :=
  first_match routes m path.

(** ** The order of a listing by rating *)

(** A missing rating is below every rating. *)
Definition rating_le (a b : option Z) : Prop :=
  match a, b with
  | None, _ => True
  | Some _, None => False
  | Some x, Some y => x ≤ y
  end.

(** [a] may stand before [b]: the ratings go down (up when ascending),
    and of two documents with the same rating the one indexed later
    stands first. *)
Definition rating_order (dir : Dir) (a b : Doc) : Prop :=
  let ra := rating (metadata a) in
  let rb := rating (metadata b) in
  match dir with
  | Desc => rating_le rb ra
  | Asc => rating_le ra rb
  end ∧ (ra = rb → indexedAt b ≤ indexedAt a).

(** ** Requests used in the statements *)

(** The answer of a handler once storage has answered: what the
    [try]/[catch] around the [await] makes of a resolved and of a rejected
    promise. *)
Definition answers_with (k : StorageResult → Prog Response) (codes : list Z) : Prop :=
  ∀ r, ∃ resp, k r = Ret resp ∧ status resp ∈ codes.

(** A handler that answers at once: no clock read, no storage call. *)
Definition answers_at_once (p : Prog Response) (resp : Response) : Prop :=
  p = Ret resp.

(** [!q && !businessId] *)
Definition lacks_query_and_business (query : gmap string string) : Prop :=
  truthy (param query "q") = false ∧ truthy (param query "businessId") = false.

(** [!Array.isArray(items) || items.length === 0] *)
Definition empty_or_not_a_list (items : Routes.Items) : Prop :=
  items = Routes.ItemsArray [] ∨ ∀ l, items ≠ Routes.ItemsArray l.

(** [!q || q.length < 2] on a query string. *)
Definition absent_or_short (query : gmap string string) : Prop :=
  query !! "q" = None ∨ ∃ s, query !! "q" = Some s ∧ (String.length s < 2)%nat.





(** ** Timestamps *)

Definition tick (w : World) : World :=
  {| docs := docs w; ticks := S (ticks w); ids := ids w |}.

(** [d] is stored in [w'] and its [indexedAt] is a reading of the clock
    taken between [w] and [w']. *)
Definition refreshed (clock : nat → Z) (w w' : World) (d : Doc) : Prop :=
  d ∈ docs w' ∧ ∃ n, (ticks w ≤ n < ticks w')%nat ∧ indexedAt d = clock n.

(** What [stamp] returns when the clock has been read [n] times. *)
Fixpoint stamped (clock : nat → Z) (n : nat) (items : list Fields) : list Fields :=
  match items with
  | [] => []
  | item :: rest => with_indexedAt (clock n) item :: stamped clock (S n) rest
  end.

(** ** Listings per tenant *)

(** An active record of business [b]. *)
Definition owned (b : string) (d : Doc) : Prop :=
  businessId d = b ∧ isActive d = true.

#[global] Instance owned_dec b d : Decision (owned b d).
Proof. unfold owned. apply _. Defined.

(** How often tag [t] occurs across the active records of business [b],
    and the tags that occur at all. *)
Definition tag_count (b : string) (coll : list Doc) (t : string) : Z :=
  count_of t (unwind_tags (filter (owned b) coll)).

Definition distinct_tags (b : string) (coll : list Doc) : list string :=
  remove_dups (unwind_tags (filter (owned b) coll)).

(** A popular-tags answer that lists tag [t] whenever an active record of
    the business carries it. *)
Definition lists_every_indexed_tag (E : SearchEngine) (clock : nat → Z)
    (fresh : nat → string) (w : World) (b : string) (limit : Val)
    (t : string) : Prop :=
  (∃ d, d ∈ docs w ∧ owned b d ∧ t ∈ tags d) →
  ∃ rows c,
    (exec clock fresh (SearchIndex.getPopularTags (VOid b) limit) w).1 =
      Resolved (DTags rows) ∧
    (t, c) ∈ rows ∧ 1 ≤ c.

(** The handlers that read: each with its request. *)
Inductive read_route `{SearchEngine} : Prog Response → Prop :=
  | read_search query : read_route (Routes.get_search query)
  | read_search_contentType contentType query :
      read_route (Routes.get_search_contentType contentType query)
  | read_search_advanced body : read_route (Routes.post_search_advanced body)
  | read_tags_popular query : read_route (Routes.get_tags_popular query)
  | read_stats query : read_route (Routes.get_stats query)
  | read_recent query : read_route (Routes.get_recent query)
  | read_high_rated query : read_route (Routes.get_high_rated query)
  | read_suggestions query : read_route (Routes.get_suggestions query).

(** ** Further notions used in the statements *)

(** [Array.prototype.join(',')], the inverse of [split(',')]. *)
Fixpoint join_comma (l : list string) : string :=
  match l with
  | [] => ""
  | [x] => x
  | x :: rest => x +:+ "," +:+ join_comma rest
  end.

Fixpoint has_comma (s : string) : bool :=
  match s with
  | EmptyString => false
  | String c r => Ascii.eqb c "," || has_comma r
  end.


(** The newer record may stand first. *)
Definition newest_first (a b : Doc) : Prop := indexedAt b ≤ indexedAt a.

(** The [metadata.rating] condition a GET search puts on its filter: the
    parsed [rating] parameter, unless it is absent, not a number, or 0. *)
Definition rating_condition (query : gmap string string) : option Cond :=
  match param query "rating" with
  | VStr s =>
      match parseInt_string s with
      | Num r => if r =? 0 then None else Some (CEq (VNum (Num r)))
      | NaN => None
      end
  | _ => None
  end.

(** The handler sends one [find] with this filter. *)
Definition sends_filter (p : Prog Response) (m : gmap string Cond) : Prop :=
  ∃ sort limit skip k, p = Db (Find m sort limit skip) k.

(** The keys of a payload that [POST /api/search/index] does not read. *)
Definition with_unread_keys (isActive : option bool) (indexedAt createdAt
    updatedAt : option Z) (f : Fields) : Fields :=
  {| f_id := f_id f;
     f_businessId := f_businessId f; f_franchiseId := f_franchiseId f;
     f_contentType := f_contentType f; f_contentId := f_contentId f;
     f_title := f_title f; f_content := f_content f; f_tags := f_tags f;
     f_categories := f_categories f; f_metadata := f_metadata f;
     f_isActive := isActive; f_indexedAt := indexedAt;
     f_createdAt := createdAt; f_updatedAt := updatedAt |}.

(** [a] may stand before [b] in a listing by relevance: the score goes
    down, and of two documents with the same score the one indexed later
    stands first. *)
Definition by_relevance (score : Doc → Z) (a b : Doc) : Prop :=
  score b ≤ score a ∧ (score a = score b → indexedAt b ≤ indexedAt a).

(** A [GET /api/search] request whose sort resolves to the date: [sortBy]
    is not [rating], and is not [relevance] (the default) with a [q]. *)
Definition sorts_by_date (query : gmap string string) : Prop :=
  param query "sortBy" ≠ VStr "rating" ∧
  (or_default (param query "sortBy") (VStr "relevance") = VStr "relevance" →
   truthy (param query "q") = false).

Definition sum_counts (rows : list StatRow) : Z :=
  foldr Z.add 0 (st_count <$> rows).

Definition of_type (ct : string) (d : Doc) : Prop := contentType d = ct.

#[global] Instance of_type_dec ct d : Decision (of_type ct d).
Proof. unfold of_type. apply _. Defined.

(** No record of the collection has this id. *)
Definition absent (id : string) (coll : list Doc) : Prop :=
  ∀ x, x ∈ coll → doc_id x ≠ id.

(** The ids of the records and suggestions a listing answers with. *)
Definition ids_of (r : StorageResult) : list string :=
  match r with
  | Resolved (DDocs l) => doc_id <$> l
  | Resolved (DSuggest l) => sg_id <$> l
  | _ => []
  end.

(** A payload without one of the five required fields. *)
Definition lacks_required (f : Fields) : Prop :=
  f_businessId f = None ∨ f_contentType f = None ∨ f_contentId f = None ∨
  f_title f = None ∨ f_content f = None.

(** The four analytics handlers, each with its error-free path behind the
    [businessId] guard. *)
Definition analytics_routes (query : gmap string string) : list (Prog Response) :=
  [Routes.get_tags_popular query; Routes.get_stats query;
   Routes.get_recent query; Routes.get_high_rated query].

(** The title or one of the tags of [d] matches the pattern. *)
Definition suggested_by `{SearchEngine} (q : string) (d : Doc) : Prop :=
  regex_match_i q (title d) = true ∨
  Exists (λ t, regex_match_i q t = true) (tags d).

#[global] Instance suggested_by_dec `{SearchEngine} q d :
  Decision (suggested_by q d).
Proof. unfold suggested_by. apply _. Defined.

(** The value a program ends with when every storage call is answered by
    [answer] and the clock and the id generator by [now] and [oid]. *)
Fixpoint outcome {A} (answer : StorageCall → StorageResult) (now : Z)
    (oid : string) (p : Prog A) : A :=
  match p with
  | Ret a => a
  | NewDate k => outcome answer now oid (k now)
  | NewObjectId k => outcome answer now oid (k oid)
  | Db c k => outcome answer now oid (k (answer c))
  end.

(** Every handler of the search, indexing and analytics routes, each with
    its request. *)
Inductive route `{SearchEngine} : Prog Response → Prop :=
  | route_read p : read_route p → route p
  | route_index body : route (Routes.post_index body)
  | route_update id updateData : route (Routes.put_index id updateData)
  | route_delete id : route (Routes.delete_index id)
  | route_bulk items : route (Routes.post_index_bulk items).

(** The body of a [catch] block: a server error without data. *)
Definition server_error (r : Response) : Prop :=
  status r = 500 ∧ success r = false ∧ data r = DNone ∧ count r = None ∧
  message r = None.

(** The handlers registered behind [GET /api/search/:contentType] under a
    path of the same length. *)
Definition shadowed : list Handler := [HStats; HRecent; HHighRated; HSuggestions].


(** The options [search] builds its filter from. *)
Definition filter_keys : list string :=
  ["businessId"; "franchiseId"; "contentType"; "tags"; "categories"; "rating";
   "sentiment"; "language"].

(** The body with one more key under [filters]. *)
Definition with_filter (key : string) (v : Val) (body : Routes.AdvancedBody) :
    Routes.AdvancedBody :=
  {| Routes.ab_query := Routes.ab_query body;
     Routes.ab_filters := Some (<[key := v]> (default ∅ (Routes.ab_filters body)));
     Routes.ab_pagination := Routes.ab_pagination body;
     Routes.ab_sort := Routes.ab_sort body |}.

(** A payload from which a valid document can be built: the required
    fields are there, its ids are the text of ObjectIds and the schema's
    validators pass. *)
Definition accepts `{SearchEngine} (f : Fields) : bool :=
  match to_doc "" 0 f with
  | Some d => validate d
  | None => false
  end.

(** [d'] with the two stamps a save sets taken from [d], and two
    documents that differ at most in these stamps. *)
Definition unstamped (d d' : Doc) : Doc :=
  set_indexedAt (indexedAt d) (set_updatedAt (updatedAt d) d').

Definition same_but_stamps (d d' : Doc) : Prop := unstamped d d' = d.

(** What a GET request is answered with: the handler of the first route
    that takes the path, applied to the query string and, for
    [/api/search/:contentType], to the third segment; the catch-all of the
    service when no route takes it.  The two probes, [/health] and
    [/ready], are left out ([None]). *)
Definition serve_get `{SearchEngine} (path : list string)
    (query : gmap string string) : option (Prog Response) :=
  match dispatch GET path with
  | Some HSearch => Some (Routes.get_search query)
  | Some HSearchByContentType =>
      Some (Routes.get_search_contentType (nth 2 path "") query)
  | Some HPopularTags => Some (Routes.get_tags_popular query)
  | Some HStats => Some (Routes.get_stats query)
  | Some HRecent => Some (Routes.get_recent query)
  | Some HHighRated => Some (Routes.get_high_rated query)
  | Some HSuggestions => Some (Routes.get_suggestions query)
  | Some _ => None
  | None => Some (Ret (fail 404 "Route not found"))
  end.



(** * Properties *)

(** ** The order documents are sorted in *)

Lemma lex_leb_total (xs ys : list Z) :
  lex_leb xs ys = true ∨ lex_leb ys xs = true.
Proof.
  revert ys. induction xs as [|x xs IH]; intros [|y ys]; simpl; auto.
  destruct (IH ys) as [E|E]; rewrite E;
    destruct (Z.ltb_spec x y), (Z.ltb_spec y x),
             (Z.eqb_spec x y), (Z.eqb_spec y x); simpl; auto; lia.
Qed.

Lemma lex_leb_trans (xs ys zs : list Z) :
  lex_leb xs ys = true → lex_leb ys zs = true → lex_leb xs zs = true.
Proof.
  revert ys zs. induction xs as [|x xs IH]; intros [|y ys] [|z zs]; simpl;
    try done.
  intros H1 H2.
  apply orb_true_iff in H1 as [H1|H1]; apply orb_true_iff in H2 as [H2|H2];
    apply orb_true_iff.
  - left. lia.
  - apply andb_true_iff in H2 as [H2 _]. left. lia.
  - apply andb_true_iff in H1 as [H1 _]. left. lia.
  - apply andb_true_iff in H1 as [H1 H1'].
    apply andb_true_iff in H2 as [H2 H2'].
    right. apply andb_true_iff. split; [lia|]. by eapply IH.
Qed.

#[global] Instance sort_le_total score spec : Total (sort_le score spec).
Proof. intros a b. apply lex_leb_total. Qed.

#[global] Instance sort_le_trans score spec : Transitive (sort_le score spec).
Proof. intros a b c. apply lex_leb_trans. Qed.

#[global] Instance by_count_desc_total : Total by_count_desc.
Proof. intros a b. unfold by_count_desc. lia. Qed.

#[global] Instance by_count_desc_trans : Transitive by_count_desc.
Proof. intros a b c. unfold by_count_desc. lia. Qed.

Lemma StronglySorted_sublist {A} (R : relation A) (l1 l2 : list A) :
  l1 `sublist_of` l2 → StronglySorted R l2 → StronglySorted R l1.
Proof.
  induction 1 as [|x l1 l2 Hs IH|x l1 l2 Hs IH]; intros Hsort.
  - constructor.
  - apply StronglySorted_inv in Hsort as [Hl Hx]. constructor; [auto|].
    rewrite Forall_forall in Hx |- *. intros y Hy. apply Hx.
    by eapply elem_of_sublist.
  - apply StronglySorted_inv in Hsort as [Hl _]. auto.
Qed.

Lemma sort_docs_sorted score spec (l : list Doc) :
  StronglySorted (sort_le score spec) (sort_docs score spec l).
Proof. apply StronglySorted_merge_sort; apply _. Qed.

Lemma sort_docs_perm score spec (l : list Doc) : sort_docs score spec l ≡ₚ l.
Proof. apply merge_sort_Permutation. Qed.

(** ** What a [find] returns *)

Lemma page_sublist (limit skip : Val) (l res : list Doc) :
  page limit skip l = Some res → res `sublist_of` l.
Proof.
  unfold page. intros Hp.
  destruct (as_int limit) as [n|]; [|done].
  destruct (as_int skip) as [k|]; [|done]. simpl in Hp.
  destruct (k <? 0); [done|]. injection Hp as <-.
  destruct (n =? 0).
  - apply sublist_drop.
  - etrans; [apply sublist_take | apply sublist_drop].
Qed.

Section Find.
Context `{SearchEngine}.

Lemma run_find_inv conditions sort limit skip coll res :
  run_find conditions sort limit skip coll = Some res →
  ∃ q spec sc,
    cast_query conditions = Some q ∧ sort = VSort spec ∧
    scorer q spec = Some sc ∧
    page limit skip (sort_docs sc spec (filter (matches q) coll)) = Some res.
Proof.
  unfold run_find. intros Hr.
  destruct (cast_query conditions) as [q|]; [|done]. simpl in Hr.
  destruct sort; try done. simpl in Hr.
  destruct (scorer q s) as [sc|] eqn:Hs; [|done]. simpl in Hr.
  by exists q, s, sc.
Qed.

Lemma run_find_elem conditions sort limit skip coll res d :
  run_find conditions sort limit skip coll = Some res → d ∈ res →
  ∃ q, cast_query conditions = Some q ∧ matches q d ∧ d ∈ coll.
Proof.
  intros (q & spec & sc & Hq & _ & _ & Hp)%run_find_inv Hd.
  exists q. split; [done|].
  apply page_sublist in Hp.
  eapply elem_of_sublist in Hd; [|done].
  rewrite sort_docs_perm in Hd. by apply list_elem_of_filter in Hd.
Qed.

Lemma run_find_sorted conditions spec limit skip coll res :
  run_find conditions (VSort spec) limit skip coll = Some res →
  ∃ sc, StronglySorted (sort_le sc spec) res.
Proof.
  intros (q & spec' & sc & _ & [= <-] & _ & Hp)%run_find_inv.
  exists sc. eapply StronglySorted_sublist; [by eapply page_sublist|].
  apply sort_docs_sorted.
Qed.

Lemma cast_query_lookup (q q' : gmap string Cond) path c :
  cast_query q = Some q' → q !! path = Some c →
  q' !! path = cast_cond path c.
Proof.
  unfold cast_query. case_bool_decide; [|done]. intros [= <-] Hl.
  by rewrite map_lookup_imap, Hl.
Qed.

(** A filter with [isActive: true] lets active documents through only. *)
Lemma matches_active (q q' : gmap string Cond) d :
  q !! "isActive" = Some (CEq (VBool true)) →
  cast_query q = Some q' → matches q' d → isActive d = true.
Proof.
  intros Hl Hc Hm.
  eapply cast_query_lookup in Hl; [|done].
  apply (map_Forall_lookup_1 _ _ _ _ Hm) in Hl.
  unfold holds in Hl. simpl in Hl. by apply bool_decide_eq_true in Hl as [= ->].
Qed.

Lemma matches_active_uncast (q : gmap string Cond) d :
  q !! "isActive" = Some (CEq (VBool true)) → matches q d → isActive d = true.
Proof.
  intros Hl Hm.
  apply (map_Forall_lookup_1 _ _ _ _ Hm) in Hl.
  unfold holds in Hl. simpl in Hl. by apply bool_decide_eq_true in Hl as [= ->].
Qed.

End Find.

(** ** Inactive records never reach a result *)

Lemma filter_actives (P : Doc → Prop) `{∀ d, Decision (P d)} (coll : list Doc) :
  (∀ d, P d → isActive d = true) → filter P (actives coll) = filter P coll.
Proof.
  intros HP. unfold actives. induction coll as [|d coll IH]; [done|].
  rewrite (filter_cons (λ d, isActive d = true)).
  destruct (decide (isActive d = true)) as [Ha|Ha].
  - rewrite !filter_cons. destruct (decide (P d)); by rewrite IH.
  - rewrite IH, filter_cons. destruct (decide (P d)) as [Hd|]; [|done].
    by apply HP in Hd.
Qed.

Lemma listing_filter_active (c : StorageCall) :
  listing c →
  ∃ m, filter_of c = Some m ∧ m !! "isActive" = Some (CEq (VBool true)).
Proof.
  destruct 1; eexists; (split; [reflexivity|]); apply lookup_insert_eq.
Qed.

Section Active.
Context `{SearchEngine}.
Variable clock : nat → Z.
Variable fresh : nat → string.

Lemma find_from_active m sort limit skip w :
  m !! "isActive" = Some (CEq (VBool true)) →
  from_active (docs w) (exec clock fresh (Find m sort limit skip) w).1.
Proof.
  intros Hm. simpl. destruct (run_find _ _ _ _ _) as [res|] eqn:Hr; simpl; [|done].
  intros d Hd. destruct (run_find_elem _ _ _ _ _ _ _ Hr Hd) as (q & Hq & Hmd & Hin).
  split; [done|]. by eapply matches_active.
Qed.

Lemma find_ignores_inactive m sort limit skip w :
  m !! "isActive" = Some (CEq (VBool true)) →
  (exec clock fresh (Find m sort limit skip) w).1 =
  (exec clock fresh (Find m sort limit skip) (with_docs (actives (docs w)) w)).1.
Proof.
  intros Hm. simpl. f_equal. unfold run_find.
  destruct (cast_query m) as [q|] eqn:Hq; [|done]. simpl.
  rewrite filter_actives; [done|]. intros d. by eapply matches_active.
Qed.

Lemma tags_from_active m limit w :
  m !! "isActive" = Some (CEq (VBool true)) →
  from_active (docs w) (exec clock fresh (AggregateTags m limit) w).1.
Proof.
  intros Hm. simpl. destruct (run_popular_tags _ _ _) as [rows|] eqn:Hr; simpl; [|done].
  intros t c Htc. unfold run_popular_tags, agg_limit in Hr.
  destruct limit as [| | |[|n]| | | | |]; try done.
  destruct (0 <? n); [|done]. injection Hr as <-.
  eapply elem_of_sublist in Htc; [|apply sublist_take].
  rewrite merge_sort_Permutation in Htc.
  apply list_elem_of_fmap in Htc as (t' & [= -> ->] & Ht).
  apply elem_of_remove_dups, list_elem_of_bind in Ht as (d & Ht & Hd).
  apply list_elem_of_filter in Hd as [Hd Hin].
  exists d. split_and!; [done| |done]. by eapply matches_active_uncast.
Qed.

Lemma stats_from_active m w :
  m !! "isActive" = Some (CEq (VBool true)) →
  from_active (docs w) (exec clock fresh (AggregateStats m) w).1.
Proof.
  intros Hm. simpl. intros row Hrow. unfold run_stats in Hrow.
  apply list_elem_of_fmap in Hrow as (ct & -> & Hct).
  apply elem_of_remove_dups, list_elem_of_fmap in Hct as (d & -> & Hd).
  apply list_elem_of_filter in Hd as [Hd Hin].
  exists d. split_and!; [done| |done]. by eapply matches_active_uncast.
Qed.

Lemma suggest_from_active m alts limit w :
  m !! "isActive" = Some (CEq (VBool true)) →
  from_active (docs w) (exec clock fresh (AggregateSuggest m alts limit) w).1.
Proof.
  intros Hm. simpl. destruct (run_suggest _ _ _ _) as [l|] eqn:Hr; simpl; [|done].
  intros s Hs. unfold run_suggest, agg_limit in Hr.
  destruct limit as [| | |[|n]| | | | |]; try done.
  destruct (0 <? n); [|done]. injection Hr as <-.
  eapply elem_of_sublist in Hs; [|apply sublist_take].
  apply list_elem_of_fmap in Hs as (d & -> & Hd).
  apply list_elem_of_filter in Hd as [[Hd _] Hin].
  exists d. split_and!; [done| |done]. by eapply matches_active_uncast.
Qed.

Lemma aggregate_ignores_inactive m w :
  m !! "isActive" = Some (CEq (VBool true)) →
  filter (matches m) (actives (docs w)) = filter (matches m) (docs w).
Proof.
  intros Hm. apply filter_actives. intros d. by apply matches_active_uncast.
Qed.

End Active.

Section ActiveOnly.
Context `{SearchEngine}.
Variable clock : nat → Z.
Variable fresh : nat → string.

Lemma read_from_active c m w :
  filter_of c = Some m → m !! "isActive" = Some (CEq (VBool true)) →
  from_active (docs w) (exec clock fresh c w).1.
Proof.
  intros Hc Hm. destruct c; simplify_eq/=.
  - by apply (find_from_active clock fresh).
  - by apply (tags_from_active clock fresh).
  - by apply (stats_from_active clock fresh).
  - by apply (suggest_from_active clock fresh).
Qed.

Lemma read_ignores_inactive c m w :
  filter_of c = Some m → m !! "isActive" = Some (CEq (VBool true)) →
  (exec clock fresh c w).1 =
  (exec clock fresh c (with_docs (actives (docs w)) w)).1.
Proof.
  intros Hc Hm. destruct c; simplify_eq/=.
  - by apply (find_ignores_inactive clock fresh).
  - unfold run_popular_tags. by rewrite aggregate_ignores_inactive.
  - unfold run_stats. by rewrite aggregate_ignores_inactive.
  - unfold run_suggest. rewrite filter_actives; [done|].
    intros d [Hd _]. by eapply matches_active_uncast.
Qed.

(** C2.  Every search and listing operation (search, search by content
    type, popular tags, content statistics, recent listing, rating
    listing, suggestions), whatever its arguments, sends a filter that
    holds [isActive: true]; on every collection each item of its answer
    comes from an active record (a returned document has
    [isActive = true]), and the answer is the same as on the collection
    with its inactive records taken away. *)
Theorem C2_only_active_records (c : StorageCall) (w : World) :
  listing c →
  (∃ m, filter_of c = Some m ∧ m !! "isActive" = Some (CEq (VBool true))) ∧
  from_active (docs w) (exec clock fresh c w).1 ∧
  (exec clock fresh c w).1 =
    (exec clock fresh c (with_docs (actives (docs w)) w)).1.
Proof.
  intros Hc. destruct (listing_filter_active c Hc) as (m & Hf & Hm).
  split; [by exists m|]. split.
  - by eapply read_from_active.
  - by eapply read_ignores_inactive.
Qed.

End ActiveOnly.

(** ** Running programs *)

Section RunFacts.
Context `{SearchEngine}.
Variable clock : nat → Z.
Variable fresh : nat → string.

Lemma run_bind {A B} (p : Prog A) (f : A → Prog B) w :
  run clock fresh (p ≫= f) w =
  run clock fresh (f (run clock fresh p w).1) (run clock fresh p w).2.
Proof.
  unfold mbind, Prog_bind. revert w.
  induction p as [a|k IH|k IH|c k IH]; intros w; cbn [bind run]; auto.
  destruct (exec clock fresh c w). apply IH.
Qed.

Lemma run_new_Date w :
  run clock fresh new_Date w = (clock (ticks w), tick w).
Proof. reflexivity. Qed.

Lemma run_await_pair c w :
  run clock fresh (await c) w = exec clock fresh c w.
Proof. unfold await. cbn [run]. by destruct (exec clock fresh c w). Qed.

Lemma run_await {A} c (f : StorageResult → Prog A) w :
  run clock fresh (await c ≫= f) w =
  run clock fresh (f (exec clock fresh c w).1) (exec clock fresh c w).2.
Proof.
  unfold await, mbind, Prog_bind. cbn [bind run].
  by destruct (exec clock fresh c w).
Qed.

Lemma exec_find m sort limit skip w :
  exec clock fresh (Find m sort limit skip) w =
  (settle DDocs (run_find m sort limit skip (docs w)), w).
Proof. reflexivity. Qed.

End RunFacts.

(** ** Sorting by rating *)

Lemma StronglySorted_mono {A} (R S : relation A) (l : list A) :
  (∀ a b, R a b → S a b) → StronglySorted R l → StronglySorted S l.
Proof.
  intros HRS. induction 1 as [|a l Hl IH Ha]; constructor; [done|].
  eapply Forall_impl; [done|]. auto.
Qed.

Lemma sort_le_rating score dir (a b : Doc) :
  sort_le score [(ByRating, dir); (ByIndexedAt, Desc)] a b →
  rating_order dir a b.
Proof.
  unfold sort_le, rating_order. simpl.
  destruct dir, (rating (metadata a)) as [x|], (rating (metadata b)) as [y|];
    simpl; rewrite ?orb_true_iff, ?andb_true_iff, ?orb_true_iff,
             ?andb_true_iff, ?Z.ltb_lt, ?Z.eqb_eq;
    intros Hle; (split; [|intros ?; simplify_eq]); lia.
Qed.

Lemma search_with_sortBy query options spec :
  SearchIndex.search query (<["sortBy" := VSort spec]> options) =
  Find (SearchIndex.searchQuery query (<["sortBy" := VSort spec]> options))
       (VSort spec)
       (or_default (opt options "limit") (VNum (Num 50)))
       (or_default (opt options "offset") (VNum (Num 0))).
Proof.
  unfold SearchIndex.search, opt.
  rewrite lookup_insert_eq, !lookup_insert_ne by done. done.
Qed.

Section RatingSort.
Context `{SearchEngine}.
Variable clock : nat → Z.
Variable fresh : nat → string.

Lemma find_rating_sorted conditions dir limit skip coll res :
  settle DDocs (run_find conditions (VSort [(ByRating, dir); (ByIndexedAt, Desc)])
                  limit skip coll) = Resolved (DDocs res) →
  StronglySorted (rating_order dir) res.
Proof.
  destruct (run_find _ _ _ _ _) as [res'|] eqn:Hr; [|done]. intros [= ->].
  apply run_find_sorted in Hr as [sc Hs].
  eapply StronglySorted_mono; [|done]. apply sort_le_rating.
Qed.

(** The two routes that resolve a sort order the records they answer
    with by rating: [GET /api/search] with [sortBy=rating], always
    downwards, and [POST /api/search/advanced] with [sort.field =
    'rating'], upwards when [sort.order] is ['asc']; of two records with
    the same rating the one indexed later stands first. *)
Lemma rating_sort_honoured (w : World) :
  (∀ query res,
     query !! "sortBy" = Some "rating" →
     data (run clock fresh (Routes.get_search query) w).1 = DDocs res →
     StronglySorted (rating_order Desc) res) ∧
  (∀ body sort res,
     Routes.ab_sort body = Some sort →
     sort !! "field" = Some (VStr "rating") →
     data (run clock fresh (Routes.post_search_advanced body) w).1 = DDocs res →
     StronglySorted
       (rating_order (if is_str (opt sort "order") "asc" then Asc else Desc)) res).
Proof.
  split.
  - intros query res Hs. unfold Routes.get_search.
    destruct (negb _ && negb _); [done|].
    assert (param query "sortBy" = VStr "rating") as ->
      by (unfold param; by rewrite Hs).
    rewrite search_with_sortBy, run_await, exec_find.
    cbn [fst snd or_default Routes.search_sort].
    destruct (settle _ _) as [d|] eqn:Hr; cbn [run fst data ok_list fail]; [|done].
    intros ->. by eapply find_rating_sorted.
  - intros body sort res Hb Hf. unfold Routes.post_search_advanced.
    rewrite Hb.
    change (default Routes.default_advanced_sort (Some sort)) with sort.
    rewrite search_with_sortBy, run_await, exec_find.
    unfold Routes.advanced_sort.
    assert (opt sort "field" = VStr "rating") as ->
      by (unfold opt; by rewrite Hf).
    cbn [fst snd].
    destruct (settle _ _) as [d|] eqn:Hr; cbn [run fst data ok_list fail]; [|done].
    intros ->. by eapply find_rating_sorted.
Qed.

End RatingSort.

(** ** Guards of the handlers *)

Lemma answers_at_once_no_call (p : Prog Response) (resp : Response) :
  answers_at_once p resp →
  ∀ answer now oid, calls answer now oid p = [].
Proof. by intros ->. Qed.

(** [GET /api/search] refuses a request with neither [q] nor
    [businessId], before anything is sent to storage. *)
Lemma get_search_requires_discriminator (query : gmap string string) :
  lacks_query_and_business query →
  answers_at_once (Routes.get_search query)
    (fail 400 "Search query or businessId is required").
Proof.
  intros [Hq Hb]. unfold answers_at_once, Routes.get_search.
  by rewrite Hq, Hb.
Qed.

(** C1.  A search call with neither [q] nor [businessId] is to fail with
    a client error before storage is queried.  [GET /api/search] does so
    (the lemma above); [GET /api/search/:contentType] has no such guard:
    the request with an empty query string is sent to storage as a [find]
    on the content type alone, and whatever storage answers the response
    is a 200 or a 500, never the client error.  [POST
    /api/search/advanced] with an empty body likewise sends
    [find({ isActive: true })]. *)
Theorem C1_search_by_type_unguarded :
  lacks_query_and_business ∅ ∧
  (∃ k,
     Routes.get_search_contentType "submission" ∅ =
       Db (Find (<["isActive" := CEq (VBool true)]>
                   (<["contentType" := CEq (VStr "submission")]> ∅))
                (VSort SearchIndex.default_sort) (VNum (Num 50)) (VNum (Num 0))) k ∧
     answers_with k [200; 500]) ∧
  (∃ k,
     Routes.post_search_advanced
       {| Routes.ab_query := VUndef; Routes.ab_filters := None;
          Routes.ab_pagination := None; Routes.ab_sort := None |} =
       Db (Find (<["isActive" := CEq (VBool true)]> ∅)
                (VSort [(ByIndexedAt, Desc)]) (VNum (Num 50)) (VNum (Num 0))) k ∧
     answers_with k [200; 500]).
Proof.
  split; [done|]. split.
  - eexists. split; [vm_compute; reflexivity|].
    intros [d|]; eexists; (split; [reflexivity|]); set_solver.
  - eexists. split; [vm_compute; reflexivity|].
    intros [d|]; eexists; (split; [reflexivity|]); set_solver.
Qed.

(** ** Paging parameters *)

Lemma opt_insert_eq (o : gmap string Val) k v : opt (<[k:=v]> o) k = v.
Proof. unfold opt. by rewrite lookup_insert_eq. Qed.

Lemma opt_insert_ne (o : gmap string Val) k k' v :
  k ≠ k' → opt (<[k:=v]> o) k' = opt o k'.
Proof. intros. unfold opt. by rewrite lookup_insert_ne. Qed.



Lemma search_options_sortBy query contentType :
  opt (Routes.search_options query contentType) "sortBy" = VUndef.
Proof.
  unfold Routes.search_options. rewrite !list_to_map_cons.
  rewrite !opt_insert_ne by done. done.
Qed.

Lemma answers_200_or_500 (ok : Data → Response) (msg : string) :
  (∀ d, status (ok d) = 200) →
  answers_with (λ r, match r with
                     | Resolved d => Ret (ok d)
                     | Rejected => Ret (fail 500 msg)
                     end) [200; 500].
Proof.
  intros Hok [d|]; eexists; (split; [reflexivity|]).
  - rewrite Hok. set_solver.
  - set_solver.
Qed.


(** ** The sort of the search by content type *)

Lemma param_insert_ne (query : gmap string string) k k' s :
  k ≠ k' → param (<[k' := s]> query) k = param query k.
Proof. intros Hk. unfold param. by rewrite lookup_insert_ne. Qed.

(** C3.  Of the three search routes, [GET /api/search/:contentType] does
    not sort by rating: it does not read [sortBy] (the request with and
    without it are the same call), and the sort it sends is the model's
    default, relevance score and then [indexedAt] downwards, where
    [GET /api/search] with [sortBy=rating] sends rating downwards and
    then [indexedAt].  Under the sort it sends, of two records with the
    same score the one indexed later stands first whatever the ratings:
    a record rated 3 before an older one rated 5. *)
Theorem C3_search_by_type_ignores_sortBy (ct : string)
    (query : gmap string string) :
  (∃ m limit skip k,
     Routes.get_search_contentType ct query =
       Db (Find m (VSort SearchIndex.default_sort) limit skip) k ∧
     answers_with k [200; 500]) ∧
  (∀ s, Routes.get_search_contentType ct (<["sortBy" := s]> query) =
        Routes.get_search_contentType ct query) ∧
  (query !! "sortBy" = Some "rating" → ¬ lacks_query_and_business query →
   ∃ m limit skip k,
     Routes.get_search query =
       Db (Find m (VSort [(ByRating, Desc); (ByIndexedAt, Desc)]) limit skip) k ∧
     answers_with k [200; 500]) ∧
  (∀ a b score,
     score a = score b → indexedAt b < indexedAt a →
     sort_le score SearchIndex.default_sort a b) ∧
  (∀ score,
     score Sample.fair = score Sample.great →
     sort_le score SearchIndex.default_sort Sample.fair Sample.great ∧
     ¬ rating_order Desc Sample.fair Sample.great).
Proof.
  assert (∀ a b score,
            score a = score b → indexedAt b < indexedAt a →
            sort_le score SearchIndex.default_sort a b) as Hnewer.
  { intros a b score Hs Hi. unfold sort_le, SearchIndex.default_sort.
    cbn [sort_keys key_of signed fmap list_fmap app lex_leb]. rewrite Hs.
    rewrite !Z.ltb_irrefl, !Z.eqb_refl. cbn [orb andb].
    apply orb_true_iff. left. apply Z.ltb_lt. lia. }
  split_and!.
  - unfold Routes.get_search_contentType, SearchIndex.searchByContentType,
      SearchIndex.search.
    rewrite !opt_insert_ne, search_options_sortBy by done.
    eexists _, _, _, _. split; [reflexivity|]. by apply answers_200_or_500.
  - intros s. unfold Routes.get_search_contentType, Routes.search_options.
    by rewrite !param_insert_ne by done.
  - intros Hs Hg. unfold Routes.get_search.
    destruct (negb _ && negb _) eqn:Eg.
    { exfalso. apply Hg.
      apply andb_true_iff in Eg as [?%negb_true_iff ?%negb_true_iff]. by split. }
    assert (param query "sortBy" = VStr "rating") as ->
      by (unfold param; by rewrite Hs).
    rewrite search_with_sortBy. cbn [or_default Routes.search_sort].
    eexists _, _, _, _. split; [reflexivity|]. by apply answers_200_or_500.
  - exact Hnewer.
  - intros score Hs. split.
    + apply Hnewer; [done|]. cbn. lia.
    + unfold rating_order. cbn. intros [Hle _]. lia.
Qed.


(** ** Bulk indexing and suggestions: the early answers *)

(** C5.  A bulk-index call whose [items] is the empty list or not a
    list is answered at once with the client error: no storage call is
    made, and running the handler leaves the collection as it was. *)
Theorem C5_bulk_rejects_empty_or_non_list (items : Routes.Items) :
  empty_or_not_a_list items →
  answers_at_once (Routes.post_index_bulk items)
    (fail 400 "Items array is required") ∧
  (∀ answer now oid, calls answer now oid (Routes.post_index_bulk items) = []) ∧
  (∀ (E : SearchEngine) clock fresh w,
     run clock fresh (Routes.post_index_bulk items) w =
       (fail 400 "Items array is required", w)).
Proof.
  intros [->|Hn].
  - done.
  - destruct items as [| | | | | |[|item rest]]; try done.
    by destruct (Hn (item :: rest)).
Qed.

Section SuggestionsGuard.
Context `{SearchEngine}.

(** The handler registered for [GET /api/search/suggestions] answers a
    [q] that is absent or shorter than two characters at once, with a
    success envelope holding an empty list and count 0. *)
Lemma get_suggestions_guard (query : gmap string string) :
  absent_or_short query →
  Routes.get_suggestions query = Ret (ok_list 200 (DSuggest [])).
Proof.
  intros Hq. unfold Routes.get_suggestions, param.
  destruct Hq as [->|(s & -> & Hs)]; [done|].
  destruct s as [|a [|b s]]; simpl in *; try done; lia.
Qed.

End SuggestionsGuard.

(** ** Writes refresh [indexedAt] *)

Lemma find_by_id_Some id coll d :
  find_by_id id coll = Some d → d ∈ coll ∧ doc_id d = id.
Proof.
  unfold find_by_id. destruct (list_find _ coll) as [[i x]|] eqn:Hf; [|done].
  intros [= <-]. apply list_find_Some in Hf as (Hl & Hx & _).
  split; [by eapply list_elem_of_lookup_2|done].
Qed.

Lemma find_by_id_None id coll : find_by_id id coll = None ↔ absent id coll.
Proof.
  unfold find_by_id, absent.
  destruct (list_find _ coll) as [[i x]|] eqn:Hf; simpl.
  - split; [done|]. intros Hall. apply list_find_Some in Hf as (Hl & Hx & _).
    destruct (Hall x); [by eapply list_elem_of_lookup_2|done].
  - split; [|done]. intros _ x Hx.
    apply list_find_None in Hf. by apply (proj1 (Forall_forall _ _) Hf).
Qed.


Lemma replace_doc_elem d d0 coll :
  d0 ∈ coll → doc_id d0 = doc_id d → d ∈ replace_doc d coll.
Proof.
  intros Hin Hid. unfold replace_doc. apply list_elem_of_fmap.
  exists d0. split; [|done]. by rewrite bool_decide_eq_true_2.
Qed.




Section Building.
Context `{SearchEngine}.

(** Building a document: what decides whether it can be built and
    whether it is valid is the payload alone, not the id it is given or
    the time it is built at. *)
Lemma to_doc_fields id now f d :
  to_doc id now f = Some d →
  doc_id d = id ∧ castable f = true ∧
  f_businessId f = Some (businessId d) ∧
  f_contentType f = Some (contentType d) ∧
  f_contentId f = Some (contentId d) ∧
  f_title f = Some (title d) ∧ f_content f = Some (content d) ∧
  tags d = default [] (f_tags f) ∧
  isActive d = default true (f_isActive f) ∧
  indexedAt d = default now (f_indexedAt f).
Proof.
  unfold to_doc.
  destruct (f_businessId f); [|done]. destruct (f_contentType f); [|done].
  destruct (f_contentId f); [|done]. destruct (f_title f); [|done].
  destruct (f_content f); [|done]. cbn [mbind option_bind].
  destruct (castable f); [|done]. intros [= <-]. by split_and!.
Qed.


Lemma to_doc_None id now f :
  to_doc id now f = None ↔ lacks_required f ∨ castable f = false.
Proof.
  unfold to_doc, lacks_required.
  destruct (f_businessId f); [|by split; [intros _; left; left|]].
  destruct (f_contentType f); [|by split; [intros _; left; right; left|]].
  destruct (f_contentId f); [|by split; [intros _; left; do 2 right; left|]].
  destruct (f_title f); [|by split; [intros _; left; do 3 right; left|]].
  destruct (f_content f); [|by split; [intros _; left; do 4 right|]].
  cbn [mbind option_bind]. destruct (castable f).
  - split; [done|]. intros [[?|[?|[?|[?|?]]]]|?]; done.
  - split; [by right|done].
Qed.














End Building.

Section Refresh.
Context `{SearchEngine}.
Variable clock : nat → Z.
Variable fresh : nat → string.


(** [save] of a loaded document.  It resolves exactly when the document
    is valid and still in the collection; what is stored then is the
    document with the two readings the [pre('save')] hook took. *)
Lemma run_save d w :
  run clock fresh (SearchIndex.save d) w = exec clock fresh (Replace d) w.
Proof. apply run_await_pair. Qed.



Lemma save_refreshes d w d' :
  (run clock fresh (SearchIndex.save d) w).1 = Resolved (DDoc d') →
  d' = SearchIndex.pre_save (clock (ticks w)) (clock (S (ticks w))) d ∧
  validate d = true ∧ ¬ absent (doc_id d) (docs w) ∧
  docs (run clock fresh (SearchIndex.save d) w).2 = replace_doc d' (docs w) ∧
  refreshed clock w (run clock fresh (SearchIndex.save d) w).2 d'.
Proof.
  rewrite run_save. cbn [exec]. destruct (validate d) eqn:Hv; [|done].
  destruct (find_by_id (doc_id d) (docs w)) as [d0|] eqn:Hf; [|done].
  unfold refreshed. cbn [fst snd with_docs docs ticks]. intros [= <-].
  split; [done|]. split; [done|]. split.
  { intros Ha. apply find_by_id_None in Ha. congruence. }
  split; [done|].
  apply find_by_id_Some in Hf as [Hin Hid]. split.
  - by eapply replace_doc_elem.
  - exists (S (ticks w)). split; [lia|done].
Qed.

(** What [POST /api/search/index] builds the document from has no
    [isActive] and no time stamp of the body; whether the payload is
    accepted does not depend on them. *)
Lemma run_post_index body w :
  let w1 := tick w in
  run clock fresh (Routes.post_index body) w =
  match to_doc (fresh (ids w)) (clock (S (ticks w)))
          (with_unread_keys None None None None body) with
  | Some d0 =>
      if validate d0
      then
        let d := SearchIndex.pre_save (clock (S (ticks w)))
                   (clock (S (S (ticks w)))) d0 in
        (ok_data 201 (DDoc d),
         {| docs := docs w ++ [d]; ticks := S (S (S (ticks w)));
            ids := S (ids w) |})
      else (fail 500 "Failed to index content", w1)
  | None => (fail 500 "Failed to index content", w1)
  end.
Proof.
  intros w1. unfold Routes.post_index, SearchIndex.save_new.
  rewrite run_bind, run_new_Date. cbn [fst snd].
  rewrite run_await. cbn [exec tick ticks docs ids].
  set (f := {| f_businessId := _ |}).
  assert (∀ id now, to_doc id now f =
                    to_doc id now (with_unread_keys None None None None body))
    as ->.
  { intros id now. unfold to_doc.
    change (castable f) with (castable body).
    change (castable (with_unread_keys None None None None body))
      with (castable body).
    unfold f. cbn [f_businessId f_contentType f_contentId
      f_title f_content f_tags f_categories f_metadata f_isActive f_indexedAt
      f_createdAt f_updatedAt f_franchiseId with_unread_keys].
    destruct (f_tags body), (f_categories body), (f_metadata body); reflexivity. }
  destruct (to_doc _ _ _) as [d0|]; [|done].
  by destruct (validate d0).
Qed.


Lemma run_put_index id updateData w :
  run clock fresh (Routes.put_index id updateData) w =
  if update_casts id updateData
  then
    match find_by_id id (docs w) with
    | Some d0 =>
        if keeps_id id updateData
        then
          let d := apply_update (clock (S (ticks w)))
                     (with_indexedAt (clock (ticks w)) updateData) d0 in
          (ok_data 200 (DDoc d),
           {| docs := replace_doc d (docs w); ticks := S (ticks w);
              ids := ids w |})
        else (fail 500 "Failed to update search index", tick w)
    | None => (fail 404 "Search index not found", tick w)
    end
  else (fail 500 "Failed to update search index", tick w).
Proof.
  unfold Routes.put_index.
  rewrite run_bind, run_new_Date. cbn [fst snd].
  rewrite run_await. cbn [exec tick ticks docs ids].
  change (update_casts id (with_indexedAt (clock (ticks w)) updateData))
    with (update_casts id updateData).
  change (keeps_id id (with_indexedAt (clock (ticks w)) updateData))
    with (keeps_id id updateData).
  destruct (update_casts id updateData); [|done].
  destruct (find_by_id id (docs w)); [|done].
  by destruct (keeps_id id updateData).
Qed.




End Refresh.

(** ** Adding a tag twice *)

Lemma addTag_doc_present d tag :
  tag ∈ tags d → SearchIndex.addTag_doc d tag = d.
Proof.
  intros Hin. unfold SearchIndex.addTag_doc, SearchIndex.includes.
  by rewrite bool_decide_eq_true_2.
Qed.

Lemma addTag_doc_has_tag d tag : tag ∈ tags (SearchIndex.addTag_doc d tag).
Proof.
  unfold SearchIndex.addTag_doc, SearchIndex.includes, SearchIndex.push.
  case_bool_decide; simpl; [done|]. apply elem_of_app. right. by left.
Qed.

(** C7.  [addTag] is idempotent on the tag sequence.  With the tag
    already there the document handed to [save] is the document itself
    (nothing is appended); in any case the tag is there afterwards, a
    sequence without duplicates stays without, and a second [addTag]
    with the same tag changes nothing more than the first did.  Run
    against storage, the record saved by the second call has the tag
    sequence saved by the first. *)
Theorem C7_addTag_idempotent (d : Doc) (tag : string) :
  (tag ∈ tags d → SearchIndex.addTag_doc d tag = d) ∧
  tag ∈ tags (SearchIndex.addTag_doc d tag) ∧
  (tag ∉ tags d → tags (SearchIndex.addTag_doc d tag) = tags d ++ [tag]) ∧
  (NoDup (tags d) → NoDup (tags (SearchIndex.addTag_doc d tag))) ∧
  SearchIndex.addTag_doc (SearchIndex.addTag_doc d tag) tag =
    SearchIndex.addTag_doc d tag ∧
  (∀ (E : SearchEngine) clock fresh w d1 d2,
     (run clock fresh (SearchIndex.addTag d tag) w).1 = Resolved (DDoc d1) →
     (run clock fresh (SearchIndex.addTag d1 tag)
        (run clock fresh (SearchIndex.addTag d tag) w).2).1 = Resolved (DDoc d2) →
     tags d1 = tags (SearchIndex.addTag_doc d tag) ∧ tags d2 = tags d1).
Proof.
  split_and!.
  - apply addTag_doc_present.
  - apply addTag_doc_has_tag.
  - intros Hn. unfold SearchIndex.addTag_doc, SearchIndex.includes.
    by rewrite bool_decide_eq_false_2.
  - intros Hnd. unfold SearchIndex.addTag_doc, SearchIndex.includes, SearchIndex.push.
    case_bool_decide; simpl; [done|].
    apply NoDup_app. split_and!; [done| |apply NoDup_singleton].
    intros x Hx ->%list_elem_of_singleton. done.
  - apply addTag_doc_present, addTag_doc_has_tag.
  - intros E clock fresh w d1 d2 H1 H2. unfold SearchIndex.addTag in *.
    apply save_refreshes in H1 as (-> & _).
    apply save_refreshes in H2 as (-> & _).
    split; [done|]. cbn [tags set_indexedAt set_updatedAt SearchIndex.pre_save].
    rewrite addTag_doc_present; [done|]. apply addTag_doc_has_tag.
Qed.

(** ** Conditions on a document *)

Lemma filter_ext_iff {A} (P Q : A → Prop) `{∀ x, Decision (P x)}
    `{∀ x, Decision (Q x)} (l : list A) :
  (∀ x, P x ↔ Q x) → filter P l = filter Q l.
Proof.
  intros HPQ. induction l as [|x l IH]; [done|].
  rewrite !filter_cons, IH.
  destruct (decide (P x)) as [HP|HP], (decide (Q x)) as [HQ|HQ]; try done.
  - by apply HPQ in HP.
  - by apply HPQ in HQ.
Qed.

Section Listings.
Context `{SearchEngine}.
Variable clock : nat → Z.
Variable fresh : nat → string.

Lemma matches_2 k1 c1 k2 c2 d :
  k1 ≠ k2 →
  matches (<[k1:=c1]> (<[k2:=c2]> ∅)) d ↔
  holds c1 k1 d = true ∧ holds c2 k2 d = true.
Proof.
  intros H12. unfold matches.
  rewrite !map_Forall_insert; [|done|by rewrite lookup_insert_ne].
  split; [by intros (?&?&_)|]. intros (?&?). by split_and!.
Qed.

Lemma holds_isActive d :
  holds (CEq (VBool true)) "isActive" d = true ↔ isActive d = true.
Proof.
  change (holds (CEq (VBool true)) "isActive" d)
    with (bool_decide (VBool (isActive d) = VBool true)).
  rewrite bool_decide_eq_true. split; [by intros [= ->]|by intros ->].
Qed.

Lemma holds_businessId b d :
  holds (CEq (VOid b)) "businessId" d = true ↔ businessId d = b.
Proof.
  change (holds (CEq (VOid b)) "businessId" d)
    with (bool_decide (VOid (businessId d) = VOid b)).
  rewrite bool_decide_eq_true. split; [by intros [= ->]|by intros ->].
Qed.

Lemma holds_businessId_string s d :
  holds (CEq (VStr s)) "businessId" d = false.
Proof.
  change (holds (CEq (VStr s)) "businessId" d)
    with (bool_decide (VOid (businessId d) = VStr s)).
  by apply bool_decide_eq_false_2.
Qed.

End Listings.

(** ** Popular tags *)

Lemma count_of_pos (t : string) (l : list string) : t ∈ l ↔ 1 ≤ count_of t l.
Proof.
  unfold count_of. split.
  - intros Hin.
    assert (t ∈ filter (t =.) l) as Hf by (by apply list_elem_of_filter).
    destruct (filter (t =.) l); [by apply elem_of_nil in Hf|simpl; lia].
  - intros Hc. destruct (filter (t =.) l) as [|x l'] eqn:Hf; [simpl in Hc; lia|].
    assert (x ∈ filter (t =.) l) as Hx by (rewrite Hf; left).
    by apply list_elem_of_filter in Hx as [-> ?].
Qed.

Lemma group_count_elem (l : list string) t c :
  (t, c) ∈ group_count l ↔ t ∈ l ∧ c = count_of t l.
Proof.
  unfold group_count. rewrite list_elem_of_fmap. split.
  - intros (t' & Heq & Ht). injection Heq as -> ->.
    split; [by rewrite elem_of_remove_dups in Ht|done].
  - intros [Ht ->]. exists t. split; [done|]. by rewrite elem_of_remove_dups.
Qed.

Lemma group_count_tags (l : list string) : (group_count l).*1 = remove_dups l.
Proof.
  unfold group_count. rewrite <- list_fmap_compose.
  rewrite <- (list_fmap_id (remove_dups l)) at 2. by apply list_fmap_ext.
Qed.

Section PopularTags.
Context `{SearchEngine}.
Variable clock : nat → Z.
Variable fresh : nat → string.

Lemma owned_active_matches b d :
  matches (SearchIndex.owned_active (VOid b)) d ↔ owned b d.
Proof.
  unfold SearchIndex.owned_active. rewrite matches_2 by done.
  rewrite holds_isActive, holds_businessId. unfold owned. tauto.
Qed.

(** The handler passes the [businessId] of the query string, a string;
    the pipeline is not cast and stored ids are ObjectIds, so nothing
    matches. *)
Lemma owned_active_string_matches_nothing s d :
  ¬ matches (SearchIndex.owned_active (VStr s)) d.
Proof.
  unfold SearchIndex.owned_active. rewrite matches_2 by done.
  rewrite holds_businessId_string. by intros [_ ?].
Qed.

(** C8.  For business [b] (given as the ObjectId, as it is stored) and
    a positive limit N, the popular-tags aggregation returns at most N
    rows, one per tag; each row's count is the number of occurrences of
    its tag across the active records of [b]; rows are in descending
    order of count; a tag left out has no larger count than any tag
    returned.  A tag carried by an active record of [b] is in the answer,
    with count at least 1, whenever the active records of [b] carry no
    more than N distinct tags. *)
Theorem C8_popular_tags (w : World) (b : string) (limit : Val) (n : Z) :
  or_default limit (VNum (Num 20)) = VNum (Num n) →
  0 < n →
  ∃ rows,
    (exec clock fresh (SearchIndex.getPopularTags (VOid b) limit) w).1 =
      Resolved (DTags rows) ∧
    (∀ t c, (t, c) ∈ rows → c = tag_count b (docs w) t ∧ 1 ≤ c) ∧
    NoDup rows.*1 ∧
    StronglySorted by_count_desc rows ∧
    (List.length rows ≤ Z.to_nat n)%nat ∧
    (∀ t, 1 ≤ tag_count b (docs w) t → t ∉ rows.*1 →
       List.length rows = Z.to_nat n ∧
       ∀ t' c', (t', c') ∈ rows → tag_count b (docs w) t ≤ c') ∧
    (∀ d t,
       d ∈ docs w → owned b d → t ∈ tags d →
       (List.length (distinct_tags b (docs w)) ≤ Z.to_nat n)%nat →
       ∃ c, (t, c) ∈ rows ∧ 1 ≤ c).
Proof.
  intros Hl Hn.
  set (unwound := unwind_tags (filter (owned b) (docs w))).
  set (all := merge_sort by_count_desc (group_count unwound)).
  assert (StronglySorted by_count_desc all) as Hsorted
    by (apply StronglySorted_merge_sort; apply _).
  assert (∀ t c, (t, c) ∈ all ↔ t ∈ unwound ∧ c = count_of t unwound) as Hall.
  { intros t c. unfold all. rewrite merge_sort_Permutation.
    apply group_count_elem. }
  assert (all.*1 ≡ₚ remove_dups unwound) as Htags.
  { unfold all. rewrite merge_sort_Permutation. by rewrite group_count_tags. }
  exists (take (Z.to_nat n) all). split_and!.
  - unfold SearchIndex.getPopularTags. rewrite Hl. cbn [exec fst].
    unfold run_popular_tags, agg_limit.
    destruct (Z.ltb_spec 0 n); [|lia]. cbn [settle]. unfold all, unwound.
    by rewrite (filter_ext_iff _ (owned b) _ (owned_active_matches b)).
  - intros t c Htc. eapply elem_of_sublist in Htc; [|apply sublist_take].
    apply Hall in Htc as [Ht ->]. split; [done|]. by apply count_of_pos.
  - apply (sublist_NoDup _ (all.*1)).
    + rewrite Htags. apply NoDup_remove_dups.
    + apply fmap_sublist, sublist_take.
  - eapply StronglySorted_sublist; [apply sublist_take|done].
  - rewrite length_take. lia.
  - intros t Ht Hout.
    assert ((t, tag_count b (docs w) t) ∈ all) as Hin.
    { apply Hall. split; [by apply count_of_pos|done]. }
    rewrite <- (take_drop (Z.to_nat n) all) in Hin, Hsorted.
    apply elem_of_app in Hin as [Hin|Hdrop].
    { destruct Hout. apply list_elem_of_fmap. by exists (t, tag_count b (docs w) t). }
    split.
    + apply length_take_le.
      destruct (decide (Z.to_nat n ≤ List.length all)%nat); [done|].
      rewrite drop_ge in Hdrop by lia. by apply elem_of_nil in Hdrop.
    + intros t' c' Hin'.
      by apply (StronglySorted_app_1_elem_of _ _ _ _ _ Hsorted Hin' Hdrop).
  - intros d t Hd Ho Ht Hlen.
    assert (t ∈ unwound) as Hu.
    { apply list_elem_of_bind. exists d. split; [done|].
      by apply list_elem_of_filter. }
    exists (count_of t unwound). split; [|by apply count_of_pos].
    rewrite take_ge; [by apply Hall|].
    rewrite <- (length_fmap fst), Htags. done.
Qed.

End PopularTags.

(** ** What the reading handlers send *)

Lemma calls_await {A} answer now oid c (f : StorageResult → Prog A) :
  calls answer now oid (await c ≫= f) = c :: calls answer now oid (f (answer c)).
Proof. reflexivity. Qed.

Lemma calls_answer answer now oid (ok : Data → Response) (msg : string) r :
  calls answer now oid
    (match r with
     | Resolved d => Ret (ok d)
     | Rejected => Ret (fail 500 msg)
     end) = [].
Proof. by destruct r. Qed.

Section Sent.
Context `{SearchEngine}.

Lemma calls_new_ObjectId {A} answer now oid v (g : option Val → Prog A) :
  calls answer now oid (Routes.new_ObjectId v ≫= g) =
  calls answer now oid
    (g (match v with
        | VStr s => if is_oid s then Some (VOid s) else None
        | _ => Some (VOid oid)
        end)).
Proof. by destruct v. Qed.

Lemma outcome_new_ObjectId {A} answer now oid v (g : option Val → Prog A) :
  outcome answer now oid (Routes.new_ObjectId v ≫= g) =
  outcome answer now oid
    (g (match v with
        | VStr s => if is_oid s then Some (VOid s) else None
        | _ => Some (VOid oid)
        end)).
Proof. by destruct v. Qed.

(** Whatever the request, a reading handler sends storage nothing but
    the operations of [listing]. *)
Lemma read_routes_send_listings (p : Prog Response) answer now oid c :
  read_route p → c ∈ calls answer now oid p → listing c.
Proof.
  destruct 1 as [query|contentType query|body|query|query|query|query|query].
  - unfold Routes.get_search. destruct (negb _ && negb _).
    { by intros ?%elem_of_nil. }
    rewrite calls_await, calls_answer. intros ->%list_elem_of_singleton.
    constructor.
  - unfold Routes.get_search_contentType.
    rewrite calls_await, calls_answer. intros ->%list_elem_of_singleton.
    constructor.
  - unfold Routes.post_search_advanced.
    rewrite calls_await, calls_answer. intros ->%list_elem_of_singleton.
    constructor.
  - unfold Routes.get_tags_popular. destruct (negb _).
    { by intros ?%elem_of_nil. }
    rewrite calls_await, calls_answer. intros ->%list_elem_of_singleton.
    constructor.
  - unfold Routes.get_stats. destruct (negb _).
    { by intros ?%elem_of_nil. }
    rewrite calls_await. destruct (answer _); intros ->%list_elem_of_singleton;
      constructor.
  - unfold Routes.get_recent. destruct (negb _).
    { by intros ?%elem_of_nil. }
    rewrite calls_await, calls_answer. intros ->%list_elem_of_singleton.
    constructor.
  - unfold Routes.get_high_rated. destruct (negb _).
    { by intros ?%elem_of_nil. }
    rewrite calls_await, calls_answer. intros ->%list_elem_of_singleton.
    constructor.
  - unfold Routes.get_suggestions. destruct (negb _ || _).
    { by intros ?%elem_of_nil. }
    rewrite calls_new_ObjectId.
    destruct (match param query "businessId" with
              | VStr s => if is_oid s then Some (VOid s) else None
              | _ => Some (VOid oid)
              end) as [id|]; [|by intros ?%elem_of_nil].
    rewrite calls_await, calls_answer.
    intros ->%list_elem_of_singleton. constructor.
Qed.

End Sent.

(** ** What reaches the handlers *)

(** The four single-segment GET routes registered after
    [/api/search/:contentType] are taken by it. *)
Lemma routes_shadowed_by_contentType :
  dispatch GET ["api"; "search"; "stats"] = Some HSearchByContentType ∧
  dispatch GET ["api"; "search"; "recent"] = Some HSearchByContentType ∧
  dispatch GET ["api"; "search"; "high-rated"] = Some HSearchByContentType ∧
  dispatch GET ["api"; "search"; "suggestions"] = Some HSearchByContentType ∧
  dispatch GET ["api"; "search"; "tags"; "popular"] = Some HPopularTags ∧
  dispatch POST ["api"; "search"; "index"; "bulk"] = Some HBulk.
Proof. by vm_compute. Qed.

Lemma filter_nothing {A} (P : A → Prop) `{∀ x, Decision (P x)} (l : list A) :
  (∀ x, ¬ P x) → filter P l = [].
Proof.
  intros HP. induction l as [|x l IH]; [done|].
  rewrite filter_cons. destruct (decide (P x)) as [Hx|]; [|done].
  by apply HP in Hx.
Qed.

(** [GET /api/search/tags/popular] hands the [businessId] string of the
    query to the pipeline, which is not cast: its answer has no row,
    whatever the collection holds. *)
Lemma get_tags_popular_has_no_row `{SearchEngine} clock fresh query w rows :
  data (run clock fresh (Routes.get_tags_popular query) w).1 = DTags rows →
  rows = [].
Proof.
  unfold Routes.get_tags_popular, param.
  destruct (query !! "businessId") as [s|]; [|done].
  destruct (negb (truthy (VStr s))); [done|].
  rewrite run_await. unfold SearchIndex.getPopularTags. cbn [exec fst snd].
  unfold run_popular_tags.
  rewrite (filter_nothing _ _ (owned_active_string_matches_nothing s)).
  unfold agg_limit. destruct (or_default _ _) as [| | |[|n]| | | | |]; try done.
  destruct (0 <? n); [|done]. cbn [settle run fst data ok_list].
  intros [= <-]. by destruct (Z.to_nat n).
Qed.


(** * Examples *)

(** C2: the popular tags of B1; the "slow" of the hidden record is not
    counted. *)
Lemma C2_witness :
  let c := SearchIndex.getPopularTags (VOid "B1") VUndef in
  listing c ∧
  (@exec Sample.engine Sample.clock Sample.fresh c Sample.world).1 =
    Resolved (DTags [("fast", 2); ("slow", 1)]) ∧
  from_active (docs Sample.world)
    (@exec Sample.engine Sample.clock Sample.fresh c Sample.world).1.
Proof.
  intros c. split; [constructor|]. split; [vm_compute; reflexivity|].
  apply (@C2_only_active_records Sample.engine Sample.clock Sample.fresh c
           Sample.world).
  constructor.
Defined.



(** C5: an empty list, and a string in place of the list. *)
Lemma C5_witness :
  empty_or_not_a_list (Routes.ItemsArray []) ∧
  answers_at_once (Routes.post_index_bulk (Routes.ItemsArray []))
    (fail 400 "Items array is required").
Proof.
  assert (empty_or_not_a_list (Routes.ItemsArray [])) as He by (left; reflexivity).
  split; [exact He|].
  exact (proj1 (C5_bulk_rejects_empty_or_non_list (Routes.ItemsArray []) He)).
Defined.


(** An update and a bulk insert whose payloads carry [indexedAt: 1]: what
    is stored is the clock's reading. *)
Lemma put_index_overrides_payload_indexedAt :
  match data (@run Sample.engine Sample.clock Sample.fresh _
                (Routes.put_index "1" Sample.backdated_payload) Sample.world).1 with
  | DDoc d => indexedAt d
  | _ => 0
  end = 1000.
Proof. vm_compute. reflexivity. Qed.

Lemma post_index_bulk_stamps_each_item :
  match data (@run Sample.engine Sample.clock Sample.fresh _
                (Routes.post_index_bulk
                   (Routes.ItemsArray [Sample.backdated_payload; Sample.fast_payload]))
                Sample.empty_world).1 with
  | DDocs ds => indexedAt <$> ds
  | _ => []
  end = [1000; 1001].
Proof. vm_compute. reflexivity. Qed.

(** A bulk insert whose second item brings the [_id] of a stored record:
    the call fails, the record of the first item has gone in and stays,
    the third item is not looked at. *)
Lemma post_index_bulk_stops_at_duplicate_key :
  let r := @run Sample.engine Sample.clock Sample.fresh _
             (Routes.post_index_bulk
                (Routes.ItemsArray [Sample.named_payload; Sample.taken_payload;
                                    Sample.fast_payload]))
             Sample.world in
  status r.1 = 500 ∧
  doc_id <$> docs r.2 = ["1"; "2"; "3"; "4"; "5"; "c9"].
Proof. vm_compute. split; reflexivity. Qed.

(** An update whose payload holds another [_id] than the record's is
    refused. *)
Lemma put_index_refuses_another_id :
  let r := @run Sample.engine Sample.clock Sample.fresh _
             (Routes.put_index "1" Sample.named_payload) Sample.world in
  status r.1 = 500 ∧ docs r.2 = docs Sample.world.
Proof. vm_compute. split; reflexivity. Qed.

(** C7: "fast" is a tag of the record already. *)
Lemma C7_witness :
  "fast" ∈ tags Sample.great ∧
  SearchIndex.addTag_doc Sample.great "fast" = Sample.great.
Proof.
  assert ("fast" ∈ tags Sample.great) as Hin by (vm_compute; left).
  split; [exact Hin|].
  exact (proj1 (C7_addTag_idempotent Sample.great "fast") Hin).
Defined.

(** C8: the popular tags of B1 in the sample collection, with the
    default limit: "fast" twice, "slow" once (the hidden record's "slow"
    is not counted). *)
Lemma C8_witness :
  or_default VUndef (VNum (Num 20)) = VNum (Num 20) ∧ 0 < 20 ∧
  (@exec Sample.engine Sample.clock Sample.fresh
     (SearchIndex.getPopularTags (VOid "B1") VUndef) Sample.world).1 =
    Resolved (DTags [("fast", 2); ("slow", 1)]) ∧
  ∃ rows,
    (@exec Sample.engine Sample.clock Sample.fresh
       (SearchIndex.getPopularTags (VOid "B1") VUndef) Sample.world).1 =
      Resolved (DTags rows) ∧
    (∀ t c, (t, c) ∈ rows → c = tag_count "B1" (docs Sample.world) t ∧ 1 ≤ c).
Proof.
  assert (or_default VUndef (VNum (Num 20)) = VNum (Num 20)) as Hl by reflexivity.
  assert (0 < 20) as Hn by lia.
  split; [exact Hl|]. split; [exact Hn|]. split; [vm_compute; reflexivity|].
  destruct (@C8_popular_tags Sample.engine Sample.clock Sample.fresh
              Sample.world "B1" VUndef 20 Hl Hn) as (rows & Hex & Hcount & _).
  exists rows. split; [exact Hex|exact Hcount].
Defined.

(** The "in particular" of C8 as the specification has it fails: after a
    record tagged "fast" has been indexed for B1, next to two records
    that share twenty other tags, the popular tags of B1 (default limit,
    20) are those twenty, each counted twice; "fast", counted once, is
    cut off. *)
Lemma C8_counterexample :
  let indexed := (@run Sample.engine Sample.clock Sample.fresh _
                    (Routes.post_index Sample.fast_payload)
                    Sample.crowded_world).2 in
  ¬ lists_every_indexed_tag Sample.engine Sample.clock Sample.fresh indexed
      "B1" VUndef "fast".
Proof.
  intros indexed Hclaim.
  assert (∃ d, docs indexed = [Sample.crowded1; Sample.crowded2; d] ∧
               owned "B1" d ∧ "fast" ∈ tags d) as (d & Hdocs & Ho & Ht).
  { eexists. split; [vm_compute; reflexivity|]. split; [by vm_compute|].
    vm_compute. left. }
  destruct Hclaim as (rows & c & Hex & Hin & _).
  - exists d. split; [|done]. rewrite Hdocs. do 2 right. left.
  - vm_compute in Hex. injection Hex as <-.
    repeat (apply elem_of_cons in Hin as [Hin|Hin]; [discriminate Hin|]).
    by apply elem_of_nil in Hin.
Qed.

(** [parseInt] on the values a query string may hold. *)
Lemma parseInt_examples :
  parseInt (VStr "25") = Num 25 ∧ parseInt (VStr " 7 ") = Num 7 ∧
  parseInt (VStr "12abc") = Num 12 ∧ parseInt (VStr "1.5") = Num 1 ∧
  parseInt (VStr "-3") = Num (-3) ∧ parseInt (VStr "0x1F") = Num 31 ∧
  parseInt (VStr "abc") = NaN ∧ parseInt (VStr "") = NaN ∧
  parseInt (VNum (Num 50)) = Num 50.
Proof. by vm_compute. Qed.

(** * Further properties of the code *)

(** ** Tags *)

Lemma set_tags_same (d : Doc) : set_tags (tags d) d = d.
Proof. by destruct d. Qed.

Lemma filter_out_absent (tag : string) (l : list string) :
  tag ∉ l → filter (λ t, t ≠ tag) l = l.
Proof.
  intros Hl. induction l as [|x l IH]; [done|].
  rewrite filter_cons. apply not_elem_of_cons in Hl as [Hx Hl].
  destruct (decide (x ≠ tag)); [by rewrite IH|]. by destruct Hx; symmetry;
    apply dec_stable.
Qed.



Lemma addTag_then_removeTag_tags (d : Doc) (tag : string) :
  tag ∉ tags d →
  tags (SearchIndex.addTag_doc d tag) = tags d ++ [tag] ∧
  filter (λ t, t ≠ tag) (tags d ++ [tag]) = tags d.
Proof.
  intros Hn. split.
  - unfold SearchIndex.addTag_doc, SearchIndex.includes, SearchIndex.push.
    by rewrite bool_decide_eq_false_2.
  - rewrite filter_app, filter_out_absent, filter_cons, filter_nil by done.
    destruct (decide (tag ≠ tag)); [done|]. by rewrite app_nil_r.
Qed.

Section TagMethods.
Context `{SearchEngine}.
Variable clock : nat → Z.
Variable fresh : nat → string.


(** X2.  Round trip of the two tag methods on a record that does not
    carry the tag: [addTag] saves the record with the tag appended, and
    [removeTag] on the record saved gives back the tag sequence the
    record had; what the second save stores differs from the record in
    [updatedAt] and [indexedAt] only. *)
Theorem X2_addTag_removeTag_round_trip (d d1 d2 : Doc) (tag : string)
    (w : World) :
  tag ∉ tags d →
  (run clock fresh (SearchIndex.addTag d tag) w).1 = Resolved (DDoc d1) →
  (run clock fresh (SearchIndex.removeTag d1 tag)
     (run clock fresh (SearchIndex.addTag d tag) w).2).1 = Resolved (DDoc d2) →
  tags d1 = tags d ++ [tag] ∧ tags d2 = tags d ∧ same_but_stamps d d2.
Proof.
  intros Hn H1 H2. unfold SearchIndex.addTag, SearchIndex.removeTag in *.
  destruct (addTag_then_removeTag_tags d tag Hn) as [Hadd Hrem].
  apply save_refreshes in H1 as (-> & _). apply save_refreshes in H2 as (-> & _).
  cbn [tags SearchIndex.pre_save set_indexedAt set_updatedAt
       SearchIndex.removeTag_doc set_tags].
  rewrite Hadd, Hrem. split; [done|]. split; [done|].
  unfold same_but_stamps, unstamped, SearchIndex.pre_save,
    SearchIndex.removeTag_doc.
  cbn [tags set_indexedAt set_updatedAt set_tags doc_id businessId franchiseId
       contentType contentId title content categories metadata isActive
       indexedAt createdAt updatedAt].
  rewrite Hadd, Hrem.
  unfold SearchIndex.addTag_doc, SearchIndex.includes.
  rewrite bool_decide_eq_false_2 by done. cbn [negb]. by destruct d.
Qed.

End TagMethods.

(** ** The filter [search] builds, key by key *)

Lemma lookup_cond_insert_ne (b : bool) k k' (v : Cond) (m : gmap string Cond) :
  k' ≠ k → (if b then <[k':=v]> m else m) !! k = m !! k.
Proof. intros. destruct b; [by rewrite lookup_insert_ne|done]. Qed.

Lemma lookup_cond_insert_eq (b : bool) k (v : Cond) (m : gmap string Cond) :
  (if b then <[k:=v]> m else m) !! k = if b then Some v else m !! k.
Proof. destruct b; [by rewrite lookup_insert_eq|done]. Qed.

Ltac searchQuery_lookup :=
  intros; unfold SearchIndex.searchQuery; cbv zeta;
  rewrite lookup_insert_ne by done;
  rewrite ?lookup_cond_insert_ne by done;
  rewrite ?lookup_cond_insert_eq, ?lookup_cond_insert_ne by done;
  by rewrite ?lookup_empty.

Lemma searchQuery_text query options :
  SearchIndex.searchQuery query options !! "$text" =
  if truthy query then Some (CText query) else None.
Proof. searchQuery_lookup. Qed.

Lemma searchQuery_businessId query options :
  SearchIndex.searchQuery query options !! "businessId" =
  if truthy (opt options "businessId")
  then Some (CEq (opt options "businessId")) else None.
Proof. searchQuery_lookup. Qed.

Lemma searchQuery_franchiseId query options :
  SearchIndex.searchQuery query options !! "franchiseId" =
  if truthy (opt options "franchiseId")
  then Some (CEq (opt options "franchiseId")) else None.
Proof. searchQuery_lookup. Qed.

Lemma searchQuery_contentType query options :
  SearchIndex.searchQuery query options !! "contentType" =
  if truthy (opt options "contentType")
  then Some (CEq (opt options "contentType")) else None.
Proof. searchQuery_lookup. Qed.

Lemma searchQuery_tags query options :
  SearchIndex.searchQuery query options !! "tags" =
  if truthy (opt options "tags") && has_elements (opt options "tags")
  then Some (CIn (opt options "tags")) else None.
Proof. searchQuery_lookup. Qed.

Lemma searchQuery_categories query options :
  SearchIndex.searchQuery query options !! "categories" =
  if truthy (opt options "categories") && has_elements (opt options "categories")
  then Some (CIn (opt options "categories")) else None.
Proof. searchQuery_lookup. Qed.

Lemma searchQuery_rating query options :
  SearchIndex.searchQuery query options !! "metadata.rating" =
  if truthy (opt options "rating")
  then Some (CEq (opt options "rating")) else None.
Proof. searchQuery_lookup. Qed.

Lemma searchQuery_sentiment query options :
  SearchIndex.searchQuery query options !! "metadata.sentiment" =
  if truthy (opt options "sentiment")
  then Some (CEq (opt options "sentiment")) else None.
Proof. searchQuery_lookup. Qed.

Lemma searchQuery_language query options :
  SearchIndex.searchQuery query options !! "metadata.language" =
  if truthy (opt options "language")
  then Some (CEq (opt options "language")) else None.
Proof. searchQuery_lookup. Qed.

(** ** Comma-separated parameters *)

Lemma split_from_nonempty cur s : split_from cur s ≠ [].
Proof.
  revert cur. induction s as [|c r IH]; intros cur; simpl; [done|].
  destruct (Ascii.eqb c ","); [done|apply IH].
Qed.

Lemma string_app_cons x (a b : string) : String x a +:+ b = String x (a +:+ b).
Proof. reflexivity. Qed.

Lemma string_app_nil_r (a : string) : a +:+ "" = a.
Proof. induction a as [|x a IH]; [done|]. by rewrite string_app_cons, IH. Qed.

Lemma string_app_assoc (a b c : string) : (a +:+ b) +:+ c = a +:+ (b +:+ c).
Proof.
  induction a as [|x a IH]; [done|]. by rewrite !string_app_cons, IH.
Qed.

Lemma join_comma_cons x l :
  l ≠ [] → join_comma (x :: l) = x +:+ "," +:+ join_comma l.
Proof. by destruct l. Qed.

Lemma join_split_from cur s : join_comma (split_from cur s) = cur +:+ s.
Proof.
  revert cur. induction s as [|c r IH]; intros cur; simpl.
  - by rewrite string_app_nil_r.
  - destruct (Ascii.eqb_spec c ",") as [->|Hc].
    + rewrite join_comma_cons by apply split_from_nonempty. by rewrite IH.
    + rewrite IH. by rewrite string_app_assoc.
Qed.

Lemma has_comma_append a b : has_comma (a +:+ b) = has_comma a || has_comma b.
Proof.
  induction a as [|x a IH]; [done|]. rewrite string_app_cons.
  cbn [has_comma]. rewrite IH. by rewrite orb_assoc.
Qed.

Lemma split_from_no_comma cur s x :
  has_comma cur = false → x ∈ split_from cur s → has_comma x = false.
Proof.
  revert cur. induction s as [|c r IH]; intros cur Hcur; simpl.
  - by intros ->%list_elem_of_singleton.
  - destruct (Ascii.eqb c ",") eqn:Hc.
    + intros [->|Hx]%elem_of_cons; [done|]. by apply (IH "").
    + apply IH. rewrite has_comma_append, Hcur. simpl. by rewrite Hc.
Qed.

(** X3.  [split(',')] as the search routes use it on [tags] and
    [categories]: the list is never empty, no element holds a comma,
    joining the elements with commas gives the parameter back, and a
    parameter without a comma is the only element of its list.  So a
    non-empty [tags] parameter always becomes an [$in] condition of the
    filter. *)
Theorem X3_split_comma (s : string) :
  split_comma s ≠ [] ∧
  (∀ x, x ∈ split_comma s → has_comma x = false) ∧
  join_comma (split_comma s) = s ∧
  (has_comma s = false → split_comma s = [s]) ∧
  (s ≠ "" →
   ∀ query options,
     SearchIndex.searchQuery query
       (<["tags" := split_or_undefined (VStr s)]> options) !! "tags" =
     Some (CIn (VArr (split_comma s)))).
Proof.
  unfold split_comma. split_and!.
  - apply split_from_nonempty.
  - intros x. by apply split_from_no_comma.
  - by rewrite join_split_from.
  - assert (∀ cur, has_comma s = false → split_from cur s = [cur +:+ s]) as Hs.
    { induction s as [|c r IH]; intros cur Hc; simpl in *.
      - by rewrite string_app_nil_r.
      - apply orb_false_iff in Hc as [Hc Hr]. rewrite Hc, IH by done.
        by rewrite string_app_assoc. }
    intros Hc. by rewrite Hs.
  - intros Hne query options.
    assert (truthy (VStr s) = true) as Ht.
    { simpl. destruct (String.eqb_spec s ""); [done|done]. }
    unfold split_or_undefined. rewrite Ht.
    rewrite searchQuery_tags, opt_insert_eq.
    assert (has_elements (VArr (split_comma s)) = true) as ->; [|done].
    unfold split_comma. simpl.
    pose proof (split_from_nonempty "" s). by destruct (split_from "" s).
Qed.

Lemma X3_witness :
  "a,b" ≠ "" ∧ split_comma "a,b" = ["a"; "b"] ∧
  SearchIndex.searchQuery VUndef
    (<["tags" := split_or_undefined (VStr "a,b")]> ∅) !! "tags" =
  Some (CIn (VArr (split_comma "a,b"))).
Proof.
  assert ("a,b" ≠ "") as Hne by discriminate.
  split; [exact Hne|]. split; [reflexivity|].
  exact (proj2 (proj2 (proj2 (proj2 (X3_split_comma "a,b")))) Hne VUndef ∅).
Defined.

(** ** What a search returns *)

Ltac search_options_opt :=
  intros; unfold Routes.search_options; rewrite !list_to_map_cons;
  rewrite ?opt_insert_ne by done; apply opt_insert_eq.

Lemma search_options_businessId query ct :
  opt (Routes.search_options query ct) "businessId" = param query "businessId".
Proof. search_options_opt. Qed.

Lemma search_options_franchiseId query ct :
  opt (Routes.search_options query ct) "franchiseId" = param query "franchiseId".
Proof. search_options_opt. Qed.

Lemma search_options_contentType query ct :
  opt (Routes.search_options query ct) "contentType" = ct.
Proof. search_options_opt. Qed.

Lemma search_options_tags query ct :
  opt (Routes.search_options query ct) "tags" =
  split_or_undefined (param query "tags").
Proof. search_options_opt. Qed.

Lemma search_options_categories query ct :
  opt (Routes.search_options query ct) "categories" =
  split_or_undefined (param query "categories").
Proof. search_options_opt. Qed.

Lemma search_options_rating query ct :
  opt (Routes.search_options query ct) "rating" =
  parseInt_or_undefined (param query "rating").
Proof. search_options_opt. Qed.

Lemma search_options_sentiment query ct :
  opt (Routes.search_options query ct) "sentiment" = param query "sentiment".
Proof. search_options_opt. Qed.

Lemma search_options_language query ct :
  opt (Routes.search_options query ct) "language" = param query "language".
Proof. search_options_opt. Qed.

Lemma has_elements_split s : has_elements (VArr (split_comma s)) = true.
Proof.
  unfold split_comma. simpl. pose proof (split_from_nonempty "" s).
  by destruct (split_from "" s).
Qed.

Lemma param_Some query k s : query !! k = Some s → param query k = VStr s.
Proof. unfold param. by intros ->. Qed.

Lemma truthy_VStr s : s ≠ "" → truthy (VStr s) = true.
Proof. intros. simpl. by destruct (String.eqb_spec s ""). Qed.

Lemma rating_condition_spec query :
  (if truthy (parseInt_or_undefined (param query "rating"))
   then Some (CEq (parseInt_or_undefined (param query "rating")))
   else None) = rating_condition query.
Proof.
  unfold rating_condition, parseInt_or_undefined, param.
  destruct (query !! "rating") as [s|]; [|done].
  destruct (truthy (VStr s)) eqn:Ht.
  - cbn [parseInt truthy]. destruct (parseInt_string s) as [|r]; [done|].
    by destruct (r =? 0).
  - simpl in Ht. apply negb_false_iff in Ht.
    apply String.eqb_eq in Ht as ->. done.
Qed.

Section SearchResults.
Context `{SearchEngine}.
Variable clock : nat → Z.
Variable fresh : nat → string.

Lemma cast_query_lookup_Some (q q' : gmap string Cond) path c :
  cast_query q = Some q' → q !! path = Some c →
  ∃ c', cast_cond path c = Some c' ∧ q' !! path = Some c'.
Proof.
  intros Hq Hl. pose proof (cast_query_lookup _ _ _ _ Hq Hl) as Hl'.
  unfold cast_query in Hq. case_bool_decide as Hall; [|done].
  destruct (map_Forall_lookup_1 _ _ _ _ Hall Hl) as [c' Hc'].
  exists c'. by rewrite Hl', Hc'.
Qed.

(** A document a [find] returns satisfies, after the cast, every
    condition of the filter. *)
Lemma run_find_holds conditions sort limit skip coll res d path c :
  run_find conditions sort limit skip coll = Some res → d ∈ res →
  conditions !! path = Some c →
  ∃ c', cast_cond path c = Some c' ∧ holds c' path d = true.
Proof.
  intros Hr Hd Hl.
  destruct (run_find_elem _ _ _ _ _ _ _ Hr Hd) as (q & Hq & Hm & _).
  destruct (cast_query_lookup_Some _ _ _ _ Hq Hl) as (c' & Hc & Hl').
  exists c'. split; [done|]. by apply (map_Forall_lookup_1 _ _ _ _ Hm).
Qed.

Lemma holds_contentType ct d :
  holds (CEq (VStr ct)) "contentType" d = true ↔ contentType d = ct.
Proof.
  change (holds (CEq (VStr ct)) "contentType" d)
    with (bool_decide (VStr (contentType d) = VStr ct)).
  rewrite bool_decide_eq_true. split; [by intros [= ->]|by intros ->].
Qed.

Lemma holds_tags_in l d :
  holds (CIn (VArr l)) "tags" d = true ↔ ∃ t, t ∈ tags d ∧ t ∈ l.
Proof.
  change (holds (CIn (VArr l)) "tags" d)
    with (existsb (λ s, bool_decide (s ∈ l)) (tags d)).
  rewrite existsb_exists. split.
  - intros (t & Ht & Hl). exists t. split; [by apply list_elem_of_In|].
    by apply bool_decide_eq_true in Hl.
  - intros (t & Ht & Hl). exists t. split; [by apply list_elem_of_In|].
    by apply bool_decide_eq_true.
Qed.

Lemma holds_categories_in l d :
  holds (CIn (VArr l)) "categories" d = true ↔ ∃ t, t ∈ categories d ∧ t ∈ l.
Proof.
  change (holds (CIn (VArr l)) "categories" d)
    with (existsb (λ s, bool_decide (s ∈ l)) (categories d)).
  rewrite existsb_exists. split.
  - intros (t & Ht & Hl). exists t. split; [by apply list_elem_of_In|].
    by apply bool_decide_eq_true in Hl.
  - intros (t & Ht & Hl). exists t. split; [by apply list_elem_of_In|].
    by apply bool_decide_eq_true.
Qed.

Lemma holds_rating_eq r d :
  holds (CEq (VNum (Num r))) "metadata.rating" d = true ↔
  rating (metadata d) = Some r.
Proof.
  unfold holds. cbv zeta.
  change (doc_field d "metadata.rating") with (of_opt (λ z, VNum (Num z)) (rating (metadata d))).
  destruct (rating (metadata d)) as [x|]; cbn [of_opt]; rewrite bool_decide_eq_true.
  - split; [by intros [= ->]|by intros [= ->]].
  - split; done.
Qed.

Lemma holds_sentiment s d :
  holds (CEq (VStr s)) "metadata.sentiment" d = true ↔
  sentiment (metadata d) = Some s.
Proof.
  unfold holds. cbv zeta.
  change (doc_field d "metadata.sentiment") with (of_opt VStr (sentiment (metadata d))).
  destruct (sentiment (metadata d)) as [x|]; cbn [of_opt]; rewrite bool_decide_eq_true.
  - split; [by intros [= ->]|by intros [= ->]].
  - split; done.
Qed.

Lemma holds_language s d :
  holds (CEq (VStr s)) "metadata.language" d = true ↔
  language (metadata d) = Some s.
Proof.
  unfold holds. cbv zeta.
  change (doc_field d "metadata.language") with (of_opt VStr (language (metadata d))).
  destruct (language (metadata d)) as [x|]; cbn [of_opt]; rewrite bool_decide_eq_true.
  - split; [by intros [= ->]|by intros [= ->]].
  - split; done.
Qed.

End SearchResults.

Section SearchRoutes.
Context `{SearchEngine}.
Variable clock : nat → Z.
Variable fresh : nat → string.

Lemma get_search_result query w res :
  data (run clock fresh (Routes.get_search query) w).1 = DDocs res →
  let options :=
    <["sortBy" := VSort (Routes.search_sort
                           (or_default (param query "sortBy") (VStr "relevance"))
                           (param query "q"))]>
      (Routes.search_options query (param query "contentType")) in
  ∃ sort limit skip,
    run_find (SearchIndex.searchQuery (param query "q") options)
      sort limit skip (docs w) = Some res.
Proof.
  unfold Routes.get_search. destruct (negb _ && negb _); [done|].
  rewrite search_with_sortBy, run_await, exec_find. cbn [fst snd].
  destruct (run_find _ _ _ _ _) as [res'|] eqn:Hr;
    cbn [settle run fst data ok_list fail]; [|done].
  intros [= ->]. eauto.
Qed.

Lemma get_search_contentType_result contentType query w res :
  data (run clock fresh (Routes.get_search_contentType contentType query) w).1 =
    DDocs res →
  let options :=
    <["contentType" := VStr contentType]> (Routes.search_options query VUndef) in
  ∃ sort limit skip,
    run_find (SearchIndex.searchQuery (param query "q") options)
      sort limit skip (docs w) = Some res.
Proof.
  unfold Routes.get_search_contentType, SearchIndex.searchByContentType,
    SearchIndex.search.
  rewrite run_await, exec_find. cbn [fst snd].
  destruct (run_find _ _ _ _ _) as [res'|] eqn:Hr;
    cbn [settle run fst data ok_list fail]; [|done].
  intros [= ->]. eauto.
Qed.

(** X4.  Every record [GET /api/search] returns is active and satisfies
    each filter the request carries: it belongs to the [businessId]
    given, has the [contentType], [sentiment] and [language] given,
    carries one of the comma-separated [tags] and one of the
    [categories], has exactly the [rating] given (an exact match, not a
    minimum), and is matched by the text search on [q]. *)
Theorem X4_search_results_satisfy_filters (query : gmap string string)
    (w : World) (res : list Doc) (d : Doc) :
  data (run clock fresh (Routes.get_search query) w).1 = DDocs res →
  d ∈ res →
  d ∈ docs w ∧ isActive d = true ∧
  (∀ b, query !! "businessId" = Some b → b ≠ "" → businessId d = b) ∧
  (∀ ct, query !! "contentType" = Some ct → ct ≠ "" → contentType d = ct) ∧
  (∀ s, query !! "tags" = Some s → s ≠ "" →
     ∃ t, t ∈ tags d ∧ t ∈ split_comma s) ∧
  (∀ s, query !! "categories" = Some s → s ≠ "" →
     ∃ t, t ∈ categories d ∧ t ∈ split_comma s) ∧
  (∀ s r, query !! "rating" = Some s → parseInt_string s = Num r → r ≠ 0 →
     rating (metadata d) = Some r) ∧
  (∀ s, query !! "sentiment" = Some s → s ≠ "" →
     sentiment (metadata d) = Some s) ∧
  (∀ s, query !! "language" = Some s → s ≠ "" →
     language (metadata d) = Some s) ∧
  (∀ s, query !! "q" = Some s → s ≠ "" → text_match s d = true).
Proof.
  intros (sort & limit & skip & Hr)%get_search_result Hd.
  pose proof (λ path c, run_find_holds _ _ _ _ _ _ _ path c Hr Hd) as Hholds.
  destruct (run_find_elem _ _ _ _ _ _ _ Hr Hd) as (q' & Hq & Hm & Hin).
  split_and!.
  - done.
  - eapply matches_active; [|done..]. apply lookup_insert_eq.
  - intros b Hb Hne.
    destruct (Hholds "businessId" (CEq (VStr b))) as (c' & Hcast & Hc).
    { rewrite searchQuery_businessId, opt_insert_ne, search_options_businessId by done.
      by rewrite (param_Some _ _ _ Hb), truthy_VStr. }
    change (cast_cond "businessId" (CEq (VStr b)))
      with (CEq <$> (if is_oid b then Some (VOid b) else None)) in Hcast.
    destruct (is_oid b); [|done]. injection Hcast as <-.
    by apply holds_businessId.
  - intros ct Hct Hne.
    destruct (Hholds "contentType" (CEq (VStr ct))) as (c' & [= <-] & Hc).
    { rewrite searchQuery_contentType, opt_insert_ne, search_options_contentType by done.
      by rewrite (param_Some _ _ _ Hct), truthy_VStr. }
    by apply holds_contentType.
  - intros s Hs Hne.
    destruct (Hholds "tags" (CIn (VArr (split_comma s)))) as (c' & [= <-] & Hc).
    { rewrite searchQuery_tags, opt_insert_ne, search_options_tags by done.
      rewrite (param_Some _ _ _ Hs). unfold split_or_undefined.
      rewrite truthy_VStr by done. by rewrite has_elements_split. }
    by apply holds_tags_in.
  - intros s Hs Hne.
    destruct (Hholds "categories" (CIn (VArr (split_comma s))))
      as (c' & [= <-] & Hc).
    { rewrite searchQuery_categories, opt_insert_ne, search_options_categories by done.
      rewrite (param_Some _ _ _ Hs). unfold split_or_undefined.
      rewrite truthy_VStr by done. by rewrite has_elements_split. }
    by apply holds_categories_in.
  - intros s r Hs Hp Hr0.
    destruct (Hholds "metadata.rating" (CEq (VNum (Num r)))) as (c' & [= <-] & Hc).
    { rewrite searchQuery_rating, opt_insert_ne, search_options_rating by done.
      rewrite rating_condition_spec. unfold rating_condition.
      rewrite (param_Some _ _ _ Hs), Hp. by destruct (Z.eqb_spec r 0). }
    by apply holds_rating_eq.
  - intros s Hs Hne.
    destruct (Hholds "metadata.sentiment" (CEq (VStr s))) as (c' & [= <-] & Hc).
    { rewrite searchQuery_sentiment, opt_insert_ne, search_options_sentiment by done.
      by rewrite (param_Some _ _ _ Hs), truthy_VStr. }
    by apply holds_sentiment.
  - intros s Hs Hne.
    destruct (Hholds "metadata.language" (CEq (VStr s))) as (c' & [= <-] & Hc).
    { rewrite searchQuery_language, opt_insert_ne, search_options_language by done.
      by rewrite (param_Some _ _ _ Hs), truthy_VStr. }
    by apply holds_language.
  - intros s Hs Hne.
    destruct (Hholds "$text" (CText (VStr s))) as (c' & [= <-] & Hc).
    { rewrite searchQuery_text. by rewrite (param_Some _ _ _ Hs), truthy_VStr. }
    done.
Qed.

End SearchRoutes.

(** ** The [rating] parameter of the GET search routes *)

(** X5.  On both GET search routes the filter sent to storage has a
    [metadata.rating] condition exactly when the [rating] parameter
    parses to an integer other than 0, and then it is equality with that
    integer.  A [rating] of [0], or one that is not a number (parsed to
    [NaN]), is dropped without an error: the search runs unfiltered by
    rating. *)
Theorem X5_rating_zero_or_malformed_is_ignored (query : gmap string string) :
  (¬ lacks_query_and_business query →
   ∃ m, sends_filter (Routes.get_search query) m ∧
        m !! "metadata.rating" = rating_condition query) ∧
  (∀ contentType,
   ∃ m, sends_filter (Routes.get_search_contentType contentType query) m ∧
        m !! "metadata.rating" = rating_condition query).
Proof.
  split.
  - intros Hg. unfold Routes.get_search.
    destruct (negb _ && negb _) eqn:Eg.
    { exfalso. apply Hg.
      apply andb_true_iff in Eg as [?%negb_true_iff ?%negb_true_iff]. by split. }
    rewrite search_with_sortBy. eexists. split.
    + eexists _, _, _, _. reflexivity.
    + rewrite searchQuery_rating, opt_insert_ne, search_options_rating by done.
      apply rating_condition_spec.
  - intros contentType. unfold Routes.get_search_contentType,
      SearchIndex.searchByContentType, SearchIndex.search.
    eexists. split.
    + eexists _, _, _, _. reflexivity.
    + rewrite searchQuery_rating, opt_insert_ne, search_options_rating by done.
      apply rating_condition_spec.
Qed.

Lemma X5_witness :
  let zero := Sample.query_of [("businessId", "B1"); ("rating", "0")] in
  let word := Sample.query_of [("businessId", "B1"); ("rating", "five")] in
  let four := Sample.query_of [("businessId", "B1"); ("rating", "4")] in
  ¬ lacks_query_and_business zero ∧
  rating_condition zero = None ∧ rating_condition word = None ∧
  rating_condition four = Some (CEq (VNum (Num 4))) ∧
  ∃ m, sends_filter (Routes.get_search zero) m ∧ m !! "metadata.rating" = None.
Proof.
  intros zero word four.
  assert (¬ lacks_query_and_business zero) as Hg.
  { intros [_ Hb]. vm_compute in Hb. discriminate Hb. }
  split; [exact Hg|]. split; [vm_compute; reflexivity|].
  split; [vm_compute; reflexivity|]. split; [vm_compute; reflexivity|].
  destruct (proj1 (X5_rating_zero_or_malformed_is_ignored zero) Hg)
    as (m & Hs & Hm).
  exists m. split; [exact Hs|]. rewrite Hm. vm_compute. reflexivity.
Defined.

(** ** Creating a record *)

Section Create.
Context `{SearchEngine}.
Variable clock : nat → Z.
Variable fresh : nat → string.

(** X6.  [POST /api/search/index] stores a record only when the five
    required fields are in the payload and the schema's validators pass,
    and answers 201 with it; otherwise it answers 500 and the collection
    is as before.  The stored record is always active and takes its
    three timestamps from the clock: [isActive], [indexedAt],
    [createdAt] and [updatedAt] keys of the payload are not read.  On
    success the collection grows by that one record, at the end. *)
Theorem X6_create_stores_valid_active_record (body : Fields) (w : World) :
  let r := run clock fresh (Routes.post_index body) w in
  (∀ a i c u,
     run clock fresh (Routes.post_index (with_unread_keys a i c u body)) w = r) ∧
  (status r.1 = 201 ∨ status r.1 = 500) ∧
  (status r.1 = 201 →
   ∃ d, data r.1 = DDoc d ∧ docs r.2 = docs w ++ [d] ∧
        isActive d = true ∧ validate d = true ∧
        f_businessId body = Some (businessId d) ∧
        f_contentType body = Some (contentType d) ∧
        f_contentId body = Some (contentId d) ∧
        f_title body = Some (title d) ∧
        f_content body = Some (content d) ∧
        tags d = default [] (f_tags body)) ∧
  (status r.1 = 500 → data r.1 = DNone ∧ docs r.2 = docs w) ∧
  (f_businessId body = None ∨ f_contentType body = None ∨
   f_contentId body = None ∨ f_title body = None ∨ f_content body = None →
   status r.1 = 500).
Proof.
  intros r. subst r. split_and!.
  - intros a i c u. by rewrite !run_post_index.
  - rewrite run_post_index. destruct (to_doc _ _ _) as [d|];
      [destruct (validate d)|]; auto.
  - rewrite run_post_index. destruct (to_doc _ _ _) as [d0|] eqn:Hd; [|done].
    destruct (validate d0) eqn:Hv; [|done]. intros _.
    apply to_doc_fields in Hd as (_ & _ & Hb & Hct & Hcid & Hti & Hco & Htg & Ha & _).
    eexists. split; [reflexivity|]. by split_and!.
  - rewrite run_post_index. destruct (to_doc _ _ _) as [d|];
      [destruct (validate d)|]; done.
  - rewrite run_post_index. intros Hmiss.
    assert (to_doc (fresh (ids w)) (clock (S (ticks w)))
              (with_unread_keys None None None None body) = None) as ->; [|done].
    apply to_doc_None. by left.
Qed.

End Create.

(** ** Search by content type, by date and by relevance *)

Lemma sort_le_date score dir (a b : Doc) :
  sort_le score [(ByIndexedAt, dir)] a b →
  match dir with
  | Desc => newest_first a b
  | Asc => newest_first b a
  end.
Proof.
  unfold sort_le, newest_first. simpl.
  destruct dir; simpl;
    rewrite ?orb_true_iff, ?andb_true_iff, ?orb_true_iff, ?andb_true_iff,
            ?Z.ltb_lt, ?Z.eqb_eq; lia.
Qed.

Lemma sort_le_relevance score (a b : Doc) :
  sort_le score [(ByTextScore, Desc); (ByIndexedAt, Desc)] a b →
  by_relevance score a b.
Proof.
  unfold sort_le, by_relevance. simpl.
  rewrite ?orb_true_iff, ?andb_true_iff, ?orb_true_iff, ?andb_true_iff,
          ?Z.ltb_lt, ?Z.eqb_eq. lia.
Qed.

Section SortedSearch.
Context `{SearchEngine}.
Variable clock : nat → Z.
Variable fresh : nat → string.

(** X7.  Every record [GET /api/search/:contentType] returns is active
    and has the content type of the path, and belongs to the
    [businessId] of the query when there is one; a [contentType] among
    the options of [searchByContentType] is overridden by its argument. *)
Theorem X7_search_by_content_type (ct : string) (query : gmap string string)
    (w : World) (res : list Doc) (d : Doc) :
  ct ≠ "" →
  data (run clock fresh (Routes.get_search_contentType ct query) w).1 =
    DDocs res →
  d ∈ res →
  d ∈ docs w ∧ isActive d = true ∧ contentType d = ct ∧
  (∀ b, query !! "businessId" = Some b → b ≠ "" → businessId d = b) ∧
  (∀ q options v,
     SearchIndex.searchByContentType (VStr ct) q (<["contentType" := v]> options) =
     SearchIndex.searchByContentType (VStr ct) q options).
Proof.
  intros Hct (sort & limit & skip & Hr)%get_search_contentType_result Hd.
  pose proof (λ path c, run_find_holds _ _ _ _ _ _ _ path c Hr Hd) as Hholds.
  destruct (run_find_elem _ _ _ _ _ _ _ Hr Hd) as (q' & Hq & Hm & Hin).
  split_and!.
  - done.
  - eapply matches_active; [|done..]. apply lookup_insert_eq.
  - destruct (Hholds "contentType" (CEq (VStr ct))) as (c' & [= <-] & Hc).
    { rewrite searchQuery_contentType, opt_insert_eq. by rewrite truthy_VStr. }
    by apply holds_contentType.
  - intros b Hb Hne.
    destruct (Hholds "businessId" (CEq (VStr b))) as (c' & Hcast & Hc).
    { rewrite searchQuery_businessId, opt_insert_ne, search_options_businessId by done.
      by rewrite (param_Some _ _ _ Hb), truthy_VStr. }
    change (cast_cond "businessId" (CEq (VStr b)))
      with (CEq <$> (if is_oid b then Some (VOid b) else None)) in Hcast.
    destruct (is_oid b); [|done]. injection Hcast as <-.
    by apply holds_businessId.
  - intros q options v. unfold SearchIndex.searchByContentType.
    by rewrite insert_insert_eq.
Qed.

(** X8.  How [GET /api/search] orders its answer when the sort is not by
    rating.  With [sortBy=date], with an unknown [sortBy], and with
    [sortBy=relevance] (the default) but no [q], the records come most
    recently indexed first.  With [sortBy=relevance] and a [q], they come
    by descending relevance score, the more recently indexed first among
    equal scores.  [POST /api/search/advanced] with [sort.field = 'date']
    orders by [indexedAt], ascending when [sort.order] is ['asc']. *)
Theorem X8_search_order (w : World) :
  (∀ query res,
     sorts_by_date query →
     data (run clock fresh (Routes.get_search query) w).1 = DDocs res →
     StronglySorted newest_first res) ∧
  (∀ query s res,
     query !! "q" = Some s → s ≠ "" →
     or_default (param query "sortBy") (VStr "relevance") = VStr "relevance" →
     data (run clock fresh (Routes.get_search query) w).1 = DDocs res →
     ∃ score, score_of (Some s) = Some score ∧
              StronglySorted (by_relevance score) res) ∧
  (∀ body sort res,
     Routes.ab_sort body = Some sort →
     sort !! "field" = Some (VStr "date") →
     data (run clock fresh (Routes.post_search_advanced body) w).1 = DDocs res →
     StronglySorted
       (if is_str (opt sort "order") "asc" then flip newest_first
        else newest_first) res).
Proof.
  split_and!.
  - intros query res [Hnr Hrel]. unfold Routes.get_search.
    destruct (negb _ && negb _); [done|].
    rewrite search_with_sortBy, run_await, exec_find. cbn [fst snd].
    assert (Routes.search_sort
              (or_default (param query "sortBy") (VStr "relevance"))
              (param query "q") = [(ByIndexedAt, Desc)]) as ->.
    { unfold Routes.search_sort, is_str.
      destruct (decide (or_default (param query "sortBy") (VStr "relevance") =
                        VStr "relevance")) as [Heq|Hne].
      - rewrite Heq, (Hrel Heq). done.
      - rewrite (bool_decide_eq_false_2 _ Hne). cbn [andb].
        rewrite bool_decide_eq_false_2; [by case_bool_decide|].
        intros Heq. apply Hnr. by destruct (param query "sortBy"). }
    destruct (run_find _ _ _ _ _) as [res'|] eqn:Hr;
      cbn [settle run fst data ok_list fail]; [|done].
    intros [= ->]. apply run_find_sorted in Hr as [sc Hs].
    eapply StronglySorted_mono; [|done]. intros a b. apply sort_le_date.
  - intros query s res Hq Hne Hrel. unfold Routes.get_search.
    destruct (negb _ && negb _); [done|].
    rewrite search_with_sortBy, run_await, exec_find. cbn [fst snd].
    rewrite Hrel, (param_Some _ _ _ Hq). unfold Routes.search_sort.
    rewrite truthy_VStr by done.
    assert (is_str (VStr "relevance") "relevance" = true) as ->
      by (by apply bool_decide_eq_true_2).
    cbn [andb].
    destruct (run_find _ _ _ _ _) as [res'|] eqn:Hr;
      cbn [settle run fst data ok_list fail]; [|done].
    intros [= ->].
    apply run_find_inv in Hr as (q' & spec & sc & Hcast & [= <-] & Hsc & Hp).
    exists sc. split.
    + unfold scorer in Hsc. cbn [uses_score existsb fst] in Hsc.
      rewrite bool_decide_eq_true_2 in Hsc by done. cbn [orb] in Hsc.
      assert (text_of q' = Some s) as <-; [|done].
      unfold text_of.
      erewrite cast_query_lookup; [|done|].
      2:{ rewrite searchQuery_text. by rewrite truthy_VStr. }
      done.
    + eapply StronglySorted_sublist; [by eapply page_sublist|].
      eapply StronglySorted_mono; [|apply sort_docs_sorted].
      intros a b. apply sort_le_relevance.
  - intros body sort res Hb Hf. unfold Routes.post_search_advanced.
    rewrite Hb.
    change (default Routes.default_advanced_sort (Some sort)) with sort.
    rewrite search_with_sortBy, run_await, exec_find.
    unfold Routes.advanced_sort.
    assert (opt sort "field" = VStr "date") as ->
      by (unfold opt; by rewrite Hf).
    cbn [fst snd].
    assert (is_str (VStr "date") "relevance" = false) as ->
      by (by apply bool_decide_eq_false_2).
    assert (is_str (VStr "date") "rating" = false) as ->
      by (by apply bool_decide_eq_false_2).
    assert (is_str (VStr "date") "date" = true) as ->
      by (by apply bool_decide_eq_true_2).
    cbn [andb].
    destruct (run_find _ _ _ _ _) as [res'|] eqn:Hr;
      cbn [settle run fst data ok_list fail]; [|done].
    intros [= ->]. apply run_find_sorted in Hr as [sc Hs].
    eapply StronglySorted_mono; [|done]. intros a b Hab.
    apply sort_le_date in Hab. by destruct (is_str _ _).
Qed.

End SortedSearch.

(** ** Content statistics *)

Lemma filter_nothing_elem {A} (P : A → Prop) `{∀ x, Decision (P x)} (l : list A) :
  (∀ x, x ∈ l → ¬ P x) → filter P l = [].
Proof.
  induction l as [|x l IH]; [done|]. intros HP. rewrite filter_cons.
  rewrite decide_False by (apply HP; left). apply IH. intros y Hy.
  apply HP. by right.
Qed.

Lemma filter_eq_singleton_count (k0 : string) (ks : list string) :
  NoDup ks → k0 ∈ ks → List.length (filter (k0 =.) ks) = 1%nat.
Proof.
  induction 1 as [|k ks Hk Hnd IH]; [by intros ?%elem_of_nil|].
  rewrite filter_cons. intros [->|Hin]%elem_of_cons.
  - rewrite decide_True by done. simpl. f_equal.
    assert (filter (k =.) ks = []) as ->; [|done].
    apply filter_nothing_elem. by intros x Hx <-.
  - rewrite decide_False; [by apply IH|]. by intros <-.
Qed.

Lemma group_sizes_sum (l : list Doc) (ks : list string) :
  NoDup ks → (∀ d, d ∈ l → contentType d ∈ ks) →
  foldr Z.add 0 ((λ k, Z.of_nat (List.length (filter (of_type k) l))) <$> ks) =
  Z.of_nat (List.length l).
Proof.
  intros Hnd. induction l as [|x l IH]; intros Hin.
  - clear. induction ks as [|k ks IH]; [done|].
    rewrite fmap_cons. cbn [foldr]. rewrite IH. by rewrite filter_nil.
  - assert (∀ ks',
      foldr Z.add 0
        ((λ k, Z.of_nat (List.length (filter (of_type k) (x :: l)))) <$> ks') =
      foldr Z.add 0
        ((λ k, Z.of_nat (List.length (filter (of_type k) l))) <$> ks') +
      Z.of_nat (List.length (filter (contentType x =.) ks'))) as Hstep.
    { induction ks' as [|k ks' IHk]; [done|].
      rewrite !fmap_cons. cbn [foldr]. rewrite IHk.
      rewrite (filter_cons (of_type k)), (filter_cons (contentType x =.)).
      unfold of_type at 1.
      destruct (decide (contentType x = k)); simpl List.length; lia. }
    rewrite Hstep, IH.
    + rewrite filter_eq_singleton_count; [simpl List.length; lia|done|].
      apply Hin. by left.
    + intros d Hd. apply Hin. by right.
Qed.

Lemma sum_bounds (lo hi : Z) (rs : list Z) :
  Forall (λ r, lo ≤ r ≤ hi) rs →
  lo * Z.of_nat (List.length rs) ≤ foldr Z.add 0 rs ≤
  hi * Z.of_nat (List.length rs).
Proof.
  induction 1 as [|r rs Hr Hrs IH]; simpl foldr; simpl List.length; lia.
Qed.

Lemma length_omap_le {A B} (f : A → option B) (l : list A) :
  (List.length (omap f l) ≤ List.length l)%nat.
Proof.
  induction l as [|x l IH]; [done|].
  change (omap f (x :: l))
    with (match f x with Some y => y :: omap f l | None => omap f l end).
  destruct (f x); simpl List.length; lia.
Qed.

Section Stats.
Context `{SearchEngine}.
Variable clock : nat → Z.
Variable fresh : nat → string.

(** X11.  The content statistics of a business (its id given as the
    ObjectId) have one row per content type found among its active
    records.  A row counts the active records of that type, so the
    counts add up to the number of active records of the business; the
    ratings and the sentiments it collects are at most as many as the
    records; and when every rating lies between 1 and 5, so does the
    average (the sum lies between the number of ratings and five times
    that number). *)
Theorem X11_content_stats (w : World) (b : string) :
  ∃ rows,
    (exec clock fresh (SearchIndex.getContentStats (VOid b)) w).1 =
      Resolved (DStats rows) ∧
    NoDup (st_contentType <$> rows) ∧
    (∀ d, d ∈ docs w → owned b d → contentType d ∈ st_contentType <$> rows) ∧
    (∀ row, row ∈ rows →
       st_count row =
         Z.of_nat (List.length
                     (filter (of_type (st_contentType row))
                        (filter (owned b) (docs w)))) ∧
       1 ≤ st_count row ∧
       0 ≤ st_ratingCount row ≤ st_count row ∧
       (List.length (st_sentimentBreakdown row) ≤ Z.to_nat (st_count row))%nat ∧
       ((∀ d, d ∈ docs w → in_range 1 5 (rating (metadata d)) = true) →
        st_ratingCount row ≤ st_ratingSum row ≤ 5 * st_ratingCount row)) ∧
    sum_counts rows = Z.of_nat (List.length (filter (owned b) (docs w))).
Proof.
  set (l := filter (owned b) (docs w)).
  set (ks := remove_dups (contentType <$> l)).
  exists (stat_row l <$> ks).
  assert (st_contentType <$> (stat_row l <$> ks) = ks) as Hks.
  { rewrite <- list_fmap_compose. rewrite <- (list_fmap_id ks) at 2.
    by apply list_fmap_ext. }
  split_and!.
  - unfold SearchIndex.getContentStats. cbn [exec fst]. unfold run_stats.
    by rewrite (filter_ext_iff _ (owned b) _ (owned_active_matches b)).
  - rewrite Hks. apply NoDup_remove_dups.
  - intros d Hd Ho. rewrite Hks. unfold ks. rewrite elem_of_remove_dups.
    apply list_elem_of_fmap. exists d. split; [done|].
    by apply list_elem_of_filter.
  - intros row (ct & -> & Hct)%list_elem_of_fmap.
    unfold ks in Hct. rewrite elem_of_remove_dups in Hct.
    apply list_elem_of_fmap in Hct as (d0 & -> & Hd0).
    unfold stat_row.
    cbn [st_contentType st_count st_ratingCount st_ratingSum
         st_sentimentBreakdown].
    change (λ d, contentType d = contentType d0) with (of_type (contentType d0)).
    set (g := filter (of_type (contentType d0)) l).
    assert (d0 ∈ g) as Hg by (by apply list_elem_of_filter).
    assert (1 ≤ List.length g)%nat as Hpos.
    { destruct g; [by apply elem_of_nil in Hg|simpl; lia]. }
    pose proof (length_omap_le (λ d, rating (metadata d)) g).
    pose proof (length_omap_le (λ d, sentiment (metadata d)) g).
    split_and!; try lia.
    intros Hrange.
    pose proof (sum_bounds 1 5 (omap (λ d, rating (metadata d)) g)) as Hb.
    rewrite Z.mul_1_l in Hb. apply Hb.
    apply Forall_forall. intros r (d & Hd & Hr)%list_elem_of_omap.
    assert (d ∈ docs w) as Hin.
    { apply list_elem_of_filter in Hd as [_ Hd].
      by apply list_elem_of_filter in Hd as [_ Hd]. }
    specialize (Hrange d Hin). rewrite Hr in Hrange. simpl in Hrange. lia.
  - unfold sum_counts. rewrite <- list_fmap_compose.
    rewrite <- (group_sizes_sum l ks).
    + f_equal.
    + apply NoDup_remove_dups.
    + intros d Hd. unfold ks. rewrite elem_of_remove_dups.
      by apply list_elem_of_fmap_2.
Qed.

End Stats.

(** ** Update and delete by id *)


Lemma replace_doc_same d coll x :
  x ∈ replace_doc d coll → doc_id x = doc_id d → x = d.
Proof.
  unfold replace_doc. intros (y & -> & Hy)%list_elem_of_fmap.
  case_bool_decide; [done|]. intros Heq. done.
Qed.

Lemma remove_doc_absent id coll : absent id coll → remove_doc id coll = coll.
Proof.
  intros Ha. unfold remove_doc. induction coll as [|x coll IH]; [done|].
  rewrite filter_cons. rewrite decide_True by (apply Ha; left).
  f_equal. apply IH. intros y Hy. apply Ha. by right.
Qed.

Section ById.
Context `{SearchEngine}.
Variable clock : nat → Z.
Variable fresh : nat → string.



(** X13.  Updating a record with [isActive: false] hides it: once the
    update has answered 200, no search or listing operation returns a
    record or a suggestion with that id. *)
Theorem X13_deactivated_record_is_hidden (id : string) (updateData : Fields)
    (w : World) (c : StorageCall) :
  f_isActive updateData = Some false →
  status (run clock fresh (Routes.put_index id updateData) w).1 = 200 →
  listing c →
  id ∉ ids_of (exec clock fresh c
                 (run clock fresh (Routes.put_index id updateData) w).2).1.
Proof.
  intros Hact. rewrite run_put_index. intros Hok Hc.
  destruct (listing_filter_active c Hc) as (m & Hf & Hm).
  destruct (update_casts id updateData); [|done].
  destruct (find_by_id id (docs w)) as [d0|] eqn:Hfind; [|done].
  destruct (keeps_id id updateData); [|done].
  cbv zeta. cbn [snd].
  apply find_by_id_Some in Hfind as [Hin Hid].
  set (d := apply_update _ _ d0).
  set (w' := {| docs := replace_doc d (docs w); ticks := _; ids := _ |}).
  assert (doc_id d = id ∧ isActive d = false) as [Hdid Hd].
  { unfold d. cbn [apply_update doc_id isActive with_indexedAt f_isActive].
    by rewrite Hact. }
  pose proof (read_from_active clock fresh c m w' Hf Hm) as Hfrom.
  destruct (exec clock fresh c w').1 as [[| |l| | |l]|]; cbn [ids_of];
    try by intros ?%elem_of_nil.
  + intros (x & -> & Hx)%list_elem_of_fmap.
    destruct (Hfrom x Hx) as [Hxin Hxa]. cbn [docs w'] in Hxin.
    apply replace_doc_same in Hxin; [|by rewrite Hdid]. congruence.
  + intros (s & -> & Hs)%list_elem_of_fmap.
    destruct (Hfrom s Hs) as (x & Hxin & Hxa & ->). cbn [docs w'] in Hxin.
    apply replace_doc_same in Hxin; [|by rewrite Hdid]. congruence.
Qed.


End ById.

(** ** Bulk indexing *)

Section Bulk.
Context `{SearchEngine}.
Variable clock : nat → Z.
Variable fresh : nat → string.


Lemma not_all_accepted l item :
  item ∈ l → accepts item = false → ¬ Forall (λ f, accepts f = true) l.
Proof.
  intros Hin Hno Hall. rewrite Forall_forall in Hall.
  specialize (Hall item Hin). congruence.
Qed.


End Bulk.

(** ** The analytics routes and the suggestions *)

(** X16.  The four analytics handlers (popular tags, statistics, recent,
    high-rated) refuse a request without a [businessId], or with an empty
    one, with the client error and send nothing to storage; with a
    [businessId] they send exactly one listing operation. *)
Theorem X16_analytics_require_businessId (query : gmap string string)
    (p : Prog Response) :
  p ∈ analytics_routes query →
  (truthy (param query "businessId") = false →
   answers_at_once p (fail 400 "BusinessId is required")) ∧
  (truthy (param query "businessId") = true →
   ∃ c k, p = Db c k ∧ listing c ∧ answers_with k [200; 500]).
Proof.
  unfold analytics_routes. intros Hp.
  repeat (apply elem_of_cons in Hp as [->|Hp]); [..|by apply elem_of_nil in Hp].
  - unfold Routes.get_tags_popular. split; intros ->; [done|].
    eexists _, _. split; [reflexivity|]. split; [constructor|].
    by apply answers_200_or_500.
  - unfold Routes.get_stats. split; intros ->; [done|].
    eexists _, _. split; [reflexivity|]. split; [constructor|].
    by apply answers_200_or_500.
  - unfold Routes.get_recent. split; intros ->; [done|].
    eexists _, _. split; [reflexivity|]. split; [constructor|].
    by apply answers_200_or_500.
  - unfold Routes.get_high_rated. split; intros ->; [done|].
    eexists _, _. split; [reflexivity|]. split; [constructor|].
    by apply answers_200_or_500.
Qed.

Lemma X16_witness :
  Routes.get_recent ∅ ∈ analytics_routes ∅ ∧
  truthy (param (∅ : gmap string string) "businessId") = false ∧
  answers_at_once (Routes.get_recent ∅) (fail 400 "BusinessId is required").
Proof.
  assert (Routes.get_recent ∅ ∈ analytics_routes ∅) as Hin.
  { unfold analytics_routes. do 2 right. left. }
  assert (truthy (param (∅ : gmap string string) "businessId") = false) as Ht
    by reflexivity.
  split; [exact Hin|]. split; [exact Ht|].
  exact (proj1 (X16_analytics_require_businessId ∅ _ Hin) Ht).
Defined.

Section Suggestions.
Context `{SearchEngine}.
Variable clock : nat → Z.
Variable fresh : nat → string.

Lemma matches_singleton path c d :
  matches {[path := c]} d ↔ holds c path d = true.
Proof. unfold matches. by rewrite map_Forall_singleton. Qed.

Lemma holds_regex_title q d :
  holds (CRegexI (VStr q)) "title" d = regex_match_i q (title d).
Proof. reflexivity. Qed.

Lemma holds_regex_tags q d :
  holds (CRegexI (VStr q)) "tags" d = existsb (regex_match_i q) (tags d).
Proof. reflexivity. Qed.

Lemma suggestions_or_matches q d :
  Exists (λ alt, matches alt d) (Routes.suggestions_or (VStr q)) ↔
  suggested_by q d.
Proof.
  unfold Routes.suggestions_or, suggested_by.
  rewrite !Exists_cons, Exists_nil, !matches_singleton.
  rewrite holds_regex_title, holds_regex_tags, existsb_exists, Exists_exists.
  split.
  - intros [?|[(t & Ht & Hm)|[]]]; [by left|]. right. exists t.
    split; [by apply list_elem_of_In|done].
  - intros [?|(t & Ht & Hm)]; [by left|]. right. left. exists t.
    split; [by apply list_elem_of_In|done].
Qed.

(** X17.  When the suggestions handler, called with a [q] of two
    characters or more and a [businessId], answers with a list, the
    [businessId] is the text of an ObjectId and every entry is the
    projection (id, title, tags, content type) of a record of the
    collection that is active, belongs to that business, and whose title
    or one of whose tags matches [q]; under a positive [limit] (10 when
    none is given) the entries are at most [limit].  Nothing is said of
    which matches are taken or in which order: the pipeline does not
    sort. *)
Theorem X17_suggestions (query : gmap string string) (q b : string) (w : World)
    (l : list Suggestion) :
  query !! "q" = Some q → (2 ≤ String.length q)%nat →
  query !! "businessId" = Some b →
  data (run clock fresh (Routes.get_suggestions query) w).1 = DSuggest l →
  is_oid b = true ∧
  (∀ n, parseInt (or_default (param query "limit") (VNum (Num 10))) = Num n →
        0 < n → (List.length l ≤ Z.to_nat n)%nat) ∧
  (∀ s, s ∈ l →
     ∃ d, d ∈ docs w ∧ s = project_suggestion d ∧ owned b d ∧
          suggested_by q d).
Proof.
  intros Hq Hlen Hb. unfold Routes.get_suggestions.
  rewrite (param_Some _ _ _ Hq), (param_Some _ _ _ Hb).
  assert (truthy (VStr q) = true) as ->.
  { apply truthy_VStr. intros ->. simpl in Hlen. lia. }
  assert (Routes.shorter_than_2 (VStr q) = false) as ->.
  { simpl. apply Nat.ltb_ge. lia. }
  cbn [negb orb Routes.new_ObjectId].
  destruct (is_oid b) eqn:Hoid.
  2:{ change (Ret None ≫= ?f) with (f None). cbv beta.
      cbn [run fst data fail]. done. }
  change (Ret (Some (VOid b)) ≫= ?f) with (f (Some (VOid b))). cbv beta iota.
  rewrite run_await. cbn [exec fst snd]. unfold run_suggest, agg_limit.
  destruct (parseInt _) as [|n]; cbn [settle run fst data fail]; [done|].
  destruct (Z.ltb_spec 0 n); cbn [settle run fst data ok_list fail]; [|done].
  intros [= <-].
  assert (filter (matches_or (Routes.suggestions_match (VOid b))
                    (Routes.suggestions_or (VStr q))) (docs w) =
          filter (λ d, owned b d ∧ suggested_by q d) (docs w)) as ->.
  { apply filter_ext_iff. intros d. unfold matches_or.
    rewrite suggestions_or_matches.
    change (Routes.suggestions_match (VOid b))
      with (SearchIndex.owned_active (VOid b)).
    by rewrite owned_active_matches. }
  split_and!; try done.
  - intros n' [= <-] _. rewrite length_take. lia.
  - intros s Hs. eapply elem_of_sublist in Hs; [|apply sublist_take].
    apply list_elem_of_fmap in Hs as (d & -> & Hd).
    apply list_elem_of_filter in Hd as [[Ho Hsug] Hin]. by exists d.
Qed.

End Suggestions.

(** ** One round trip, and what a storage failure becomes *)

Lemma calls_bind {A B} answer now oid (p : Prog A) (f : A → Prog B) :
  calls answer now oid (p ≫= f) =
  calls answer now oid p ++ calls answer now oid (f (outcome answer now oid p)).
Proof.
  unfold mbind, Prog_bind.
  induction p as [a|k IH|k IH|c k IH]; cbn [bind calls outcome app]; auto.
  by rewrite IH.
Qed.

Lemma outcome_bind {A B} answer now oid (p : Prog A) (f : A → Prog B) :
  outcome answer now oid (p ≫= f) =
  outcome answer now oid (f (outcome answer now oid p)).
Proof.
  unfold mbind, Prog_bind.
  induction p as [a|k IH|k IH|c k IH]; cbn [bind outcome]; auto.
Qed.

Lemma calls_stamp answer now oid items :
  calls answer now oid (Routes.stamp items) = [].
Proof.
  induction items as [|item rest IH]; [done|].
  cbn [Routes.stamp]. rewrite !calls_bind, IH. reflexivity.
Qed.

Lemma calls_new_Date answer now oid : calls answer now oid new_Date = [].
Proof. reflexivity. Qed.

Lemma calls_await_one answer now oid c : calls answer now oid (await c) = [c].
Proof. reflexivity. Qed.

Lemma outcome_await answer now oid c : outcome answer now oid (await c) = answer c.
Proof. reflexivity. Qed.

Lemma server_error_fail msg : server_error (fail 500 msg).
Proof. by repeat split. Qed.

(** The shape every handler has behind its guard: things that make no
    storage call, then one awaited call, whose answer is turned into the
    response at once. *)
Lemma one_call_shape {A} answer now oid (pre : Prog A)
    (call : A → StorageCall) (k : StorageResult → Prog Response) msg :
  calls answer now oid pre = [] →
  (∀ r, calls answer now oid (k r) = []) →
  k Rejected = Ret (fail 500 msg) →
  let p := (a ← pre; r ← await (call a); k r) in
  (List.length (calls answer now oid p) ≤ 1)%nat ∧
  (∀ c, c ∈ calls answer now oid p → answer c = Rejected →
     server_error (outcome answer now oid p)).
Proof.
  intros Hpre Hk Hrej p. subst p.
  rewrite calls_bind, Hpre, calls_await, Hk. cbn [app List.length].
  split; [lia|]. intros c ->%list_elem_of_singleton Hc.
  rewrite outcome_bind.
  change (outcome answer now oid (await ?c ≫= ?f))
    with (outcome answer now oid (f (answer c))).
  rewrite Hc, Hrej. apply server_error_fail.
Qed.

Lemma no_call_shape answer now oid (resp : Response) :
  (List.length (calls answer now oid (Ret resp)) ≤ 1)%nat ∧
  (∀ c, c ∈ calls answer now oid (Ret resp) → answer c = Rejected →
     server_error (outcome answer now oid (Ret resp))).
Proof. split; [simpl; lia|]. by intros c ?%elem_of_nil. Qed.

Lemma calls_answer_any answer now oid
    (k : StorageResult → Prog Response) (codes : list Z) :
  answers_with k codes → ∀ r, calls answer now oid (k r) = [].
Proof. intros Hk r. by destruct (Hk r) as (resp & -> & _). Qed.

Section RoundTrip.
Context `{SearchEngine}.

(** X18.  Whatever the request and whatever storage answers, a handler
    sends storage at most one operation; and when that operation fails,
    the handler answers with status 500, [success: false], no data, no
    count and no message: nothing of the failure but the fixed error
    text of the route. *)
Theorem X18_one_round_trip (p : Prog Response)
    (answer : StorageCall → StorageResult) (now : Z) (oid : string) :
  route p →
  (List.length (calls answer now oid p) ≤ 1)%nat ∧
  (∀ c, c ∈ calls answer now oid p → answer c = Rejected →
     server_error (outcome answer now oid p)).
Proof.
  intros [p' [query|contentType query|body|query|query|query|query|query]
         |body|id updateData|id|items].
  - unfold Routes.get_search. destruct (negb _ && negb _).
    { apply no_call_shape. }
    apply (one_call_shape answer now oid (Ret tt) (λ _, _) _
             "Failed to perform search"); try done.
    by intros [].
  - unfold Routes.get_search_contentType.
    apply (one_call_shape answer now oid (Ret tt) (λ _, _) _
             "Failed to search by content type"); try done.
    by intros [].
  - unfold Routes.post_search_advanced.
    apply (one_call_shape answer now oid (Ret tt) (λ _, _) _
             "Failed to perform advanced search"); try done.
    by intros [].
  - unfold Routes.get_tags_popular. destruct (negb _).
    { apply no_call_shape. }
    apply (one_call_shape answer now oid (Ret tt) (λ _, _) _
             "Failed to fetch popular tags"); try done.
    by intros [].
  - unfold Routes.get_stats. destruct (negb _).
    { apply no_call_shape. }
    apply (one_call_shape answer now oid (Ret tt) (λ _, _) _
             "Failed to fetch content statistics"); try done.
    by intros [].
  - unfold Routes.get_recent. destruct (negb _).
    { apply no_call_shape. }
    apply (one_call_shape answer now oid (Ret tt) (λ _, _) _
             "Failed to fetch recent content"); try done.
    by intros [].
  - unfold Routes.get_high_rated. destruct (negb _).
    { apply no_call_shape. }
    apply (one_call_shape answer now oid (Ret tt) (λ _, _) _
             "Failed to fetch high-rated content"); try done.
    by intros [].
  - unfold Routes.get_suggestions. destruct (negb _ || _).
    { apply no_call_shape. }
    assert (∀ o : option Val,
              let h := match o with
                       | Some id =>
                           r ← await (AggregateSuggest (Routes.suggestions_match id)
                                        (Routes.suggestions_or (param query "q"))
                                        (VNum (parseInt (or_default (param query "limit")
                                                           (VNum (Num 10))))));
                           match r with
                           | Resolved suggestions => Ret (ok_list 200 suggestions)
                           | Rejected => Ret (fail 500 "Failed to fetch search suggestions")
                           end
                       | None => Ret (fail 500 "Failed to fetch search suggestions")
                       end in
              (List.length (calls answer now oid h) ≤ 1)%nat ∧
              (∀ c, c ∈ calls answer now oid h → answer c = Rejected →
                 server_error (outcome answer now oid h))) as Hshape.
    { intros [id|] h; subst h; [|apply no_call_shape].
      apply (one_call_shape answer now oid (Ret tt) (λ _, _) _
               "Failed to fetch search suggestions"); try done.
      by intros []. }
    destruct (param query "businessId") as [| | | |s| | | |];
      cbn [Routes.new_ObjectId];
      try apply (Hshape (Some (VOid oid))).
    destruct (is_oid s).
    + apply (Hshape (Some (VOid s))).
    + apply (Hshape None).
  - unfold Routes.post_index, SearchIndex.save_new, new_Date, await, mbind,
      Prog_bind.
    cbn [bind calls outcome].
    destruct (answer (Insert _)) eqn:E; cbn [bind calls outcome List.length];
      (split; [lia|]); intros c ->%list_elem_of_singleton Hc;
      [congruence|apply server_error_fail].
  - unfold Routes.put_index.
    apply (one_call_shape answer now oid new_Date
             (λ t, FindByIdAndUpdate id (with_indexedAt t updateData)) _
             "Failed to update search index"); try done.
    by intros [[]|].
  - unfold Routes.delete_index.
    apply (one_call_shape answer now oid (Ret tt)
             (λ _, FindByIdAndDelete id) _
             "Failed to delete search index"); try done.
    by intros [[]|].
  - unfold Routes.post_index_bulk.
    destruct items as [| |b|n|s|o|[|item rest]]; try apply no_call_shape.
    apply (one_call_shape answer now oid (Routes.stamp (item :: rest))
             InsertMany _ "Failed to bulk index content"); try done.
    + apply calls_stamp.
    + by intros [].
Qed.

End RoundTrip.

(** ** Which handler a request reaches *)

Lemma first_match_app t1 t2 m path :
  first_match (t1 ++ t2) m path =
  match first_match t1 m path with
  | Some h => Some h
  | None => first_match t2 m path
  end.
Proof.
  induction t1 as [|[[m' pat] h] t1 IH]; [done|].
  cbn [app first_match]. by destruct (_ && _).
Qed.

Lemma first_match_Some table m path h :
  first_match table m path = Some h →
  ∃ pat, (m, pat, h) ∈ table ∧ path_matches pat path = true.
Proof.
  induction table as [|[[m' pat] h'] table IH]; [done|].
  cbn [first_match].
  destruct (bool_decide (m' = m)) eqn:Em; cbn [andb].
  - destruct (path_matches pat path) eqn:Ep.
    + intros [= ->]. apply bool_decide_eq_true in Em as ->.
      exists pat. split; [left|done].
    + intros (pat' & ? & ?)%IH. exists pat'. split; [by right|done].
  - intros (pat' & ? & ?)%IH. exists pat'. split; [by right|done].
Qed.

Lemma first_match_None table m path pat h :
  first_match table m path = None →
  (m, pat, h) ∈ table → path_matches pat path = false.
Proof.
  induction table as [|[[m' pat'] h'] table IH]; [by intros _ ?%elem_of_nil|].
  cbn [first_match].
  destruct (bool_decide (m' = m)) eqn:Em; cbn [andb].
  - destruct (path_matches pat' path) eqn:Ep; [done|].
    intros Hn [[= <- <- <-]|Hin]%elem_of_cons; [done|]. by apply IH.
  - intros Hn [[= <- <- <-]|Hin]%elem_of_cons; [|by apply IH].
    by apply bool_decide_eq_false in Em.
Qed.

(** A path that a pattern of literals under [/api/search/] takes is taken
    by [/api/search/:x] too, when the last literal is not empty. *)
Lemma param_takes_literal l path :
  l ≠ "" →
  path_matches [Lit "api"; Lit "search"; Lit l] path = true →
  path_matches [Lit "api"; Lit "search"; Param "contentType"] path = true.
Proof.
  intros Hl. destruct path as [|a [|b [|c [|d rest]]]]; try done;
    cbn [path_matches segment_matches];
    (destruct (String.eqb "api" (lower a)); [|done]);
    (destruct (String.eqb "search" (lower b)); [|done]); cbn [andb];
    (destruct (String.eqb_spec l (lower c)) as [->|]; [|done]); cbn [andb];
    [|done].
  intros _. rewrite andb_true_r. by destruct c.
Qed.

(** X19.  Routes are tried in the order of registration, so
    [GET /api/search/:contentType] takes every GET request with one
    non-empty segment after [/api/search/]: whatever the method and the
    path, no request reaches the handlers of [/api/search/stats],
    [/recent], [/high-rated] and [/suggestions], which are registered
    after it. *)
Theorem X19_route_order (m : Method) (path : list string) :
  (∀ h, dispatch m path = Some h → h ∉ shadowed) ∧
  (∀ s, m = GET → path = ["api"; "search"; s] → s ≠ "" →
     dispatch m path = Some HSearchByContentType).
Proof.
  split.
  - intros h Hd Hh. unfold dispatch in Hd.
    change routes with (take 4 routes ++ drop 4 routes) in Hd.
    rewrite first_match_app in Hd.
    destruct (first_match (take 4 routes) m path) as [h'|] eqn:E4.
    + injection Hd as ->. apply first_match_Some in E4 as (pat & Hin & _).
      cbn [take routes] in Hin. unfold shadowed in Hh.
      repeat (apply elem_of_cons in Hin as [Hin|Hin]; [injection Hin as -> -> ->|]);
        try (by apply elem_of_nil in Hin);
        repeat (apply elem_of_cons in Hh as [Hh|Hh]; [done|]);
        by apply elem_of_nil in Hh.
    + apply first_match_Some in Hd as (pat & Hin & Hp).
      pose proof (first_match_None _ _ _
        [Lit "api"; Lit "search"; Param "contentType"] HSearchByContentType E4)
        as Hnone.
      cbn [drop routes] in Hin. unfold shadowed in Hh.
      repeat (apply elem_of_cons in Hin as [Hin|Hin];
              [injection Hin as -> -> ->|]);
        try (by apply elem_of_nil in Hin);
        try (repeat (apply elem_of_cons in Hh as [Hh|Hh]; [done|]);
             by apply elem_of_nil in Hh);
        (apply param_takes_literal in Hp; [|done]);
        (rewrite Hnone in Hp; [done|]); cbn [take routes]; do 3 right; left.
  - intros s -> -> Hs. unfold dispatch, routes.
    cbn [first_match path_matches segment_matches].
    apply String.eqb_neq in Hs. rewrite Hs. reflexivity.
Qed.

(** ** The listings registered behind [/api/search/:contentType] *)

Section Shadowed.
Context `{SearchEngine}.
Variable clock : nat → Z.
Variable fresh : nat → string.

Lemma serve_get_by_type s query :
  s ≠ "" →
  serve_get ["api"; "search"; s] query =
  Some (Routes.get_search_contentType s query).
Proof.
  intros Hs. unfold serve_get, dispatch, routes.
  cbn [first_match path_matches segment_matches].
  apply String.eqb_neq in Hs. rewrite Hs. reflexivity.
Qed.

(** The call the search by content type sends: a [find] whose filter has
    the type of the path and [isActive: true]. *)
Lemma get_search_contentType_sends ct query :
  ct ≠ "" →
  ∃ m sort limit skip k,
    Routes.get_search_contentType ct query = Db (Find m sort limit skip) k ∧
    m !! "contentType" = Some (CEq (VStr ct)) ∧
    m !! "isActive" = Some (CEq (VBool true)) ∧
    answers_with k [200; 500].
Proof.
  intros Hct. unfold Routes.get_search_contentType,
    SearchIndex.searchByContentType, SearchIndex.search.
  eexists _, _, _, _, _. split; [reflexivity|]. split_and!.
  - rewrite searchQuery_contentType, opt_insert_eq. by rewrite truthy_VStr.
  - apply lookup_insert_eq.
  - by apply answers_200_or_500.
Qed.

(** On a collection without a record of the type, the search by content
    type has nothing to return. *)
Lemma search_by_type_without_records ct query w :
  ct ≠ "" → (∀ d, d ∈ docs w → contentType d ≠ ct) →
  let r := (run clock fresh (Routes.get_search_contentType ct query) w).1 in
  status r = 200 ∧ data r = DDocs [] ∧ count r = Some 0 ∨
  status r = 500 ∧ data r = DNone.
Proof.
  intros Hct Hno. cbv zeta.
  destruct (data (run clock fresh (Routes.get_search_contentType ct query) w).1)
    as [| |res| | |] eqn:Hd.
  all: revert Hd; unfold Routes.get_search_contentType,
    SearchIndex.searchByContentType, SearchIndex.search;
    rewrite run_await, exec_find; cbn [fst snd];
    destruct (run_find _ _ _ _ _) as [res'|] eqn:Hr;
    cbn [settle run fst data status count ok_list fail data_length]; try done.
  all: try (intros _; by right).
  intros [= ->]. left. destruct res as [|d res]; [done|]. exfalso.
  assert (d ∈ d :: res) as Hin by left.
  destruct (run_find_elem _ _ _ _ _ _ _ Hr Hin) as (q' & Hq & Hm & Hw).
  destruct (run_find_holds _ _ _ _ _ _ _ "contentType" (CEq (VStr ct)) Hr Hin)
    as (c' & [= <-] & Hc).
  { rewrite searchQuery_contentType, opt_insert_eq. by rewrite truthy_VStr. }
  apply holds_contentType in Hc. by apply (Hno d).
Qed.

(** C9.  The high-rated listing over HTTP.  [GET /api/search/high-rated]
    is registered after [GET /api/search/:contentType], which takes the
    request: what answers is the search by content type for the type
    [high-rated], a [find] on that type that does not read [minRating],
    and the handler that calls [getContentByRating] is not reached.  On
    a collection without a record of that type the answer is an empty
    list, or a server error, whatever the ratings of the records of the
    business: no record rated at or above the minimum is returned. *)
Theorem C9_high_rated_listing_is_not_reached (query : gmap string string)
    (w : World) :
  (∀ d, d ∈ docs w → contentType d ≠ "high-rated") →
  dispatch GET ["api"; "search"; "high-rated"] = Some HSearchByContentType ∧
  serve_get ["api"; "search"; "high-rated"] query =
    Some (Routes.get_search_contentType "high-rated" query) ∧
  (∀ s, Routes.get_search_contentType "high-rated" (<["minRating" := s]> query) =
        Routes.get_search_contentType "high-rated" query) ∧
  (∃ m sort limit skip k,
     Routes.get_search_contentType "high-rated" query =
       Db (Find m sort limit skip) k ∧
     m !! "contentType" = Some (CEq (VStr "high-rated")) ∧
     answers_with k [200; 500]) ∧
  let r := (run clock fresh
              (Routes.get_search_contentType "high-rated" query) w).1 in
  (status r = 200 ∧ data r = DDocs [] ∧ count r = Some 0 ∨
   status r = 500 ∧ data r = DNone).
Proof.
  intros Hno. split_and!.
  - reflexivity.
  - by apply serve_get_by_type.
  - intros s. unfold Routes.get_search_contentType, Routes.search_options.
    by rewrite !param_insert_ne by done.
  - destruct (get_search_contentType_sends "high-rated" query)
      as (m & sort & limit & skip & k & Hp & Hct & _ & Hk); [done|].
    by exists m, sort, limit, skip, k.
  - by apply search_by_type_without_records.
Qed.

(** C10.  The suggestions guard over HTTP.  [GET /api/search/suggestions]
    is registered after [GET /api/search/:contentType], which takes the
    request: what answers is the search by content type for the type
    [suggestions], which sends storage a [find] whatever [q] is, also
    when it is absent or shorter than two characters.  The handler
    registered for the path, which no request reaches, does answer such
    a [q] at once with an empty list. *)
Theorem C10_suggestions_guard_is_not_reached (query : gmap string string) :
  dispatch GET ["api"; "search"; "suggestions"] = Some HSearchByContentType ∧
  serve_get ["api"; "search"; "suggestions"] query =
    Some (Routes.get_search_contentType "suggestions" query) ∧
  (∃ m sort limit skip k,
     Routes.get_search_contentType "suggestions" query =
       Db (Find m sort limit skip) k ∧
     m !! "contentType" = Some (CEq (VStr "suggestions")) ∧
     m !! "isActive" = Some (CEq (VBool true)) ∧
     answers_with k [200; 500] ∧
     ∀ answer now oid,
       calls answer now oid (Routes.get_search_contentType "suggestions" query) =
       [Find m sort limit skip]) ∧
  (absent_or_short query →
   Routes.get_suggestions query = Ret (ok_list 200 (DSuggest [])) ∧
   ∀ answer now oid, calls answer now oid (Routes.get_suggestions query) = []).
Proof.
  split_and!.
  - reflexivity.
  - by apply serve_get_by_type.
  - destruct (get_search_contentType_sends "suggestions" query)
      as (m & sort & limit & skip & k & Hp & Hct & Ha & Hk); [done|].
    exists m, sort, limit, skip, k. split_and!; try done.
    intros answer now oid. rewrite Hp. cbn [calls].
    by destruct (Hk (answer (Find m sort limit skip))) as (resp & -> & _).
  - intros Hq. rewrite (get_suggestions_guard query Hq). done.
Qed.

End Shadowed.

(** ** Replacing the content of a record *)

Section UpdateContent.
Context `{SearchEngine}.
Variable clock : nat → Z.
Variable fresh : nat → string.



End UpdateContent.

(** ** The aggregations as the routes call them *)

Section OverHttp.
Context `{SearchEngine}.
Variable clock : nat → Z.
Variable fresh : nat → string.



(** X22.  A reading handler leaves the collection as it is and does not
    read the clock, whatever the request and whatever storage answers. *)
Theorem X22_reads_change_nothing (p : Prog Response) (w : World) :
  read_route p →
  docs (run clock fresh p w).2 = docs w ∧
  ticks (run clock fresh p w).2 = ticks w.
Proof.
  assert (∀ c (k : StorageResult → Prog Response) codes w',
            listing c → answers_with k codes →
            (run clock fresh (await c ≫= k) w').2 = w') as Hread.
  { intros c k codes w' Hc Hk. rewrite run_await.
    destruct (Hk (exec clock fresh c w').1) as (resp & -> & _).
    cbn [run snd]. by destruct Hc. }
  destruct 1 as [query|contentType query|body|query|query|query|query|query].
  - unfold Routes.get_search. destruct (negb _ && negb _); [done|].
    erewrite Hread; [done|constructor|by apply answers_200_or_500].
  - unfold Routes.get_search_contentType.
    erewrite Hread; [done|constructor|by apply answers_200_or_500].
  - unfold Routes.post_search_advanced.
    erewrite Hread; [done|constructor|by apply answers_200_or_500].
  - unfold Routes.get_tags_popular. destruct (negb _); [done|].
    erewrite Hread; [done|constructor|by apply answers_200_or_500].
  - unfold Routes.get_stats. destruct (negb _); [done|].
    erewrite Hread; [done|constructor|by apply answers_200_or_500].
  - unfold Routes.get_recent. destruct (negb _); [done|].
    erewrite Hread; [done|constructor|by apply answers_200_or_500].
  - unfold Routes.get_high_rated. destruct (negb _); [done|].
    erewrite Hread; [done|constructor|by apply answers_200_or_500].
  - unfold Routes.get_suggestions. destruct (negb _ || _); [done|].
    rewrite run_bind.
    destruct (param query "businessId") as [| | | |s| | | |];
      cbn [Routes.new_ObjectId run fst snd]; cbv beta;
      try (erewrite Hread; [done|constructor|by apply answers_200_or_500]).
    destruct (is_oid s); cbn [run fst snd]; cbv beta iota; [|done].
    erewrite Hread; [done|constructor|by apply answers_200_or_500].
Qed.

(** X23.  [GET /api/search] answers with the client error exactly when
    [q] and [businessId] are both absent or empty, and then nothing is
    sent to storage; every other request gets a 200 with a list and its
    length as [count], or a 500 without data. *)
Theorem X23_search_guard (query : gmap string string) (w : World) :
  let r := (run clock fresh (Routes.get_search query) w).1 in
  (lacks_query_and_business query ↔
     query !! "q" ∈ [None; Some ""] ∧ query !! "businessId" ∈ [None; Some ""]) ∧
  (status r = 400 ↔ lacks_query_and_business query) ∧
  (status r = 400 → ∀ answer now oid,
     calls answer now oid (Routes.get_search query) = []) ∧
  (status r = 200 ∧ (∃ l, data r = DDocs l ∧ count r = Some (Z.of_nat (List.length l))) ∨
   status r = 400 ∧ data r = DNone ∨
   status r = 500 ∧ data r = DNone).
Proof.
  cbv zeta.
  assert (∀ k, truthy (param query k) = false ↔ query !! k ∈ [None; Some ""])
    as Htr.
  { intros k. unfold param. destruct (query !! k) as [s|].
    - destruct s as [|a s]; cbn [truthy].
      + split; [right; left|done].
      + split; [done|].
        intros [[=]|[[=]|[]%elem_of_nil]%elem_of_cons]%elem_of_cons.
    - split; [left|done]. }
  split. { unfold lacks_query_and_business. by rewrite !Htr. }
  unfold Routes.get_search, lacks_query_and_business.
  destruct (truthy (param query "q")), (truthy (param query "businessId"));
    cbn [negb andb].
  4: { cbn [run fst status fail data].
       split; [done|]. split; [done|]. right. by left. }
  all: rewrite search_with_sortBy, run_await, exec_find; cbn [fst snd];
    destruct (run_find _ _ _ _ _) as [l|]; cbn [settle run fst];
    (split; [split; [done|by intros [? ?]]|]); (split; [done|]);
    [left; split; [done|by exists l]|right; right; done].
Qed.

End OverHttp.

(** ** What the filters of an advanced search can change *)

Lemma searchQuery_ext query (o1 o2 : gmap string Val) :
  (∀ k, k ∈ filter_keys → opt o1 k = opt o2 k) →
  SearchIndex.searchQuery query o1 = SearchIndex.searchQuery query o2.
Proof.
  intros Hk. unfold SearchIndex.searchQuery. cbv zeta.
  rewrite (Hk "businessId") by (by repeat constructor).
  rewrite (Hk "franchiseId") by (by repeat constructor).
  rewrite (Hk "contentType") by (by repeat constructor).
  rewrite (Hk "tags") by (by repeat constructor).
  rewrite (Hk "categories") by (by repeat constructor).
  rewrite (Hk "rating") by (by repeat constructor).
  rewrite (Hk "sentiment") by (by repeat constructor).
  rewrite (Hk "language") by (by repeat constructor).
  reflexivity.
Qed.

(** X25.  Of the [filters] of an advanced search only the eight filter
    options are read.  Any other key there ([limit], [offset], [sortBy]
    and [isActive] among them) changes nothing in what is sent to
    storage: paging comes from [pagination], the order from [sort], and
    [isActive: true] is set whatever the filters say. *)
Theorem X25_advanced_filters_read (body : Routes.AdvancedBody) (key : string)
    (v : Val) answer now oid :
  key ∉ filter_keys →
  calls answer now oid (Routes.post_search_advanced (with_filter key v body)) =
  calls answer now oid (Routes.post_search_advanced body) ∧
  ∃ m sort limit skip,
    calls answer now oid (Routes.post_search_advanced body) =
      [Find m sort limit skip] ∧
    m !! "isActive" = Some (CEq (VBool true)).
Proof.
  intros Hkey. unfold Routes.post_search_advanced. cbv zeta.
  rewrite !calls_await, !calls_answer.
  cbn [with_filter Routes.ab_query Routes.ab_filters Routes.ab_pagination
       Routes.ab_sort].
  change (default ∅ (Some ?m)) with m.
  set (filters := default ∅ (Routes.ab_filters body)).
  set (pagination := default Routes.default_pagination (Routes.ab_pagination body)).
  set (spec := Routes.advanced_sort _ _).
  rewrite !search_with_sortBy. split.
  - set (o1 := <["offset" := _]> (<["limit" := _]> (<[key := v]> filters))).
    set (o2 := <["offset" := _]> (<["limit" := _]> filters)).
    assert (∀ k, k = "offset" ∨ k = "limit" ∨ k ≠ key → opt o1 k = opt o2 k)
      as Hopt.
    { intros k Hk. unfold opt, o1, o2.
      destruct (decide (k = "offset")) as [->|];
        [by rewrite !lookup_insert_eq|].
      rewrite !(lookup_insert_ne _ "offset") by done.
      destruct (decide (k = "limit")) as [->|];
        [by rewrite !lookup_insert_eq|].
      rewrite !(lookup_insert_ne _ "limit") by done.
      destruct Hk as [?|[?|?]]; [done|done|]. by rewrite lookup_insert_ne. }
    rewrite (Hopt "limit"), (Hopt "offset") by auto.
    do 2 f_equal. apply searchQuery_ext. intros k Hk.
    assert (k ≠ "sortBy" ∧ k ≠ key) as [? ?].
    { split; intros ->; try done; unfold filter_keys in Hk;
        repeat (apply elem_of_cons in Hk as [Hk|Hk]; [discriminate Hk|]);
        by apply elem_of_nil in Hk. }
    unfold opt. rewrite !(lookup_insert_ne _ "sortBy") by done.
    apply Hopt. auto.
  - eexists _, _, _, _. split; [reflexivity|].
    unfold SearchIndex.searchQuery. cbv zeta. apply lookup_insert_eq.
Qed.

(** * Examples for the further properties *)

Lemma X4_witness :
  let query := Sample.query_of [("businessId", "B1"); ("tags", "fast")] in
  data (@run Sample.engine Sample.clock Sample.fresh _
          (Routes.get_search query) Sample.world).1 =
    DDocs [Sample.fair; Sample.great] ∧
  Sample.great ∈ [Sample.fair; Sample.great] ∧
  businessId Sample.great = "B1" ∧
  ∃ t, t ∈ tags Sample.great ∧ t ∈ split_comma "fast".
Proof.
  intros query.
  assert (data (@run Sample.engine Sample.clock Sample.fresh _
                  (Routes.get_search query) Sample.world).1 =
          DDocs [Sample.fair; Sample.great]) as Hd
    by (vm_compute; reflexivity).
  assert (Sample.great ∈ [Sample.fair; Sample.great]) as Hin by (right; left).
  split; [exact Hd|]. split; [exact Hin|].
  destruct (@X4_search_results_satisfy_filters Sample.engine Sample.clock
              Sample.fresh query Sample.world _ _ Hd Hin)
    as (_ & _ & Hb & _ & Ht & _).
  split.
  - apply Hb; [vm_compute; reflexivity|discriminate].
  - apply Ht; [vm_compute; reflexivity|discriminate].
Defined.

Lemma X7_witness :
  let query := Sample.query_of [("q", "service")] in
  "submission" ≠ "" ∧
  data (@run Sample.engine Sample.clock Sample.fresh _
          (Routes.get_search_contentType "submission" query) Sample.world).1 =
    DDocs [Sample.fair; Sample.great] ∧
  Sample.great ∈ [Sample.fair; Sample.great] ∧
  contentType Sample.great = "submission".
Proof.
  intros query.
  assert ("submission" ≠ "") as Hct by discriminate.
  assert (data (@run Sample.engine Sample.clock Sample.fresh _
                  (Routes.get_search_contentType "submission" query)
                  Sample.world).1 =
          DDocs [Sample.fair; Sample.great]) as Hd
    by (vm_compute; reflexivity).
  assert (Sample.great ∈ [Sample.fair; Sample.great]) as Hin by (right; left).
  split; [exact Hct|]. split; [exact Hd|]. split; [exact Hin|].
  exact (proj1 (proj2 (proj2
    (@X7_search_by_content_type Sample.engine Sample.clock Sample.fresh
       "submission" query Sample.world _ _ Hct Hd Hin)))).
Defined.

Lemma X13_witness :
  let update := with_unread_keys (Some false) None None None no_fields in
  let suggest := AggregateSuggest (Routes.suggestions_match (VOid "B1"))
                   (Routes.suggestions_or (VStr "Great")) (VNum (Num 10)) in
  f_isActive update = Some false ∧
  status (@run Sample.engine Sample.clock Sample.fresh _
            (Routes.put_index "1" update) Sample.world).1 = 200 ∧
  listing suggest ∧
  "1" ∈ ids_of (@exec Sample.engine Sample.clock Sample.fresh suggest
                  Sample.world).1 ∧
  "1" ∉ ids_of (@exec Sample.engine Sample.clock Sample.fresh suggest
                  (@run Sample.engine Sample.clock Sample.fresh _
                     (Routes.put_index "1" update) Sample.world).2).1.
Proof.
  intros update suggest.
  assert (f_isActive update = Some false) as Hf by reflexivity.
  assert (status (@run Sample.engine Sample.clock Sample.fresh _
                    (Routes.put_index "1" update) Sample.world).1 = 200) as Hok
    by (vm_compute; reflexivity).
  assert (listing suggest) as Hc by constructor.
  split; [exact Hf|]. split; [exact Hok|]. split; [exact Hc|]. split.
  - vm_compute. left.
  - exact (@X13_deactivated_record_is_hidden Sample.engine Sample.clock
             Sample.fresh "1" update Sample.world _ Hf Hok Hc).
Defined.

Lemma X17_witness :
  let query := Sample.query_of [("q", "Great"); ("businessId", "B1")] in
  ∃ l,
    query !! "q" = Some "Great" ∧ (2 ≤ String.length "Great")%nat ∧
    query !! "businessId" = Some "B1" ∧
    data (@run Sample.engine Sample.clock Sample.fresh _
            (@Routes.get_suggestions Sample.engine query) Sample.world).1 = DSuggest l ∧
    sg_id <$> l = ["1"; "5"] ∧
    (∀ s, s ∈ l →
       ∃ d, d ∈ docs Sample.world ∧ s = project_suggestion d ∧ owned "B1" d ∧
            @suggested_by Sample.engine "Great" d).
Proof.
  intros query.
  assert (query !! "q" = Some "Great") as Hq by (vm_compute; reflexivity).
  assert (2 ≤ String.length "Great")%nat as Hlen by (vm_compute; lia).
  assert (query !! "businessId" = Some "B1") as Hb by (vm_compute; reflexivity).
  assert (∃ l, data (@run Sample.engine Sample.clock Sample.fresh _
                       (@Routes.get_suggestions Sample.engine query) Sample.world).1 =
                 DSuggest l ∧ sg_id <$> l = ["1"; "5"]) as (l & Hd & Hids).
  { eexists. split; vm_compute; reflexivity. }
  exists l. split_and!; [exact Hq|exact Hlen|exact Hb|exact Hd|exact Hids|].
  exact (proj2 (proj2 (@X17_suggestions Sample.engine Sample.clock Sample.fresh
                         query "Great" "B1" Sample.world l Hq Hlen Hb Hd))).
Defined.

Lemma X18_witness :
  let answer := λ _ : StorageCall, Rejected in
  @route Sample.engine (Routes.delete_index "1") ∧
  calls answer 0 "a" (Routes.delete_index "1") = [FindByIdAndDelete "1"] ∧
  server_error (outcome answer 0 "a" (Routes.delete_index "1")).
Proof.
  intros answer.
  assert (@route Sample.engine (Routes.delete_index "1")) as Hr by constructor.
  split; [exact Hr|]. split; [reflexivity|].
  apply (proj2 (@X18_one_round_trip Sample.engine _ answer 0 "a" Hr)
           (FindByIdAndDelete "1")); [left|reflexivity].
Defined.

Lemma X22_witness :
  let query := Sample.query_of [("businessId", "B1")] in
  @read_route Sample.engine (Routes.get_tags_popular query) ∧
  status (@run Sample.engine Sample.clock Sample.fresh _
            (Routes.get_tags_popular query) Sample.world).1 = 200 ∧
  docs (@run Sample.engine Sample.clock Sample.fresh _
          (Routes.get_tags_popular query) Sample.world).2 = docs Sample.world.
Proof.
  intros query.
  assert (@read_route Sample.engine (Routes.get_tags_popular query)) as Hr
    by constructor.
  split; [exact Hr|]. split; [vm_compute; reflexivity|].
  exact (proj1 (@X22_reads_change_nothing Sample.engine Sample.clock
                  Sample.fresh _ Sample.world Hr)).
Defined.

Lemma X2_witness :
  let w1 := (@run Sample.engine Sample.clock Sample.fresh _
               (SearchIndex.addTag Sample.great "slow") Sample.world) in
  ∃ d1 d2,
    ("slow" ∉ tags Sample.great) ∧
    w1.1 = Resolved (DDoc d1) ∧
    (@run Sample.engine Sample.clock Sample.fresh _
       (SearchIndex.removeTag d1 "slow") w1.2).1 = Resolved (DDoc d2) ∧
    tags d1 = ["fast"; "slow"] ∧ tags d2 = ["fast"] ∧
    indexedAt d2 = 1003 ∧ same_but_stamps Sample.great d2.
Proof.
  intros w1.
  assert ("slow" ∉ tags Sample.great) as Hno.
  { intros [Hin|Hin]%elem_of_cons; [discriminate Hin|].
    by apply elem_of_nil in Hin. }
  assert (∃ d1, w1.1 = Resolved (DDoc d1) ∧ tags d1 = ["fast"; "slow"])
    as (d1 & H1 & Ht1).
  { eexists. split; vm_compute; reflexivity. }
  assert (∃ d2, (@run Sample.engine Sample.clock Sample.fresh _
                   (SearchIndex.removeTag d1 "slow") w1.2).1 =
                Resolved (DDoc d2) ∧ indexedAt d2 = 1003) as (d2 & H2 & Hi2).
  { injection H1 as <-. eexists. split; vm_compute; reflexivity. }
  exists d1, d2.
  destruct (@X2_addTag_removeTag_round_trip Sample.engine Sample.clock
              Sample.fresh Sample.great d1 d2 "slow" Sample.world Hno H1 H2)
    as (_ & Ht2 & Hsame).
  split_and!; [exact Hno|exact H1|exact H2|exact Ht1|exact Ht2|exact Hi2|
               exact Hsame].
Defined.

Lemma X25_witness :
  let body := {| Routes.ab_query := VStr "service"; Routes.ab_filters := None;
                 Routes.ab_pagination := None; Routes.ab_sort := None |} in
  let answer := λ _ : StorageCall, Rejected in
  ("isActive" ∉ filter_keys) ∧
  calls answer 0 "a"
    (Routes.post_search_advanced (with_filter "isActive" (VBool false) body)) =
  calls answer 0 "a" (Routes.post_search_advanced body).
Proof.
  intros body answer.
  assert ("isActive" ∉ filter_keys) as Hk.
  { unfold filter_keys. intros Hin.
    repeat (apply elem_of_cons in Hin as [Hin|Hin]; [discriminate Hin|]).
    by apply elem_of_nil in Hin. }
  split; [exact Hk|].
  exact (proj1 (X25_advanced_filters_read body "isActive" (VBool false)
                  answer 0 "a" Hk)).
Defined.

(** The scenario of the claim on the high-rated listing: two records of
    B1 rated 5 and 3, and the request for those rated 4 or more.  The
    request is answered by the search by content type, whose sort by
    relevance the sample engine refuses without a text to search for:
    the record rated 5 is not in the answer. *)
Lemma C9_witness :
  let query := Sample.query_of [("businessId", "B1"); ("minRating", "4")] in
  let r := (@run Sample.engine Sample.clock Sample.fresh _
              (Routes.get_search_contentType "high-rated" query)
              Sample.pair_world).1 in
  (∀ d, d ∈ docs Sample.pair_world → contentType d ≠ "high-rated") ∧
  Sample.great ∈ docs Sample.pair_world ∧
  isActive Sample.great = true ∧ businessId Sample.great = "B1" ∧
  rating (metadata Sample.great) = Some 5 ∧
  @serve_get Sample.engine ["api"; "search"; "high-rated"] query =
    Some (Routes.get_search_contentType "high-rated" query) ∧
  status r = 500 ∧
  (data r = DDocs [] ∨ data r = DNone).
Proof.
  intros query r.
  assert (∀ d, d ∈ docs Sample.pair_world → contentType d ≠ "high-rated")
    as Hno.
  { intros d Hd. cbn [docs Sample.pair_world] in Hd.
    repeat (apply elem_of_cons in Hd as [->|Hd]; [discriminate|]).
    by apply elem_of_nil in Hd. }
  destruct (@C9_high_rated_listing_is_not_reached Sample.engine Sample.clock
              Sample.fresh query Sample.pair_world Hno)
    as (_ & Hserve & _ & _ & Hr).
  cbv zeta in Hr. fold r in Hr.
  split; [exact Hno|]. split; [left|]. split; [reflexivity|].
  split; [reflexivity|]. split; [reflexivity|]. split; [exact Hserve|].
  split; [vm_compute; reflexivity|].
  destruct Hr as [(_ & Hd & _)|(_ & Hd)]; [left; exact Hd|right; exact Hd].
Defined.
